(** * market-news-validator: job orchestration and progress broadcast

    A shallow embedding of the backend of the web application:
    - [services/stockAnalysis.js]: [collectAndAnalyzeStock] and
      [runPythonAnalyzer] (the supervisor of the Python worker and the
      keyword classifier of its stderr lines), [getRecentAnalysis] and
      [batchAnalysis];
    - the server module: the socket.io [join-analysis] / [leave-analysis]
      handlers, [sendProgress], [sendRealtimeLog], [runJavaScriptAnalysis],
      [saveAnalysisToDatabase] and the [POST /api/analysis] handler;
    - the [Database] class over MongoDB collections, with its cache;
    - [services/newsCollector.js]: [removeDuplicates] and [collectNews]
      over what the two searches return.

    JavaScript strings are sequences of UTF-16 code units, numbers are
    IEEE 754 binary64 values ([spec_float] with precision 53), MongoDB
    collections are finite maps or lists, socket.io rooms are finite maps
    from room names to sets of socket ids.  The event loop is a list of
    events handled one after the other. *)

From Stdlib Require Import ZArith NArith Bool Ascii String.
From Stdlib Require Import Floats.SpecFloat.
From stdpp Require Import base option list gmap pretty.

Local Open Scope Z_scope.
Local Set Warnings "-register-all".

(** ** JavaScript strings *)

Module JsString.

(** A string is the list of its UTF-16 code units. *)
Definition jsstring := list N.

(** Source literals are written as UTF-8 text and decoded here; a code
    point above U+FFFF becomes a surrogate pair. *)
Definition cont (a : ascii) : N := N.land (N_of_ascii a) 63.

Fixpoint js (s : string) : jsstring :=
  match s with
  | EmptyString => []
  | String a r =>
    let x := N_of_ascii a in
    if (x <? 128)%N then x :: js r
    else if (x <? 224)%N then
      match r with
      | String b r1 => (N.lor (N.shiftl (N.land x 31) 6) (cont b)) :: js r1
      | _ => []
      end
    else if (x <? 240)%N then
      match r with
      | String b (String c r2) =>
        (N.lor (N.shiftl (N.land x 15) 12)
               (N.lor (N.shiftl (cont b) 6) (cont c))) :: js r2
      | _ => []
      end
    else
      match r with
      | String b (String c (String d r3)) =>
        let cp := N.lor (N.shiftl (N.land x 7) 18)
                 (N.lor (N.shiftl (cont b) 12)
                 (N.lor (N.shiftl (cont c) 6) (cont d))) in
        let v := (cp - 65536)%N in
        (55296 + N.shiftr v 10)%N :: (56320 + N.land v 1023)%N :: js r3
      | _ => []
      end
  end.

(** [String.prototype.startsWith]. *)
Fixpoint startsWith (p s : jsstring) : bool :=
  match p, s with
  | [], _ => true
  | _ :: _, [] => false
  | a :: p', b :: s' => (a =? b)%N && startsWith p' s'
  end.

(** [String.prototype.endsWith]. *)
Definition endsWith (p s : jsstring) : bool :=
  startsWith (rev p) (rev s).

(** [String.prototype.includes]: the needle occurs at some position. *)
Fixpoint includes (p s : jsstring) : bool :=
  startsWith p s ||
  match s with
  | [] => false
  | _ :: s' => includes p s'
  end.

(** White space and line terminators of ECMAScript, the characters
    removed by [trim] and matched by [\s]. *)
Definition is_space (c : N) : bool :=
  ((9 <=? c) && (c <=? 13) || (c =? 32) || (c =? 160) || (c =? 5760)
   || (8192 <=? c) && (c <=? 8202) || (c =? 8232) || (c =? 8233)
   || (c =? 8239) || (c =? 8287) || (c =? 12288) || (c =? 65279))%N.

Fixpoint trimStart (s : jsstring) : jsstring :=
  match s with
  | [] => []
  | c :: s' => if is_space c then trimStart s' else s
  end.

Definition trimEnd (s : jsstring) : jsstring := rev (trimStart (rev s)).

(** [String.prototype.trim]. *)
Definition trim (s : jsstring) : jsstring := trimEnd (trimStart s).

(** [s.split(sep)] for a separator of one code unit; the result is
    never empty. *)
Fixpoint split (sep : N) (s : jsstring) : list jsstring :=
  match s with
  | [] => [[]]
  | c :: s' =>
    if (c =? sep)%N then [] :: split sep s'
    else match split sep s' with
         | h :: r => (c :: h) :: r
         | [] => [[c]]
         end
  end.

Definition newline : N := 10%N.

Definition is_digit (c : N) : bool := ((48 <=? c) && (c <=? 57))%N.

(** [s.replace(/^\[\d{2}:\d{2}:\d{2}\]\s*/, '')]: a leading
    [[hh:mm:ss]] stamp and the white space after it are removed. *)
Definition strip_timestamp (s : jsstring) : jsstring :=
  match s with
  | o :: h1 :: h2 :: c1 :: m1 :: m2 :: c2 :: s1 :: s2 :: c :: r =>
    if ((o =? 91) && is_digit h1 && is_digit h2 && (c1 =? 58)
        && is_digit m1 && is_digit m2 && (c2 =? 58)
        && is_digit s1 && is_digit s2 && (c =? 93))%N
    then trimStart r else s
  | _ => s
  end.

(** Decimal text of a natural number, as a template literal prints it. *)
Definition of_nat (n : nat) : jsstring := js (pretty n).

(** Decimal text of an integer. *)
Definition of_Z (z : Z) : jsstring := js (pretty z).

End JsString.
Export JsString.

(** ** JavaScript numbers and values *)

Module JsNumber.

(** A number is an IEEE 754 binary64 value. *)
Definition number := spec_float.

Definition prec : Z := 53.
Definition emax : Z := 1024.

Definition add : number -> number -> number := SFadd prec emax.
Definition div : number -> number -> number := SFdiv prec emax.
Definition abs : number -> number := SFabs.

(** The number of a count (an exact conversion below 2^53). *)
Definition of_nat (n : nat) : number :=
  binary_normalize prec emax (Z.of_nat n) 0 false.

Definition zero : number := S754_zero false.
Definition one : number := S754_finite false 4503599627370496 (-52).
Definition ten : number := S754_finite false 5629499534213120 (-49).
(** The literal [0.1], that is 0x1.999999999999ap-4. *)
Definition point_one : number := S754_finite false 7205759403792794 (-56).
Definition minus_point_one : number := SFopp point_one.

Definition isNaN (x : number) : bool :=
  match x with S754_nan => true | _ => false end.

Definition is_zero (x : number) : bool :=
  match x with S754_zero _ => true | _ => false end.

(** [x > y] and [x < y]; both are false when an operand is NaN. *)
Definition gt (x y : number) : bool := SFltb y x.
Definition lt (x y : number) : bool := SFltb x y.
Definition le (x y : number) : bool := SFleb x y.

(** ToBoolean of a number: NaN, +0 and -0 are falsy. *)
Definition truthy (x : number) : bool := negb (isNaN x || is_zero x).

(** [x || 0] for a number [x]. *)
Definition or_zero (x : number) : number := if truthy x then x else zero.

(** [Math.min(x, y)]. *)
Definition min (x y : number) : number :=
  if isNaN x || isNaN y then S754_nan
  else if is_zero x && is_zero y then
    match x with S754_zero true => x | _ => y end
  else if SFltb y x then y else x.

End JsNumber.
Export JsNumber.

Module JsValue.

(** The values [JSON.parse] can produce, and [undefined]. *)
Inductive jsval : Type :=
| JUndefined
| JNull
| JBool (b : bool)
| JNum (x : number)
| JStr (s : jsstring)
| JArr (l : list jsval)
| JObj (fields : list (jsstring * jsval)).

(** ToBoolean. *)
Definition truthy (v : jsval) : bool :=
  match v with
  | JUndefined | JNull => false
  | JBool b => b
  | JNum x => JsNumber.truthy x
  | JStr s => match s with [] => false | _ => true end
  | JArr _ | JObj _ => true
  end.

Fixpoint assoc (k : jsstring) (fs : list (jsstring * jsval)) : jsval :=
  match fs with
  | [] => JUndefined
  | (k', v) :: r => if decide (k = k') then v else assoc k r
  end.

(** [v.k] for the property names the program reads, none of which is
    inherited from a prototype: [None] is the TypeError raised on
    [undefined] and [null]; a missing property reads as [undefined]. *)
Definition get_prop (v : jsval) (k : jsstring) : option jsval :=
  match v with
  | JUndefined | JNull => None
  | JObj fs => Some (assoc k fs)
  | _ => Some JUndefined
  end.

Definition isArray (v : jsval) : bool :=
  match v with JArr _ => true | _ => false end.

(** [Object.entries(v)] for a JSON value. *)
Definition entries (v : jsval) : list (jsstring * jsval) :=
  match v with
  | JObj fs => fs
  | JArr l => imap (fun i x => (JsString.of_nat i, x)) l
  | JStr s => imap (fun i c => (JsString.of_nat i, JStr [c])) s
  | _ => []
  end.

End JsValue.
Export JsValue.

(** ** The host

    Built-in functions of the runtime and of the MongoDB driver that the
    program calls; the development is parametric in them. *)

(** A MongoDB ObjectId is a number of 96 bits. *)
Definition oid := N.
Definition oid_bound : N := (2 ^ 96)%N.

Class Host := {
  (** [JSON.parse]; [None] when it throws a SyntaxError. *)
  JSON_parse : jsstring -> option jsval;
  (** [parseFloat]. *)
  parseFloat : jsval -> number;
  (** [parseInt]; [None] is NaN. *)
  parseInt : jsval -> option Z;
  (** [Array.from]; [None] when it throws a TypeError. *)
  Array_from : jsval -> option (list jsval);
  (** [new ObjectId(s)]; [None] when [ObjectId.isValid(s)] is false. *)
  ObjectId_parse : jsstring -> option oid;
  (** [id.toString()]. *)
  ObjectId_toString : oid -> jsstring;
  ObjectId_roundtrip :
    forall i, (i < oid_bound)%N -> ObjectId_parse (ObjectId_toString i) = Some i;
  (** [d.toISOString().split('T')[0]] for the instant [d] in milliseconds. *)
  isoDate : Z -> jsstring;
  (** [x.toFixed(3)]. *)
  toFixed3 : number -> jsstring
}.

(** ** Data model *)

(** [status] of an analysis request. *)
Inductive job_status := pending | processing | completed | failed.

(** A document of the [analysis_requests] collection. *)
Record request_doc := {
  stock_name : jsstring;
  start_date : jsstring;
  end_date : jsstring;
  status : job_status;
  created_at : Z;
  updated_at : Z;
  completed_at : option Z
}.

Inductive sentiment := positive | negative | neutral.

(** The object returned by [collectAndAnalyzeStock], and the fields of
    it that [saveAnalysisResults] stores. *)
Record analysis := {
  positive_count : nat;
  negative_count : nat;
  neutral_count : nat;
  overall_sentiment : sentiment;
  overall_score : number;
  confidence_score : number;
  total_news_count : nat;
  analyzed_news_count : nat;
  report_text : jsval;
  news_data : list jsval;
  analyzed_news : list jsval;
  significant_news : list jsval;
  indicators_data : jsval;
  policy_impact : jsval
}.

(** The [stepId] of a progress event or of a log entry. *)
Inductive step_id :=
| step_init | step_processing | news_collection | economic_data
| sentiment_analysis | policy_analysis | report_generation
| python_analyzer | step_save | step_complete | step_analysis.

(** The [status] of a progress event. *)
Inductive step_status := loading | success | error.

(** The [type] of a realtime log entry. *)
Inductive log_type := log_success | log_error | log_warning | log_info.

(** The payload of a ['progress'] event; [details] is absent when empty. *)
Record progressData := {
  p_requestId : jsstring;
  p_stepId : step_id;
  p_label : jsstring;
  p_status : step_status;
  p_message : jsstring;
  p_timestamp : Z;
  p_details : list jsstring
}.

(** The payload of a ['realtime-log'] event. *)
Record logEntry := {
  l_requestId : jsstring;
  l_stepId : step_id;
  l_timestamp : Z;
  l_message : jsstring;
  l_type : log_type
}.

(** What a socket can receive from the server. *)
Inductive message :=
| Progress (p : progressData)
| RealtimeLog (l : logEntry)
| JoinedAnalysis (requestId : jsstring)
| LeftAnalysis (requestId : jsstring).

Definition socket_id := nat.

(** Effects in the order in which they happen. *)
Inductive action :=
| DbInsertRequest (id : oid)
| DbUpdateStatus (id : oid) (s : job_status) (completedAt : option Z)
| DbSaveResults (id : oid)
| DbSaveNews (id : oid) (count : nat)
| DbSaveIndicators (id : oid) (count : nat)
| DbAddLog (id : option oid) (level component msg : jsstring)
| IoEmit (room : jsstring) (m : message)
| SocketEmit (s : socket_id) (m : message)
| Spawn (args : list jsstring)
| Kill.

(** The state of the server: the MongoDB collections, the socket.io
    rooms, what every socket has received so far, the effects so far,
    the clock, and the source of the ObjectIds that the driver gives to
    documents inserted without an [_id].  [now] is what [new Date()]
    reads: the steps of a request do not move it, so the times written
    during one request are one reading of the clock, and what is stated
    of a time is that it is set or not set, never how two times
    compare. *)
Record world := mkWorld {
  analysis_requests : gmap oid request_doc;
  analysis_results : gmap oid analysis;
  news_data_docs : list (oid * jsval);
  economic_indicators : list (oid * jsstring * jsval);
  system_logs : list (option oid * jsstring * jsstring * jsstring);
  rooms : gmap jsstring (gset socket_id);
  inbox : socket_id -> list message;
  trace : list action;
  now : Z;
  next_oid : N
}.

Definition log_action (a : action) (w : world) : world :=
  mkWorld (analysis_requests w) (analysis_results w) (news_data_docs w)
          (economic_indicators w) (system_logs w) (rooms w) (inbox w)
          (trace w ++ [a]) (now w) (next_oid w).

Definition set_requests (r : gmap oid request_doc) (w : world) : world :=
  mkWorld r (analysis_results w) (news_data_docs w)
          (economic_indicators w) (system_logs w) (rooms w) (inbox w)
          (trace w) (now w) (next_oid w).

Definition set_results (r : gmap oid analysis) (w : world) : world :=
  mkWorld (analysis_requests w) r (news_data_docs w)
          (economic_indicators w) (system_logs w) (rooms w) (inbox w)
          (trace w) (now w) (next_oid w).

Definition set_news (n : list (oid * jsval)) (w : world) : world :=
  mkWorld (analysis_requests w) (analysis_results w) n
          (economic_indicators w) (system_logs w) (rooms w) (inbox w)
          (trace w) (now w) (next_oid w).

Definition set_indicators (e : list (oid * jsstring * jsval)) (w : world)
  : world :=
  mkWorld (analysis_requests w) (analysis_results w) (news_data_docs w)
          e (system_logs w) (rooms w) (inbox w) (trace w) (now w)
          (next_oid w).

Definition set_logs (l : list (option oid * jsstring * jsstring * jsstring))
  (w : world) : world :=
  mkWorld (analysis_requests w) (analysis_results w) (news_data_docs w)
          (economic_indicators w) l (rooms w) (inbox w) (trace w) (now w)
          (next_oid w).

Definition set_rooms (r : gmap jsstring (gset socket_id)) (w : world)
  : world :=
  mkWorld (analysis_requests w) (analysis_results w) (news_data_docs w)
          (economic_indicators w) (system_logs w) r (inbox w)
          (trace w) (now w) (next_oid w).

Definition set_inbox (i : socket_id -> list message) (w : world) : world :=
  mkWorld (analysis_requests w) (analysis_results w) (news_data_docs w)
          (economic_indicators w) (system_logs w) (rooms w) i
          (trace w) (now w) (next_oid w).

Definition set_next_oid (n : N) (w : world) : world :=
  mkWorld (analysis_requests w) (analysis_results w) (news_data_docs w)
          (economic_indicators w) (system_logs w) (rooms w) (inbox w)
          (trace w) (now w) n.

(** ** Computations that can throw

    An [async] function is a computation over the [world] that returns,
    throws, or waits for ever on a promise that is never settled. *)

Record exn := { exn_message : jsstring; exn_code : option Z }.

Inductive outcome (A : Type) :=
| Ok (a : A)
| Throw (e : exn)
| Pending.
Arguments Ok {A} a.
Arguments Throw {A} e.
Arguments Pending {A}.

Definition M (A : Type) : Type := world -> outcome A * world.

Definition ret {A} (a : A) : M A := fun w => (Ok a, w).

Definition bind {A B} (m : M A) (k : A -> M B) : M B :=
  fun w =>
    match m w with
    | (Ok a, w') => k a w'
    | (Throw e, w') => (Throw e, w')
    | (Pending, w') => (Pending, w')
    end.

Definition throw {A} (msg : jsstring) : M A :=
  fun w => (Throw {| exn_message := msg; exn_code := None |}, w).

Definition rethrow {A} (e : exn) : M A := fun w => (Throw e, w).

(** [try { m } catch (e) { h e }]. *)
Definition try_catch {A} (m : M A) (h : exn -> M A) : M A :=
  fun w =>
    match m w with
    | (Throw e, w') => h e w'
    | r => r
    end.

(** A statement that only changes the world. *)
Definition exec (f : world -> world) : M unit := fun w => (Ok tt, f w).

Definition get {A} (f : world -> A) : M A := fun w => (Ok (f w), w).

Declare Scope m_scope.
Delimit Scope m_scope with M.
Notation "x <- m ;; k" := (bind m (fun x => k))
  (at level 100, m at next level, right associativity) : m_scope.
Notation "m ;; k" := (bind m (fun _ => k))
  (at level 100, right associativity) : m_scope.
Local Open Scope m_scope.

Section Backend.

Context {host : Host}.

(** ** The [Database] class

    The connection is assumed to be up: an operation fails only for a
    malformed ObjectId, a duplicate [_id], or a document it cannot read. *)

Definition bson_error {A} : M A :=
  throw (js "input must be a 24 character hex string, 12 byte Uint8Array, or an integer").

Definition type_error {A} : M A :=
  throw (js "Cannot read properties of undefined").

Definition new_request_doc (stockName startDate endDate : jsstring) (t : Z)
  : request_doc :=
  {| stock_name := stockName; start_date := startDate; end_date := endDate;
     status := pending; created_at := t; updated_at := t;
     completed_at := None |}.

(** [collection('analysis_requests').insertOne(doc)] for a document with
    the given [_id]: a second document with the same [_id] is refused
    with error code 11000. *)
Definition insertOne (id : oid) (doc : request_doc) : M unit :=
  fun w =>
    match analysis_requests w !! id with
    | Some _ =>
      (Throw {| exn_message := js "E11000 duplicate key error collection";
                exn_code := Some 11000 |}, w)
    | None =>
      (Ok tt, log_action (DbInsertRequest id)
                (set_requests (<[id := doc]> (analysis_requests w)) w))
    end.

(** The ObjectId the driver makes up for a document without [_id]. *)
Definition generate_oid : M oid :=
  fun w => (Ok (next_oid w mod oid_bound)%N,
            set_next_oid (next_oid w + 1)%N w).

Definition createAnalysisRequest (stockName startDate endDate : jsstring)
  : M jsstring :=
  t <- get now ;;
  id <- generate_oid ;;
  insertOne id (new_request_doc stockName startDate endDate t) ;;
  ret (ObjectId_toString id).

Definition createAnalysisRequestWithId
  (requestId stockName startDate endDate : jsstring) : M jsstring :=
  match ObjectId_parse requestId with
  | None => throw (js "Invalid requestId format")
  | Some id =>
    t <- get now ;;
    try_catch
      (insertOne id (new_request_doc stockName startDate endDate t) ;;
       ret requestId)
      (fun error =>
         if decide (exn_code error = Some 11000) then ret requestId
         else rethrow error)
  end.

Definition update_doc (s : job_status) (completedAt : option Z) (t : Z)
  (d : request_doc) : request_doc :=
  {| stock_name := stock_name d; start_date := start_date d;
     end_date := end_date d; status := s; created_at := created_at d;
     updated_at := t;
     completed_at := match completedAt with
                     | Some c => Some c
                     | None => completed_at d
                     end |}.

(** [updateOne] without upsert: a missing document is not created. *)
Definition updateAnalysisStatus (requestId : jsstring) (s : job_status)
  (completedAt : option Z) : M unit :=
  t <- get now ;;
  match ObjectId_parse requestId with
  | None => bson_error
  | Some id =>
    exec (fun w =>
      log_action (DbUpdateStatus id s completedAt)
        (set_requests (alter (update_doc s completedAt t) id
                             (analysis_requests w)) w))
  end.

(** [findOne] on [analysis_requests]. *)
Definition getAnalysisRequest (requestId : jsstring) (w : world)
  : option request_doc :=
  match ObjectId_parse requestId with
  | None => None
  | Some id => analysis_requests w !! id
  end.

(** [v || d]. *)
Definition or_else (v d : jsval) : jsval := if truthy v then v else d.

(** The [resultDoc] of [saveAnalysisResults]: every field is stored as
    [results.field || d] with its default [d].  The default does
    nothing to a count, to one of the three sentiments or to an array;
    it turns a score that is NaN or zero into [0] and a falsy report,
    [indicators_data] or [policy_impact] into the empty string or the
    empty object. *)
Definition resultDoc (results : analysis) : analysis :=
  {| positive_count := positive_count results;
     negative_count := negative_count results;
     neutral_count := neutral_count results;
     overall_sentiment := overall_sentiment results;
     overall_score := or_zero (overall_score results);
     confidence_score := or_zero (confidence_score results);
     total_news_count := total_news_count results;
     analyzed_news_count := analyzed_news_count results;
     report_text := or_else (report_text results) (JStr []);
     news_data := news_data results;
     analyzed_news := analyzed_news results;
     significant_news := significant_news results;
     indicators_data := or_else (indicators_data results) (JObj []);
     policy_impact := or_else (policy_impact results) (JObj []) |}.

(** [replaceOne] with upsert on [analysis_results]. *)
Definition saveAnalysisResults (analysisRequestId : jsstring)
  (results : analysis) : M unit :=
  match ObjectId_parse analysisRequestId with
  | None => bson_error
  | Some id =>
    exec (fun w =>
      log_action (DbSaveResults id)
        (set_results (<[id := resultDoc results]> (analysis_results w)) w))
  end.

(** [findOne] on [analysis_results]; [None] is the [null] of a record
    that is not there. *)
Definition getAnalysisResults (analysisRequestId : jsstring) (w : world)
  : option analysis :=
  match ObjectId_parse analysisRequestId with
  | None => None
  | Some id => analysis_results w !! id
  end.

(** A value whose properties can be read. *)
Definition readable (v : jsval) : bool :=
  match v with JUndefined | JNull => false | _ => true end.

Definition saveNewsData (analysisRequestId : jsstring)
  (newsArray : list jsval) : M unit :=
  match newsArray with
  | [] => ret tt
  | _ =>
    match ObjectId_parse analysisRequestId with
    | None => bson_error
    | Some id =>
      if forallb readable newsArray then
        exec (fun w =>
          log_action (DbSaveNews id (length newsArray))
            (set_news (news_data_docs w ++ map (pair id) newsArray) w))
      else type_error
    end
  end.

(** The items of the arrays among the values of [indicatorsData], each
    with the key it came under. *)
Definition indicator_items (indicatorsData : jsval)
  : list (jsstring * jsval) :=
  flat_map (fun e => match snd e with
                     | JArr l => map (pair (fst e)) l
                     | _ => []
                     end) (entries indicatorsData).

Definition saveEconomicIndicators (analysisRequestId : jsstring)
  (indicatorsData : jsval) : M unit :=
  if negb (truthy indicatorsData) then ret tt
  else
    match indicator_items indicatorsData with
    | [] => ret tt
    | items =>
      match ObjectId_parse analysisRequestId with
      | None => bson_error
      | Some id =>
        if forallb (fun e => readable (snd e)) items then
          exec (fun w =>
            log_action (DbSaveIndicators id (length items))
              (set_indicators
                 (economic_indicators w
                    ++ map (fun e => (id, fst e, snd e)) items) w))
        else type_error
      end
    end.

Definition addLog (analysisRequestId level component msg : jsstring)
  : M unit :=
  match analysisRequestId with
  | [] =>
    exec (fun w => log_action (DbAddLog None level component msg)
                     (set_logs (system_logs w ++ [(None, level, component, msg)]) w))
  | _ =>
    match ObjectId_parse analysisRequestId with
    | None => bson_error
    | Some id =>
      exec (fun w =>
        log_action (DbAddLog (Some id) level component msg)
          (set_logs (system_logs w ++ [(Some id, level, component, msg)]) w))
    end
  end.

(** ** socket.io rooms *)

(** The room of a request: [`analysis-${requestId}`]. *)
Definition roomName (requestId : jsstring) : jsstring :=
  js "analysis-" ++ requestId.

(** The sockets that are in a room now. *)
Definition roomClients (room : jsstring) (w : world) : gset socket_id :=
  default ∅ (rooms w !! room).

(** [io.to(room).emit(...)]: the message is handed to the sockets that
    are in the room at this moment and to no one else. *)
Definition io_to_emit (room : jsstring) (m : message) (w : world) : world :=
  log_action (IoEmit room m)
    (set_inbox (fun s => if decide (s ∈ roomClients room w)
                         then inbox w s ++ [m] else inbox w s) w).

(** [socket.emit(...)]. *)
Definition socket_emit (s : socket_id) (m : message) (w : world) : world :=
  log_action (SocketEmit s m)
    (set_inbox (fun s' => if decide (s' = s)
                          then inbox w s' ++ [m] else inbox w s') w).

(** The ['join-analysis'] handler. *)
Definition on_join_analysis (s : socket_id) (requestId : jsstring)
  (w : world) : world :=
  match requestId with
  | [] => w
  | _ =>
    let room := roomName requestId in
    socket_emit s (JoinedAnalysis requestId)
      (set_rooms (<[room := roomClients room w ∪ {[s]}]> (rooms w)) w)
  end.

(** The ['leave-analysis'] handler. *)
Definition on_leave_analysis (s : socket_id) (requestId : jsstring)
  (w : world) : world :=
  match requestId with
  | [] => w
  | _ =>
    let room := roomName requestId in
    socket_emit s (LeftAnalysis requestId)
      (set_rooms (<[room := roomClients room w ∖ {[s]}]> (rooms w)) w)
  end.

(** On ['disconnect'] socket.io takes the socket out of every room. *)
Definition on_disconnect (s : socket_id) (w : world) : world :=
  set_rooms ((fun members => members ∖ {[s]}) <$> rooms w) w.

(** The [sendProgress] closure of a request. *)
Definition sendProgress (requestId : jsstring) (stepId : step_id)
  (label : jsstring) (st : step_status) (msg : jsstring)
  (details : list jsstring) (w : world) : world :=
  io_to_emit (roomName requestId)
    (Progress {| p_requestId := requestId; p_stepId := stepId;
                 p_label := label; p_status := st; p_message := msg;
                 p_timestamp := now w; p_details := details |}) w.

(** The [sendRealtimeLog] closure of a request. *)
Definition sendRealtimeLog (requestId : jsstring) (stepId : step_id)
  (msg : jsstring) (ty : log_type) (w : world) : world :=
  io_to_emit (roomName requestId)
    (RealtimeLog {| l_requestId := requestId; l_stepId := stepId;
                    l_timestamp := now w; l_message := msg;
                    l_type := ty |}) w.

Definition progress_fn : Type :=
  step_id -> jsstring -> step_status -> jsstring -> list jsstring ->
  world -> world.

Definition log_fn : Type := step_id -> jsstring -> log_type -> world -> world.

(** [if (f) f(...)] for an optional callback. *)
Definition call_if {F} (f : option F) (k : F -> world -> world)
  : world -> world :=
  match f with
  | Some g => k g
  | None => fun w => w
  end.

(** ** [runPythonAnalyzer]: the classifier of stderr lines *)

(** [line.includes(k)] for a literal [k]. *)
Definition has (k : string) (line : jsstring) : bool := includes (js k) line.

(** What the rule chain does with one line: the value it leaves in
    [currentActiveStep] and the [sendProgress] call it makes, if any. *)
Record classified := {
  c_active : step_id;
  c_progress : option (step_id * jsstring * step_status * jsstring)
}.

(** The chain of [if ... else if ...] over [cleanLine], as written. *)
Definition classify (cleanLine : jsstring) (currentActiveStep : step_id)
  : classified :=
  if (has "뉴스" cleanLine || has "[뉴스]" cleanLine) &&
     (has "수집" cleanLine || has "발견" cleanLine || has "크롤링" cleanLine
      || has "API" cleanLine || has "개 수집" cleanLine)
  then
    if has "완료" cleanLine || has "[완료]" cleanLine || has "수집 완료" cleanLine
    then {| c_active := economic_data;
            c_progress := Some (news_collection, js "뉴스 수집", success,
                                js "뉴스 수집이 완료되었습니다") |}
    else if has "시작" cleanLine || has "API 호출" cleanLine
    then {| c_active := news_collection;
            c_progress := Some (news_collection, js "뉴스 수집", loading,
                                js "뉴스를 수집하고 있습니다") |}
    else {| c_active := news_collection; c_progress := None |}
  else if (has "경제지표" cleanLine || has "[분석]" cleanLine) &&
          (has "ECOS" cleanLine || has "금리" cleanLine || has "환율" cleanLine
           || has "물가" cleanLine || has "수집" cleanLine)
  then
    if has "완료" cleanLine || has "[완료]" cleanLine
    then {| c_active := policy_analysis;
            c_progress := Some (economic_data, js "경제지표 수집", success,
                                js "경제지표 수집이 완료되었습니다") |}
    else if has "시작" cleanLine || has "요청" cleanLine
    then {| c_active := economic_data;
            c_progress := Some (economic_data, js "경제지표 수집", loading,
                                js "경제지표를 수집하고 있습니다") |}
    else {| c_active := economic_data; c_progress := None |}
  else if has "정책" cleanLine || has "정치" cleanLine || has "정부" cleanLine
  then
    if has "완료" cleanLine || has "[완료]" cleanLine
    then {| c_active := sentiment_analysis;
            c_progress := Some (policy_analysis, js "정책 분석", success,
                                js "정책 분석이 완료되었습니다") |}
    else if has "시작" cleanLine || has "분석 중" cleanLine
    then {| c_active := policy_analysis;
            c_progress := Some (policy_analysis, js "정책 분석", loading,
                                js "정책 영향을 분석하고 있습니다") |}
    else {| c_active := policy_analysis; c_progress := None |}
  else if has "감정 분석" cleanLine || has "AI" cleanLine || has "GPT" cleanLine
          || has "OpenAI" cleanLine || has "[AI]" cleanLine
          || has "분석 완료" cleanLine || has "API 호출" cleanLine
          || has "캐시" cleanLine
  then
    if has "감정 분석 완료" cleanLine || has "분석 완료" cleanLine
       || has "[완료]" cleanLine
    then {| c_active := report_generation;
            c_progress := Some (sentiment_analysis, js "감정 분석", success,
                                js "감정 분석이 완료되었습니다") |}
    else if has "시작" cleanLine || has "API 호출" cleanLine
    then {| c_active := sentiment_analysis;
            c_progress := Some (sentiment_analysis, js "감정 분석", loading,
                                js "AI 감정 분석을 진행하고 있습니다") |}
    else {| c_active := sentiment_analysis; c_progress := None |}
  else if has "리포트" cleanLine || has "보고서" cleanLine || has "생성" cleanLine
          || has "전망" cleanLine || has "모든 분석이 완료" cleanLine
          || has "Python 분석기 실행 완료" cleanLine
  then
    if has "Python 분석기 실행 완료" cleanLine
       || has "모든 분석이 완료" cleanLine || has "[완료]" cleanLine
    then {| c_active := report_generation;
            c_progress := Some (report_generation, js "리포트 생성", success,
                                js "최종 리포트 생성이 완료되었습니다") |}
    else if has "시작" cleanLine || has "생성 중" cleanLine
    then {| c_active := report_generation;
            c_progress := Some (report_generation, js "리포트 생성", loading,
                                js "최종 리포트를 생성하고 있습니다") |}
    else {| c_active := report_generation; c_progress := None |}
  else {| c_active := currentActiveStep; c_progress := None |}.

(** The [type] of the realtime log entry of a line. *)
Definition log_type_of (cleanLine : jsstring) : log_type :=
  if has "완료" cleanLine || has "✅" cleanLine || has "[완료]" cleanLine
  then log_success
  else if has "❌" cleanLine || has "[오류]" cleanLine || has "실패" cleanLine
          || has "오류" cleanLine
  then log_error
  else if has "⚠️" cleanLine || has "[주의]" cleanLine || has "경고" cleanLine
  then log_warning
  else log_info.

(** The lines of a chunk that are looked at: those of at least five code
    units after trimming.  The others are skipped by [continue]. *)
Definition skipped (line : jsstring) : bool :=
  let trimmedLine := trim line in
  match trimmedLine with
  | [] => true
  | _ => (length trimmedLine <? 5)%nat
  end.

(** The body of the loop over the lines of a stderr chunk. *)
Definition handle_line (send : progress_fn) (requestId : jsstring)
  (line : jsstring) (currentActiveStep : step_id) (w : world)
  : step_id * world :=
  if skipped line then (currentActiveStep, w)
  else
    let cleanLine := strip_timestamp (trim line) in
    let w1 := io_to_emit (roomName requestId)
                (RealtimeLog {| l_requestId := requestId;
                                l_stepId := currentActiveStep;
                                l_timestamp := now w;
                                l_message := cleanLine;
                                l_type := log_type_of cleanLine |}) w in
    let c := classify cleanLine currentActiveStep in
    (c_active c,
     match c_progress c with
     | Some (stepId, label, st, msg) => send stepId label st msg [] w1
     | None => w1
     end).

Fixpoint handle_lines (send : progress_fn) (requestId : jsstring)
  (lines : list jsstring) (currentActiveStep : step_id) (w : world)
  : step_id * world :=
  match lines with
  | [] => (currentActiveStep, w)
  | line :: rest =>
    let r := handle_line send requestId line currentActiveStep w in
    handle_lines send requestId rest (fst r) (snd r)
  end.

(** ** [runPythonAnalyzer]: the supervisor of the worker process *)

(** The object the promise is resolved with: [{success: true, data}] or
    [{success: false, error, timeout?, raw_output?, raw_error?}]. *)
Inductive pythonResult :=
| PySuccess (data : jsval)
| PyFailure (error : jsstring) (timeout : bool)
            (raw : option (jsstring * jsstring)).

Definition py_success (r : pythonResult) : bool :=
  match r with PySuccess _ => true | PyFailure _ _ _ => false end.

(** The local variables of one call, and the promise it returns: the
    first call of [resolve] settles the promise and later calls do
    nothing.  [resolveCalls] counts every call. *)
Record supervisor := {
  processFinished : bool;
  timeoutCleared : bool;
  stdout : jsstring;
  stderr : jsstring;
  currentActiveStep : step_id;
  promise : option pythonResult;
  resolveCalls : nat
}.

Definition resolve (r : pythonResult) (st : supervisor) : supervisor :=
  {| processFinished := processFinished st;
     timeoutCleared := timeoutCleared st;
     stdout := stdout st; stderr := stderr st;
     currentActiveStep := currentActiveStep st;
     promise := match promise st with
                | Some p => Some p
                | None => Some r
                end;
     resolveCalls := S (resolveCalls st) |}.

Definition set_finished (st : supervisor) : supervisor :=
  {| processFinished := true; timeoutCleared := timeoutCleared st;
     stdout := stdout st; stderr := stderr st;
     currentActiveStep := currentActiveStep st;
     promise := promise st; resolveCalls := resolveCalls st |}.

Definition clearTimeout (st : supervisor) : supervisor :=
  {| processFinished := processFinished st; timeoutCleared := true;
     stdout := stdout st; stderr := stderr st;
     currentActiveStep := currentActiveStep st;
     promise := promise st; resolveCalls := resolveCalls st |}.

Definition append_stdout (chunk : jsstring) (st : supervisor) : supervisor :=
  {| processFinished := processFinished st;
     timeoutCleared := timeoutCleared st;
     stdout := stdout st ++ chunk; stderr := stderr st;
     currentActiveStep := currentActiveStep st;
     promise := promise st; resolveCalls := resolveCalls st |}.

Definition append_stderr (chunk : jsstring) (st : supervisor) : supervisor :=
  {| processFinished := processFinished st;
     timeoutCleared := timeoutCleared st;
     stdout := stdout st; stderr := stderr st ++ chunk;
     currentActiveStep := currentActiveStep st;
     promise := promise st; resolveCalls := resolveCalls st |}.

Definition set_active (a : step_id) (st : supervisor) : supervisor :=
  {| processFinished := processFinished st;
     timeoutCleared := timeoutCleared st;
     stdout := stdout st; stderr := stderr st;
     currentActiveStep := a;
     promise := promise st; resolveCalls := resolveCalls st |}.

Definition initial_supervisor : supervisor :=
  {| processFinished := false; timeoutCleared := false;
     stdout := []; stderr := []; currentActiveStep := news_collection;
     promise := None; resolveCalls := 0 |}.

(** What the event loop hands to the server while the worker runs. *)
Inductive event :=
| StdoutData (chunk : jsstring)
| StderrData (chunk : jsstring)
| Close (code : option Z)
| ProcessError (msg : jsstring)
| TimeoutFired
| SecondTimeoutFired
| JoinAnalysis (s : socket_id) (requestId : jsstring)
| LeaveAnalysis (s : socket_id) (requestId : jsstring)
| Disconnect (s : socket_id).

(** The loop over the lines of the captured output: the first line
    that, trimmed, starts with an opening brace, ends with a closing
    brace and parses ends the loop ([break]); a line that does not
    parse is passed over. *)
Fixpoint find_json (lines : list jsstring) : option jsval :=
  match lines with
  | [] => None
  | line :: rest =>
    let trimmedLine := trim line in
    if startsWith (js "{") trimmedLine && endsWith (js "}") trimmedLine then
      match JSON_parse trimmedLine with
      | Some v => Some v
      | None => find_json rest
      end
    else find_json rest
  end.

(** [jsonResult] after the loop; it starts as [null]. *)
Definition jsonResult_of (out : jsstring) : jsval :=
  default JNull (find_json (JsString.split newline out)).

(** The result made up when the output has no JSON line. *)
Definition default_data : jsval :=
  JObj [(js "analyzed_news", JArr []);
        (js "news_data", JArr []);
        (js "significant_news", JArr []);
        (js "indicators_data", JObj []);
        (js "report", JStr (js "Python 분석 완료 (JSON 출력 없음)"))].

(** The three stage events and the completion signal sent by the
    ['close'] handler. *)
Definition finish_steps (send : progress_fn) (msg : string) (w : world)
  : world :=
  send step_complete (js "분석 완료") success (js msg) []
    (send report_generation (js "리포트 생성") success
          (js "최종 리포트 생성이 완료되었습니다") []
       (send policy_analysis (js "정책 분석") success
             (js "정책 분석이 완료되었습니다") []
          (send economic_data (js "경제 데이터 수집") success
                (js "경제 지표 데이터 수집이 완료되었습니다") [] w))).

(** [`${code}`] for an exit code; [null] when a signal ended the process. *)
Definition code_text (code : option Z) : jsstring :=
  match code with
  | Some c => JsString.of_Z c
  | None => js "null"
  end.

(** The ['close'] handler. *)
Definition on_close (sendProgress : option progress_fn)
  (sendRealtimeLog : option log_fn) (code : option Z)
  (st : supervisor) (w : world) : supervisor * world :=
  if processFinished st then (st, w)
  else
    let st := clearTimeout (set_finished st) in
    if decide (code = Some 0) then
      let jsonResult := jsonResult_of (stdout st) in
      if truthy jsonResult then
        let w1 := call_if sendProgress
                    (fun send => finish_steps send
                       "모든 분석이 성공적으로 완료되었습니다") w in
        let w2 := call_if sendRealtimeLog
                    (fun lg => lg python_analyzer
                       (js "🎯 Python 분석기 성공적으로 완료") log_info) w1 in
        (resolve (PySuccess jsonResult) st, w2)
      else
        let w1 := call_if sendProgress
                    (fun send => finish_steps send
                       "분석이 완료되었습니다 (기본 결과)") w in
        (resolve (PySuccess default_data) st, w1)
    else
      (resolve (PyFailure (js "Python 실행 실패 (code: " ++ code_text code
                             ++ js ")")
                          false (Some (stdout st, stderr st))) st, w).

(** The ['data'] handler of stderr. *)
Definition on_stderr (sendProgress : option progress_fn)
  (requestId : jsstring) (chunk : jsstring) (st : supervisor) (w : world)
  : supervisor * world :=
  let st := append_stderr chunk st in
  match sendProgress with
  | Some send =>
    if processFinished st then (st, w)
    else
      let r := handle_lines send requestId (JsString.split newline chunk)
                 (currentActiveStep st) w in
      (set_active (fst r) st, snd r)
  | None => (st, w)
  end.

(** The first timer, whose handle is kept in [timeoutId]. *)
Definition on_timeout (st : supervisor) (w : world) : supervisor * world :=
  if timeoutCleared st then (st, w)
  else if processFinished st then (st, w)
  else
    (resolve (PyFailure (js "Python 분석기 타임아웃 (300초)") true None)
             (set_finished st),
     log_action Kill w).

(** The second timer, set at the end of the function and never cleared. *)
Definition on_second_timeout (st : supervisor) (w : world)
  : supervisor * world :=
  (resolve (PyFailure (js "Python 분석기 타임아웃 (300초)") false None) st,
   log_action Kill w).

(** The ['error'] handler of the process. *)
Definition on_error (msg : jsstring) (st : supervisor) (w : world)
  : supervisor * world :=
  (resolve (PyFailure (js "프로세스 오류: " ++ msg) false None) st, w).

(** One turn of the event loop. *)
Definition on_event (sendProgress : option progress_fn)
  (requestId : jsstring) (sendRealtimeLog : option log_fn)
  (e : event) (st : supervisor) (w : world) : supervisor * world :=
  match e with
  | StdoutData chunk => (append_stdout chunk st, w)
  | StderrData chunk => on_stderr sendProgress requestId chunk st w
  | Close code => on_close sendProgress sendRealtimeLog code st w
  | ProcessError msg => on_error msg st w
  | TimeoutFired => on_timeout st w
  | SecondTimeoutFired => on_second_timeout st w
  | JoinAnalysis s r => (st, on_join_analysis s r w)
  | LeaveAnalysis s r => (st, on_leave_analysis s r w)
  | Disconnect s => (st, on_disconnect s w)
  end.

(** The supervisor over a whole schedule, whether or not the promise is
    already settled. *)
Fixpoint supervise (sendProgress : option progress_fn)
  (requestId : jsstring) (sendRealtimeLog : option log_fn)
  (sched : list event) (st : supervisor) (w : world) : supervisor * world :=
  match sched with
  | [] => (st, w)
  | e :: rest =>
    let r := on_event sendProgress requestId sendRealtimeLog e st w in
    supervise sendProgress requestId sendRealtimeLog rest (fst r) (snd r)
  end.

(** [await] on the promise: the events are handled in turn until one of
    them settles it; with no such event the caller waits for ever. *)
Fixpoint await_promise (sendProgress : option progress_fn)
  (requestId : jsstring) (sendRealtimeLog : option log_fn)
  (sched : list event) (st : supervisor) : M pythonResult :=
  fun w =>
    match promise st with
    | Some r => (Ok r, w)
    | None =>
      match sched with
      | [] => (Pending, w)
      | e :: rest =>
        let r := on_event sendProgress requestId sendRealtimeLog e st w in
        await_promise sendProgress requestId sendRealtimeLog rest
                      (fst r) (snd r)
      end
    end.

(** The two timers of a run fire at the deadline, after the events
    [before] it and ahead of the events [after] it. *)
Definition with_deadline (before after : list event) : list event :=
  before ++ TimeoutFired :: SecondTimeoutFired :: after.

Definition runPythonAnalyzer (stockName startDate endDate : jsstring)
  (sendProgress : option progress_fn) (requestId : jsstring)
  (sendRealtimeLog : option log_fn) (sched : list event)
  : M pythonResult :=
  exec (call_if sendProgress (fun send =>
    send python_analyzer (js "Python 분석기 실행") loading
         (js "Python 분석기를 시작하고 있습니다")
         [js "📊 분석 대상: " ++ stockName;
          js "📅 분석 기간: " ++ startDate ++ js " ~ " ++ endDate;
          js "🐍 Python 분석 엔진 초기화 중..."])) ;;
  exec (log_action (Spawn [stockName; startDate; endDate])) ;;
  await_promise sendProgress requestId sendRealtimeLog sched
                initial_supervisor.

(** ** [collectAndAnalyzeStock] *)

(** The counters of the statistics loop. *)
Record counters := {
  positiveCount : nat;
  negativeCount : nat;
  neutralCount : nat;
  totalSentimentScore : number;
  validScoreCount : nat
}.

Definition no_counters : counters :=
  {| positiveCount := 0; negativeCount := 0; neutralCount := 0;
     totalSentimentScore := zero; validScoreCount := 0 |}.

(** [parseFloat(news.score) || 0]. *)
Definition score_of (v : jsval) : number := or_zero (parseFloat v).

(** The body of [analyzedNews.forEach] for a score. *)
Definition count_score (score : number) (c : counters) : counters :=
  if negb (isNaN score) then
    let total := add (totalSentimentScore c) score in
    let valid := S (validScoreCount c) in
    if gt score point_one then
      {| positiveCount := S (positiveCount c);
         negativeCount := negativeCount c;
         neutralCount := neutralCount c;
         totalSentimentScore := total; validScoreCount := valid |}
    else if lt score minus_point_one then
      {| positiveCount := positiveCount c;
         negativeCount := S (negativeCount c);
         neutralCount := neutralCount c;
         totalSentimentScore := total; validScoreCount := valid |}
    else
      {| positiveCount := positiveCount c;
         negativeCount := negativeCount c;
         neutralCount := S (neutralCount c);
         totalSentimentScore := total; validScoreCount := valid |}
  else
    {| positiveCount := positiveCount c;
       negativeCount := negativeCount c;
       neutralCount := S (neutralCount c);
       totalSentimentScore := totalSentimentScore c;
       validScoreCount := validScoreCount c |}.

(** The loop; [None] when reading [news.score] throws. *)
Fixpoint count_all (analyzedNews : list jsval) (c : counters)
  : option counters :=
  match analyzedNews with
  | [] => Some c
  | news :: rest =>
    match get_prop news (js "score") with
    | None => None
    | Some v => count_all rest (count_score (score_of v) c)
    end
  end.

Definition avgSentiment_of (c : counters) : number :=
  if (0 <? validScoreCount c)%nat
  then div (totalSentimentScore c) (JsNumber.of_nat (validScoreCount c))
  else zero.

Definition overallSentiment_of (avgSentiment : number) : sentiment :=
  if gt avgSentiment point_one then positive
  else if lt avgSentiment minus_point_one then negative
  else neutral.

Definition sentiment_text (s : sentiment) : jsstring :=
  match s with
  | positive => js "positive"
  | negative => js "negative"
  | neutral => js "neutral"
  end.

(** [Math.min(1.0, analyzedNews.length / 10)]. *)
Definition confidenceScore_of (analyzedNews : list jsval) : number :=
  JsNumber.min one (div (JsNumber.of_nat (length analyzedNews)) ten).

Definition as_array (v : jsval) : list jsval :=
  match v with JArr l => l | _ => [] end.

(** [if (sendRealtimeLog) sendRealtimeLog(stepId, msg)]. *)
Definition log_if (sendRealtimeLog : option log_fn) (stepId : step_id)
  (msg : jsstring) : M unit :=
  exec (call_if sendRealtimeLog (fun lg => lg stepId msg log_info)).

(** [if (sendProgress) sendProgress(...)]. *)
Definition progress_if (sendProgress : option progress_fn)
  (stepId : step_id) (label : jsstring) (st : step_status) (msg : jsstring)
  (details : list jsstring) : M unit :=
  exec (call_if sendProgress (fun send => send stepId label st msg details)).

(** A call of [sendProgress] that is not guarded: with no callback it
    throws. *)
Definition progress_call (sendProgress : option progress_fn)
  (stepId : step_id) (label : jsstring) (st : step_status) (msg : jsstring)
  (details : list jsstring) : M unit :=
  match sendProgress with
  | Some send => exec (send stepId label st msg details)
  | None => throw (js "sendProgress is not a function")
  end.

Definition day_ms : Z := 86400000.

(** The part of [collectAndAnalyzeStock] that turns the worker's data
    into the result object. *)
Definition build_analysis (stockName : jsstring)
  (sendProgress : option progress_fn) (sendRealtimeLog : option log_fn)
  (result : jsval) : M analysis :=
  if negb (readable result) then type_error
  else
    let prop k := default JUndefined (get_prop result (js k)) in
    match (if isArray (prop "analyzed_news")
           then Some (as_array (prop "analyzed_news"))
           else Array_from (prop "analyzed_news")) with
    | None => throw (js "undefined is not iterable")
    | Some analyzedNews =>
      let newsData := as_array (prop "news_data") in
      let significantNews := as_array (prop "significant_news") in
      let indicatorsData := or_else (prop "indicators_data") (JObj []) in
      let reportText :=
        or_else (prop "report")
                (JStr (stockName ++ js " 분석이 완료되었습니다.")) in
      log_if sendRealtimeLog step_processing (js "📊 최종 분석 결과:") ;;
      log_if sendRealtimeLog step_processing
        (js "   수집된 뉴스: " ++ JsString.of_nat (length newsData) ++ js "개") ;;
      log_if sendRealtimeLog step_processing
        (js "   분석된 뉴스: " ++ JsString.of_nat (length analyzedNews)
            ++ js "개") ;;
      log_if sendRealtimeLog step_processing
        (js "   중요 뉴스: " ++ JsString.of_nat (length significantNews)
            ++ js "개") ;;
      match count_all analyzedNews no_counters with
      | None => type_error
      | Some c =>
        let avgSentiment := avgSentiment_of c in
        let overallSentiment := overallSentiment_of avgSentiment in
        let confidenceScore := confidenceScore_of analyzedNews in
        log_if sendRealtimeLog step_processing
          (js "Python 분석 결과: 긍정 " ++ JsString.of_nat (positiveCount c)
              ++ js ", 부정 " ++ JsString.of_nat (negativeCount c)
              ++ js ", 중립 " ++ JsString.of_nat (neutralCount c)) ;;
        log_if sendRealtimeLog step_processing
          (js "평균 감정 점수: " ++ toFixed3 avgSentiment
              ++ js ", 전체 감정: " ++ sentiment_text overallSentiment) ;;
        log_if sendRealtimeLog step_processing
          (js "총 뉴스: " ++ JsString.of_nat (length newsData)
              ++ js "개, 분석된 뉴스: "
              ++ JsString.of_nat (length analyzedNews) ++ js "개") ;;
        progress_call sendProgress python_analyzer (js "Python 분석기 실행")
                      success (js "Python 분석 완료") [] ;;
        ret {| positive_count := positiveCount c;
               negative_count := negativeCount c;
               neutral_count := neutralCount c;
               overall_sentiment := overallSentiment;
               overall_score := or_zero (abs avgSentiment);
               confidence_score := or_zero confidenceScore;
               total_news_count := length newsData;
               analyzed_news_count := length analyzedNews;
               report_text := reportText;
               news_data := newsData;
               analyzed_news := analyzedNews;
               significant_news := significantNews;
               indicators_data := indicatorsData;
               policy_impact := or_else (prop "policy_impact") (JObj []) |}
      end
    end.

Definition success_text (b : bool) : jsstring :=
  if b then js "성공" else js "실패".

Definition collectAndAnalyzeStock (stockName : jsstring)
  (startDate endDate : option jsstring) (sendProgress : option progress_fn)
  (requestId : jsstring) (sendRealtimeLog : option log_fn)
  (sched : list event) : M analysis :=
  try_catch
    (t <- get now ;;
     let startDate := default (isoDate (t - 30 * day_ms)) startDate in
     let endDate := default (isoDate t) endDate in
     log_if sendRealtimeLog step_processing
       (js "=== " ++ stockName ++ js " 분석 시작 (Python 사용) ===") ;;
     log_if sendRealtimeLog step_processing
       (js "분석 기간: " ++ startDate ++ js " ~ " ++ endDate) ;;
     log_if sendRealtimeLog step_processing
       (js "🐍 Python 분석기 호출 및 대기 시작...") ;;
     pythonResult <- runPythonAnalyzer stockName startDate endDate
                       sendProgress requestId sendRealtimeLog sched ;;
     log_if sendRealtimeLog step_processing
       (js "🔍 Python 분석 결과 확인: "
           ++ success_text (py_success pythonResult)) ;;
     match pythonResult with
     | PySuccess data =>
       log_if sendRealtimeLog step_processing
         (js "✅ Python 분석이 성공적으로 완료됨!") ;;
       build_analysis stockName sendProgress sendRealtimeLog data
     | PyFailure e _ _ =>
       progress_if sendProgress python_analyzer (js "Python 분석기 실행")
                   error (js "Python 분석 실패: " ++ e) [] ;;
       throw (js "Python 분석 실패: " ++ e)
     end)
    (fun err =>
       progress_if sendProgress python_analyzer (js "Python 분석기 실행")
                   error (js "분석 중 오류 발생: " ++ exn_message err) [] ;;
       rethrow err).

(** ** The server: [runJavaScriptAnalysis], [saveAnalysisToDatabase] and
    the [POST /api/analysis] handler *)

(** The [data] of a successful [runJavaScriptAnalysis]. *)
Record analysisData := {
  d_stock_name : jsstring;
  d_start_date : jsstring;
  d_end_date : jsstring;
  d_analysis : analysis;
  d_timestamp : Z
}.

(** [{success: true, data}] or [{success: false, error}]. *)
Inductive analysisResult :=
| AnalysisSuccess (data : analysisData)
| AnalysisFailure (error : jsstring).

Definition runJavaScriptAnalysis (stockName startDate endDate : jsstring)
  (requestId : jsstring) (sendProgress : option progress_fn)
  (sendRealtimeLog : option log_fn) (sched : list event)
  : M analysisResult :=
  try_catch
    (log_if sendRealtimeLog step_processing
       (js "🔬 Starting JavaScript analysis for " ++ stockName
           ++ js " from " ++ startDate ++ js " to " ++ endDate) ;;
     log_if sendRealtimeLog news_collection
       (js "📰 Starting news collection...") ;;
     progress_if sendProgress news_collection (js "뉴스 수집") loading
       (js "관련 뉴스를 수집하고 있습니다")
       [js "뉴스 소스 연결 중"; js "키워드 검색 시작";
        js "데이터 필터링 준비"] ;;
     log_if sendRealtimeLog step_processing
       (js "⚙️ Calling collectAndAnalyzeStock function and waiting for completion...") ;;
     a <- collectAndAnalyzeStock stockName (Some startDate) (Some endDate)
            sendProgress requestId sendRealtimeLog sched ;;
     log_if sendRealtimeLog step_processing
       (js "✅ collectAndAnalyzeStock function completed") ;;
     log_if sendRealtimeLog step_processing
       (js "📊 Analysis result summary: total_news: "
           ++ JsString.of_nat (total_news_count a)
           ++ js ", analyzed_news: "
           ++ JsString.of_nat (analyzed_news_count a)
           ++ js ", overall_sentiment: "
           ++ sentiment_text (overall_sentiment a)) ;;
     progress_call sendProgress news_collection (js "뉴스 수집") success
       (js "뉴스를 성공적으로 수집했습니다.") [] ;;
     t <- get now ;;
     ret (AnalysisSuccess
            {| d_stock_name := stockName; d_start_date := startDate;
               d_end_date := endDate; d_analysis := a;
               d_timestamp := t |}))
    (fun err =>
       progress_if sendProgress news_collection (js "뉴스 수집") error
         (js "뉴스 수집 실패: " ++ exn_message err) [] ;;
       ret (AnalysisFailure (exn_message err))).

Definition saveAnalysisToDatabase (requestId : jsstring)
  (analysisData : analysis) (sendRealtimeLog : option log_fn) : M unit :=
  try_catch
    (saveAnalysisResults requestId analysisData ;;
     saveNewsData requestId (news_data analysisData) ;;
     (if truthy (indicators_data analysisData)
      then saveEconomicIndicators requestId (indicators_data analysisData)
      else ret tt))
    (fun err =>
       exec (call_if sendRealtimeLog (fun lg =>
         lg step_save
            (js "❌ Error saving analysis results: " ++ exn_message err)
            log_error)) ;;
       rethrow err).

(** The JSON body of the request: a field is absent or has a value;
    [stockName] and [requestId] are strings when present. *)
Record body := {
  b_stockName : option jsstring;
  b_daysBack : option jsval;
  b_requestId : option jsstring
}.

(** What [res] is answered with. *)
Inductive response :=
| BadRequest (error : jsstring)
| Success (requestId : jsstring) (data : analysisData)
| Failure (error : jsstring) (requestId : jsstring)
| InternalServerError.

Definition http_status (r : response) : nat :=
  match r with
  | BadRequest _ => 400
  | Success _ _ => 200
  | Failure _ _ => 500
  | InternalServerError => 500
  end.

(** [!s] for an optional string: absent or empty. *)
Definition falsy (s : option jsstring) : bool :=
  match s with
  | None | Some [] => true
  | Some _ => false
  end.

(** [parseInt(daysBack)] with the default [daysBack = 7]. *)
Definition days_of (daysBack : option jsval) : option Z :=
  parseInt (default (JNum (JsNumber.of_nat 7)) daysBack).

(** [isNaN(days) || days < 1 || days > 90]. *)
Definition invalid_days (days : option Z) : bool :=
  match days with
  | None => true
  | Some d => (d <? 1) || (90 <? d)
  end.

(** The creation of the request record, under the id of the client when
    there is one. *)
Definition create_request (clientRequestId : option jsstring)
  (stockName startDateStr endDateStr : jsstring) : M jsstring :=
  if falsy clientRequestId then
    createAnalysisRequest stockName startDateStr endDateStr
  else
    let requestId := default [] clientRequestId in
    try_catch
      (createAnalysisRequestWithId requestId stockName startDateStr
                                   endDateStr ;;
       ret requestId)
      (fun creationError =>
         createAnalysisRequest stockName startDateStr endDateStr).

(** The start of a job: the first event, the log entry and the status
    [processing]. *)
Definition begin_job (requestId stockName : jsstring) : M unit :=
  let send := sendProgress requestId in
  exec (send step_init (js "분석 요청 초기화") success
          (stockName ++ js " 분석 요청이 성공적으로 초기화되었습니다")
          [js "API 엔드포인트 연결 완료"; js "요청 데이터 검증 완료";
           js "분석 세션 생성 완료"]) ;;
  addLog requestId (js "INFO") (js "API")
         (js "Analysis request created for " ++ stockName) ;;
  updateAnalysisStatus requestId processing None ;;
  exec (send step_processing (js "분석 처리 시작") success
          (js "분석 엔진 초기화가 완료되었습니다")
          [js "분석 엔진 초기화 완료"; js "작업 큐 등록 완료";
           js "리소스 할당 완료"]).

(** The branch of a successful analysis: the results are saved, then
    the status is set, then the completion is signalled. *)
Definition finish_success (requestId : jsstring) (data : analysisData)
  : M response :=
  let send := sendProgress requestId in
  exec (send step_save (js "결과 저장") loading
          (js "분석 결과를 데이터베이스에 저장하고 있습니다")
          [js "데이터베이스 연결 중"; js "분석 결과 검증 중";
           js "데이터 저장 시작"]) ;;
  try_catch
    (saveAnalysisToDatabase requestId (d_analysis data) None ;;
     exec (send step_save (js "결과 저장") success
             (js "분석 결과가 성공적으로 저장되었습니다")
             [js "데이터베이스 연결 완료"; js "분석 결과 검증 완료";
              js "데이터 저장 완료"; js "인덱스 업데이트 완료"]))
    (fun saveError =>
       exec (send step_save (js "결과 저장") error
               (js "저장 실패: " ++ exn_message saveError) []) ;;
       rethrow saveError) ;;
  t' <- get now ;;
  updateAnalysisStatus requestId completed (Some t') ;;
  exec (send step_complete (js "분석 완료") success
          (js "모든 분석이 성공적으로 완료되었습니다")
          [js "최종 결과 검증 완료"; js "데이터베이스 저장 완료";
           js "응답 데이터 생성 완료"; js "세션 정리 완료"]) ;;
  addLog requestId (js "INFO") (js "API")
         (js "Analysis completed successfully") ;;
  ret (Success requestId data).

(** The branch of a failed analysis. *)
Definition finish_failure (requestId err : jsstring) : M response :=
  exec (sendProgress requestId step_analysis (js "데이터 수집 및 분석") error
          (js "분석 실패: " ++ err) []) ;;
  updateAnalysisStatus requestId failed None ;;
  addLog requestId (js "ERROR") (js "JAVASCRIPT") err ;;
  ret (Failure err requestId).

(** The handler after validation, up to the answer. *)
Definition run_analysis (stockName : jsstring) (days : Z)
  (clientRequestId : option jsstring) (sched : list event) : M response :=
  t <- get now ;;
  let startDateStr := isoDate (t - days * day_ms) in
  let endDateStr := isoDate t in
  requestId <- create_request clientRequestId stockName startDateStr
                              endDateStr ;;
  begin_job requestId stockName ;;
  r <- runJavaScriptAnalysis stockName startDateStr endDateStr requestId
         (Some (sendProgress requestId)) (Some (sendRealtimeLog requestId))
         sched ;;
  match r with
  | AnalysisSuccess data => finish_success requestId data
  | AnalysisFailure err => finish_failure requestId err
  end.

(** [app.post('/api/analysis', ...)]: [sched] is what the event loop
    delivers while the handler waits for the worker. *)
Definition post_api_analysis (req : body) (sched : list event)
  : M response :=
  try_catch
    (if falsy (b_stockName req) then
       ret (BadRequest (js "Stock name is required"))
     else
       let days := days_of (b_daysBack req) in
       if invalid_days days then
         ret (BadRequest (js "Days back must be between 1 and 90"))
       else
         run_analysis (default [] (b_stockName req)) (default 0 days)
                      (b_requestId req) sched)
    (fun _ => ret InternalServerError).

End Backend.

(** ** A host to run the program on

    The functions below agree with the built-in ones on the inputs used
    in the examples of this file: ObjectIds in their form of 24
    hexadecimal digits, the JSON lines listed in [JSON_parse], numbers
    and [undefined] for [parseFloat], integers below 2^53 for [parseInt],
    arrays, [undefined] and [null] for [Array.from]. *)

Module Sample.

Definition hex_value (c : N) : option N :=
  if ((48 <=? c) && (c <=? 57))%N then Some (c - 48)%N
  else if ((97 <=? c) && (c <=? 102))%N then Some (c - 87)%N
  else if ((65 <=? c) && (c <=? 70))%N then Some (c - 55)%N
  else None.

Definition hex_char (d : N) : N :=
  if (d <? 10)%N then (48 + d)%N else (87 + d)%N.

Fixpoint hex_digits (k : nat) (n : N) : list N :=
  match k with
  | O => []
  | S k' => hex_digits k' (n / 16)%N ++ [(n mod 16)%N]
  end.

Definition hex_number (ds : list N) : N :=
  fold_left (fun a d => (a * 16 + d)%N) ds 0%N.

Definition ObjectId_parse (s : jsstring) : option oid :=
  if decide (length s = 24%nat)
  then hex_number <$> mapM hex_value s
  else None.

Definition ObjectId_toString (i : oid) : jsstring :=
  hex_char <$> hex_digits 24 i.

(** Scores used in the examples: 0.5, -0.5 and 0.05. *)
Definition half : number := S754_finite false 4503599627370496 (-53).
Definition minus_half : number := S754_finite true 4503599627370496 (-53).
Definition small : number := S754_finite false 7205759403792794 (-57).

Definition scored (x : number) : jsval := JObj [(js "score", JNum x)].

(** A word between double quotes. *)
Definition quoted (s : string) : jsstring := [34%N] ++ js s ++ [34%N].

Definition line_full : jsstring :=
  js "{" ++ quoted "analyzed_news" ++ js ": [{" ++ quoted "score"
     ++ js ": 0.5}, {" ++ quoted "score" ++ js ": -0.5}, {"
     ++ quoted "score" ++ js ": 0.05}, {" ++ quoted "title" ++ js ": "
     ++ quoted "t" ++ js "}], " ++ quoted "report" ++ js ": "
     ++ quoted "done" ++ js "}".

Definition value_full : jsval :=
  JObj [(js "analyzed_news",
         JArr [scored half; scored minus_half; scored small;
               JObj [(js "title", JStr (js "t"))]]);
        (js "report", JStr (js "done"))].

Definition line_first : jsstring :=
  js "{" ++ quoted "report" ++ js ": " ++ quoted "first" ++ js "}".
Definition value_first : jsval := JObj [(js "report", JStr (js "first"))].

Definition line_second : jsstring :=
  js "{" ++ quoted "report" ++ js ": " ++ quoted "second" ++ js "}".
Definition value_second : jsval :=
  JObj [(js "report", JStr (js "second"))].

Definition JSON_parse (s : jsstring) : option jsval :=
  if decide (s = line_full) then Some value_full
  else if decide (s = line_first) then Some value_first
  else if decide (s = line_second) then Some value_second
  else None.

Definition parseFloat (v : jsval) : number :=
  match v with
  | JNum x => if is_zero x then zero else x
  | _ => S754_nan
  end.

(** The integer a number is, when it is one. *)
Definition parseInt (v : jsval) : option Z :=
  match v with
  | JNum (S754_zero _) => Some 0
  | JNum (S754_finite s m e) =>
    if (0 <=? e) && (e <? 53) then
      Some (cond_Zopp s (Z.pos m * 2 ^ e))
    else if (-53 <? e) && (Z.pos m mod 2 ^ (- e) =? 0) then
      Some (cond_Zopp s (Z.pos m / 2 ^ (- e)))
    else None
  | _ => None
  end.

Definition Array_from (v : jsval) : option (list jsval) :=
  match v with
  | JUndefined | JNull => None
  | JArr l => Some l
  | JStr s => Some ((fun c => JStr [c]) <$> s)
  | _ => Some []
  end.

(** Dates and [toFixed] only appear in texts; they are printed here
    as plain numbers. *)
Definition isoDate (t : Z) : jsstring := JsString.of_Z (t / 86400000).
Definition toFixed3 (x : number) : jsstring :=
  match x with
  | S754_zero _ => js "0.000"
  | _ => js "#.###"
  end.

End Sample.

(** ** The classifier as a table of rules

    The reading of the rule chain as an ordered table, one rule for
    each stage: a rule says which lines belong to its stage, which of
    them end the stage (and which stage is active next) and which of
    them start it.  The first rule whose stage matches decides. *)

Record rule := {
  r_stage : step_id;
  r_label : jsstring;
  r_match : jsstring -> bool;
  r_done : jsstring -> bool;
  r_done_message : jsstring;
  r_next : step_id;
  r_start : jsstring -> bool;
  r_start_message : jsstring
}.

Definition news_rule : rule :=
  {| r_stage := news_collection;
     r_label := js "뉴스 수집";
     r_match := fun l =>
       (has "뉴스" l || has "[뉴스]" l) &&
       (has "수집" l || has "발견" l || has "크롤링" l || has "API" l
        || has "개 수집" l);
     r_done := fun l => has "완료" l || has "[완료]" l || has "수집 완료" l;
     r_done_message := js "뉴스 수집이 완료되었습니다";
     r_next := economic_data;
     r_start := fun l => has "시작" l || has "API 호출" l;
     r_start_message := js "뉴스를 수집하고 있습니다" |}.

Definition economic_rule : rule :=
  {| r_stage := economic_data;
     r_label := js "경제지표 수집";
     r_match := fun l =>
       (has "경제지표" l || has "[분석]" l) &&
       (has "ECOS" l || has "금리" l || has "환율" l || has "물가" l
        || has "수집" l);
     r_done := fun l => has "완료" l || has "[완료]" l;
     r_done_message := js "경제지표 수집이 완료되었습니다";
     r_next := policy_analysis;
     r_start := fun l => has "시작" l || has "요청" l;
     r_start_message := js "경제지표를 수집하고 있습니다" |}.

Definition policy_rule : rule :=
  {| r_stage := policy_analysis;
     r_label := js "정책 분석";
     r_match := fun l => has "정책" l || has "정치" l || has "정부" l;
     r_done := fun l => has "완료" l || has "[완료]" l;
     r_done_message := js "정책 분석이 완료되었습니다";
     r_next := sentiment_analysis;
     r_start := fun l => has "시작" l || has "분석 중" l;
     r_start_message := js "정책 영향을 분석하고 있습니다" |}.

Definition sentiment_rule : rule :=
  {| r_stage := sentiment_analysis;
     r_label := js "감정 분석";
     r_match := fun l =>
       has "감정 분석" l || has "AI" l || has "GPT" l || has "OpenAI" l
       || has "[AI]" l || has "분석 완료" l || has "API 호출" l
       || has "캐시" l;
     r_done := fun l =>
       has "감정 분석 완료" l || has "분석 완료" l || has "[완료]" l;
     r_done_message := js "감정 분석이 완료되었습니다";
     r_next := report_generation;
     r_start := fun l => has "시작" l || has "API 호출" l;
     r_start_message := js "AI 감정 분석을 진행하고 있습니다" |}.

Definition report_rule : rule :=
  {| r_stage := report_generation;
     r_label := js "리포트 생성";
     r_match := fun l =>
       has "리포트" l || has "보고서" l || has "생성" l || has "전망" l
       || has "모든 분석이 완료" l || has "Python 분석기 실행 완료" l;
     r_done := fun l =>
       has "Python 분석기 실행 완료" l || has "모든 분석이 완료" l
       || has "[완료]" l;
     r_done_message := js "최종 리포트 생성이 완료되었습니다";
     r_next := report_generation;
     r_start := fun l => has "시작" l || has "생성 중" l;
     r_start_message := js "최종 리포트를 생성하고 있습니다" |}.

(** The rules in their order of priority. *)
Definition stage_rules : list rule :=
  [news_rule; economic_rule; policy_rule; sentiment_rule; report_rule].

(** What a rule makes of a line of its stage. *)
Definition apply_rule (r : rule) (line : jsstring) : classified :=
  if r_done r line then
    {| c_active := r_next r;
       c_progress := Some (r_stage r, r_label r, success, r_done_message r) |}
  else if r_start r line then
    {| c_active := r_stage r;
       c_progress := Some (r_stage r, r_label r, loading, r_start_message r) |}
  else {| c_active := r_stage r; c_progress := None |}.

(** The first rule of a table that matches the line, if there is one. *)
Fixpoint first_match (rules : list rule) (line : jsstring) : option rule :=
  match rules with
  | [] => None
  | r :: rest => if r_match r line then Some r else first_match rest line
  end.

Definition classify_by_rules (line : jsstring) (currentActiveStep : step_id)
  : classified :=
  match first_match stage_rules line with
  | Some r => apply_rule r line
  | None => {| c_active := currentActiveStep; c_progress := None |}
  end.

(** ** Sample data *)

Module Import SampleData.

(** A server that has just started: empty collections, no socket. *)
Definition empty_world : world :=
  mkWorld ∅ ∅ [] [] [] ∅ (fun _ => []) [] 1700000000000 4096%N.

(** A request id as the client makes them. *)
Definition request_id : jsstring := js "64b7f3a2c1d4e5f6a7b8c9d0".

(** The lines a worker writes on stderr and stdout before it exits
    with code 0, the result among them. *)
Definition worker_output : list event :=
  [StderrData (js "[12:00:01] [뉴스] 뉴스 수집 시작" ++ [10%N]
               ++ js "ok" ++ [10%N]
               ++ js "[뉴스] 12개 수집 완료" ++ [10%N]);
   StdoutData (js "starting" ++ [10%N]);
   StdoutData (Sample.line_full ++ [10%N])].

Definition good_run : list event := worker_output ++ [Close (Some 0)].

(** What the form posts. *)
Definition sample_body : body :=
  {| b_stockName := Some (js "삼성전자");
     b_daysBack := Some (JNum (JsNumber.of_nat 7));
     b_requestId := Some request_id |}.

End SampleData.

(** ** The sentiment bucket of a news item *)

Section Buckets.

Context {host : Host}.

(** The score the statistics loop reads from an item that has
    properties: [parseFloat(news.score) || 0]. *)
Definition news_score (news : jsval) : number :=
  score_of (default JUndefined (get_prop news (js "score"))).

(** The bucket of a score. *)
Definition bucket_of_score (score : number) : sentiment :=
  if gt score point_one then positive
  else if lt score minus_point_one then negative
  else neutral.

(** The bucket of an item. *)
Definition bucket_of (news : jsval) : sentiment :=
  bucket_of_score (news_score news).

Definition same_bucket (b b' : sentiment) : bool :=
  match b, b' with
  | positive, positive | negative, negative | neutral, neutral => true
  | _, _ => false
  end.

Definition in_bucket (b : sentiment) (news : jsval) : bool :=
  same_bucket b (bucket_of news).

(** How many items of a list are in a bucket. *)
Definition count_bucket (b : sentiment) (l : list jsval) : nat :=
  length (List.filter (in_bucket b) l).

End Buckets.

(** ** The analysed items the worker hands over *)

Section WorkerList.

Context {host : Host}.

(** The analysed items of a result of the worker:
    [result.analyzed_news] when it is an array, else [Array.from] of
    it; [None] when that throws. *)
Definition worker_analyzed_news (result : jsval) : option (list jsval) :=
  let v := default JUndefined (get_prop result (js "analyzed_news")) in
  if isArray v then Some (as_array v) else Array_from v.

End WorkerList.

(** ** The payload lines of the captured output *)

Section Payload.

Context {host : Host}.

(** The value of a line that is a well-formed payload: trimmed, it is
    between braces and it parses. *)
Definition parse_payload (line : jsstring) : option jsval :=
  let trimmedLine := trim line in
  if startsWith (js "{") trimmedLine && endsWith (js "}") trimmedLine
  then JSON_parse trimmedLine
  else None.

(** The payloads of an output, in the order of their lines. *)
Definition payloads (out : jsstring) : list jsval :=
  omap parse_payload (JsString.split newline out).

Definition first_payload (out : jsstring) : option jsval :=
  head (payloads out).

(** In the words of the specification: the last well-formed payload of
    the output. *)
Definition last_payload (out : jsstring) : option jsval :=
  last (payloads out).

(** What the ['close'] handler resolves with for exit code 0. *)
Definition result_of_output (out : jsstring) : pythonResult :=
  match first_payload out with
  | Some v => PySuccess (if truthy v then v else default_data)
  | None => PySuccess default_data
  end.

End Payload.

Module Import PayloadData.

(** An output with two payload lines. *)
Definition two_payloads : jsstring :=
  js "log line" ++ [10%N] ++ Sample.line_first ++ [10%N]
     ++ Sample.line_second ++ [10%N].

(** An output without a payload line. *)
Definition no_payload : jsstring :=
  js "log line" ++ [10%N] ++ js "{not json}" ++ [10%N].

End PayloadData.

(** ** What observers see *)

(** The completion signal: a progress event of step [complete] with
    status [success]. *)
Definition is_completion (m : message) : bool :=
  match m with
  | Progress p =>
    match p_stepId p, p_status p with
    | step_complete, success => true
    | _, _ => false
    end
  | _ => false
  end.

Definition is_progress (m : message) : bool :=
  match m with Progress _ => true | _ => false end.

(** The broadcasts of the completion signal among the effects. *)
Definition emits_completion (a : action) : bool :=
  match a with
  | IoEmit _ m => is_completion m
  | _ => false
  end.

Definition saves_results (a : action) : bool :=
  match a with DbSaveResults _ => true | _ => false end.

Definition sets_completed (a : action) : bool :=
  match a with DbUpdateStatus _ completed _ => true | _ => false end.

(** The progress events that were broadcast, in order. *)
Definition broadcast_progress (tr : list action) : list message :=
  omap (fun a => match a with
                 | IoEmit _ m => if is_progress m then Some m else None
                 | _ => None
                 end) tr.

(** The position of the first element of a list that passes a test. *)
Fixpoint index_of {A} (f : A -> bool) (l : list A) : option nat :=
  match l with
  | [] => None
  | x :: r => if f x then Some 0%nat else S <$> index_of f r
  end.

Section Observers.

Context {host : Host}.

(** A job that runs with nobody in its room, and a socket that joins
    the room when the job is over. *)
Definition world_after_job : world :=
  snd (post_api_analysis sample_body (with_deadline good_run []) empty_world).

Definition late_join (s : socket_id) : world :=
  on_join_analysis s request_id world_after_job.

(** A socket that joins the room before the request is posted, as the
    form does, and the world when the worker's promise is settled. *)
Definition world_at_settlement (s : socket_id) : world :=
  snd (runPythonAnalyzer (js "삼성전자") (js "2023-11-07") (js "2023-11-14")
         (Some (sendProgress request_id)) request_id
         (Some (sendRealtimeLog request_id)) (with_deadline good_run [])
         (on_join_analysis s request_id empty_world)).

Definition world_after_watched_job (s : socket_id) : world :=
  snd (post_api_analysis sample_body (with_deadline good_run [])
         (on_join_analysis s request_id empty_world)).

End Observers.

(** ** The database part of a world *)

(** Effects that do not write to the database. *)
Definition io_action (a : action) : bool :=
  match a with
  | IoEmit _ _ | SocketEmit _ _ | Spawn _ | Kill => true
  | _ => false
  end.

(** The writes to the database among the effects, in order. *)
Definition db_actions (tr : list action) : list action :=
  List.filter (fun a => negb (io_action a)) tr.

(** The status a write gives to the request [id]: [pending] when the
    record is inserted, the new status when it is updated. *)
Definition status_write (id : oid) (a : action) : option job_status :=
  match a with
  | DbInsertRequest i => if decide (i = id) then Some pending else None
  | DbUpdateStatus i s _ => if decide (i = id) then Some s else None
  | _ => None
  end.

(** The statuses the request [id] has been given so far, in order. *)
Definition history (id : oid) (w : world) : list job_status :=
  omap (status_write id) (db_actions (trace w)).

(** [w'] comes from [w] by effects that do not write to the database. *)
Definition io_only (w w' : world) : Prop :=
  analysis_requests w' = analysis_requests w /\
  analysis_results w' = analysis_results w /\
  news_data_docs w' = news_data_docs w /\
  economic_indicators w' = economic_indicators w /\
  system_logs w' = system_logs w /\
  now w' = now w /\
  next_oid w' = next_oid w /\
  db_actions (trace w') = db_actions (trace w).

(** A callback that only emits. *)
Definition io_progress (send : progress_fn) : Prop :=
  forall stepId label st msg details w,
    io_only w (send stepId label st msg details w).

Definition io_log (lg : log_fn) : Prop :=
  forall stepId msg ty w, io_only w (lg stepId msg ty w).

Definition io_callback {F} (P : F -> Prop) (f : option F) : Prop :=
  match f with
  | Some g => P g
  | None => True
  end.

(** A computation that only emits, whatever its outcome. *)
Definition io_comp {A} (m : M A) : Prop := forall w, io_only w (snd (m w)).

(** A computation that does not throw. *)
Definition no_throw {A} (m : M A) : Prop :=
  forall w e, fst (m w) <> Throw e.

(** ** Schedules *)

(** Events that leave the worker running and the promise as it is:
    output of the worker and messages of the sockets. *)
Definition quiet (e : event) : bool :=
  match e with
  | Close _ | ProcessError _ | TimeoutFired | SecondTimeoutFired => false
  | _ => true
  end.

(** The worker is still running after these events. *)
Definition still_running (sched : list event) : Prop :=
  forallb quiet sched = true.

(** The standard output captured over a list of events. *)
Definition captured (sched : list event) : jsstring :=
  flat_map (fun e => match e with StdoutData chunk => chunk | _ => [] end)
           sched.

(** What the first timer resolves the promise with. *)
Definition timeout_result : pythonResult :=
  PyFailure (js "Python 분석기 타임아웃 (300초)") true None.

(** The bookkeeping of the supervisor: once [processFinished] is set the
    promise is settled, and the first timer is only cleared when
    [processFinished] is set. *)
Definition consistent (st : supervisor) : Prop :=
  (processFinished st = true -> promise st <> None) /\
  (timeoutCleared st = true -> processFinished st = true).

(** ** The job of a submission *)

(** What a stretch of the run does to the database, seen from the
    request [id]: [f] to the collection of requests, [g] to the
    collection of results, and [h] is the statuses it gives to the
    request, in order.  The clock stands still. *)
Definition kept {A} (x : A) : A := x.

Definition db_step (id : oid) (w w' : world)
  (f : gmap oid request_doc -> gmap oid request_doc)
  (g : gmap oid analysis -> gmap oid analysis)
  (h : list job_status) : Prop :=
  analysis_requests w' = f (analysis_requests w) /\
  analysis_results w' = g (analysis_results w) /\
  now w' = now w /\
  history id w' = history id w ++ h.

Section Job.

Context {host : Host}.

(** The id under which a submission runs, as text and as ObjectId: the
    id of the client when it is well formed; otherwise the id the
    driver makes up, which must not be taken. *)
Inductive job_of (w : world) (req : body) (rid : jsstring) (id : oid)
  : Prop :=
| client_id :
    b_requestId req = Some rid -> rid <> [] ->
    ObjectId_parse rid = Some id ->
    job_of w req rid id
| server_id :
    falsy (b_requestId req) = true ->
    id = (next_oid w mod oid_bound)%N ->
    rid = ObjectId_toString id ->
    analysis_requests w !! id = None ->
    job_of w req rid id
| replaced_id (bad : jsstring) :
    b_requestId req = Some bad -> bad <> [] ->
    ObjectId_parse bad = None ->
    id = (next_oid w mod oid_bound)%N ->
    rid = ObjectId_toString id ->
    analysis_requests w !! id = None ->
    job_of w req rid id.

(** A body that passes validation. *)
Definition valid_body (req : body) : Prop :=
  falsy (b_stockName req) = false /\
  invalid_days (days_of (b_daysBack req)) = false.

(** The record [createAnalysisRequest] inserts for a body at a time. *)
Definition request_of (req : body) (t : Z) : request_doc :=
  new_request_doc (default [] (b_stockName req))
    (isoDate (t - default 0 (days_of (b_daysBack req)) * day_ms))
    (isoDate t) t.

(** The result made from the default data. *)
Definition default_analysis : analysis :=
  {| positive_count := 0; negative_count := 0; neutral_count := 0;
     overall_sentiment := neutral; overall_score := zero;
     confidence_score := zero; total_news_count := 0;
     analyzed_news_count := 0;
     report_text := JStr (js "Python 분석 완료 (JSON 출력 없음)");
     news_data := []; analyzed_news := []; significant_news := [];
     indicators_data := JObj []; policy_impact := JObj [] |}.

(** The items of a result can all be read, so that saving it does not
    throw. *)
Definition storable (a : analysis) : Prop :=
  forallb readable (news_data a) = true /\
  forallb (fun e => readable (snd e)) (indicator_items (indicators_data a))
  = true.

(** What the creation of the record does to the collection of requests
    and to the statuses of the request: nothing when a record with the
    id exists, else the record is inserted with status [pending]. *)
Definition creation (id : oid) (doc : request_doc) (w : world)
  : (gmap oid request_doc -> gmap oid request_doc) * list job_status :=
  match analysis_requests w !! id with
  | Some _ => (kept, [])
  | None => (insert id doc, [pending])
  end.

(** The three updates of the status the handler makes. *)
Definition to_processing (id : oid) (t : Z)
  : gmap oid request_doc -> gmap oid request_doc :=
  alter (update_doc processing None t) id.

Definition to_completed (id : oid) (t : Z)
  : gmap oid request_doc -> gmap oid request_doc :=
  alter (update_doc completed (Some t) t) id.

Definition to_failed (id : oid) (t : Z)
  : gmap oid request_doc -> gmap oid request_doc :=
  alter (update_doc failed None t) id.

End Job.

(** ** The jobs of a store over several submissions *)


Section Submissions.

Context {host : Host}.


End Submissions.

(** ** What is stored of a result *)

(** A result that [saveAnalysisResults] stores as it is: its scores
    are neither NaN nor a zero other than [0], and its report,
    indicators and policy impact are truthy. *)
Definition stored_as_is (a : analysis) : Prop :=
  or_zero (overall_score a) = overall_score a /\
  or_zero (confidence_score a) = confidence_score a /\
  truthy (report_text a) = true /\
  truthy (indicators_data a) = true /\
  truthy (policy_impact a) = true.

(** ** More about schedules *)

(** The standard error captured over a list of events. *)
Definition captured_stderr (sched : list event) : jsstring :=
  flat_map (fun e => match e with StderrData chunk => chunk | _ => [] end)
           sched.

(** Output of the worker. *)
Definition is_output (e : event) : bool :=
  match e with
  | StdoutData _ | StderrData _ => true
  | _ => false
  end.

(** The stages the worker goes through. *)
Definition stages : list step_id :=
  [news_collection; economic_data; policy_analysis; sentiment_analysis;
   report_generation].

(** The exit of the worker has been seen: its ['close'] event is among
    the events. *)
Definition exit_observed (sched : list event) : bool :=
  existsb (fun e => match e with Close _ => true | _ => false end) sched.

(** Two schedules that no caller of [await] can tell apart. *)
Definition same_await {host : Host} (sched sched' : list event) : Prop :=
  forall (sp : option progress_fn) (requestId : jsstring)
         (lg : option log_fn) (w : world),
    await_promise sp requestId lg sched initial_supervisor w
    = await_promise sp requestId lg sched' initial_supervisor w.

(** ** [getRecentAnalysis] and [batchAnalysis] *)

Section Batch.

Context {host : Host}.

(** An argument that is the empty string counts as not given. *)
Definition given (s : jsstring) : option jsstring :=
  match s with
  | [] => None
  | _ => Some s
  end.

(** The [requestId] of a call that gives none.  It is [null] in the
    source, where it is read only together with [sendProgress]; here it
    is the text a template literal makes of [null]. *)
Definition no_request : jsstring := js "null".

(** [getRecentAnalysis(stockName, days = 7)]. *)
Definition getRecentAnalysis (stockName : jsstring) (days : option Z)
  (sched : list event) : M analysis :=
  t <- get now ;;
  collectAndAnalyzeStock stockName
    (given (isoDate (t - default 7 days * day_ms))) (given (isoDate t))
    None no_request None sched.

(** The loop of [batchAnalysis] over the stocks that are left:
    [results] is the object filled so far and [scheds] holds, for each
    of the runs to come, what the event loop delivers during it. *)
Fixpoint batch_loop (stockList : list jsstring)
  (startDate endDate : option jsstring) (scheds : list (list event))
  (results : gmap jsstring (option analysis))
  : M (gmap jsstring (option analysis)) :=
  match stockList with
  | [] => ret results
  | stockName :: rest =>
    result <- try_catch
                (a <- collectAndAnalyzeStock stockName startDate endDate
                        None no_request None (default [] (head scheds)) ;;
                 ret (Some a))
                (fun _ => ret None) ;;
    batch_loop rest startDate endDate (tail scheds)
               (<[stockName := result]> results)
  end.

(** [batchAnalysis(stockList, startDate = null, endDate = null)]; a
    stock whose analysis throws is given [null]. *)
Definition batchAnalysis (stockList : list jsstring)
  (startDate endDate : option jsstring) (scheds : list (list event))
  : M (gmap jsstring (option analysis)) :=
  batch_loop stockList startDate endDate scheds ∅.

(** A run of the worker that comes to an end: the promise is settled
    by one of the events. *)
Definition comes_to_an_end (sched : list event) : Prop :=
  forall (lg : option log_fn) (requestId : jsstring) (w : world),
    fst (await_promise None requestId lg sched initial_supervisor w)
    <> Pending.

End Batch.

(** ** The cache of the [Database] class *)

Module Cache.

(** A document of the [analysis_cache] collection. *)
Record cache_doc := {
  cache_key : jsstring;
  cache_type : jsstring;
  stock_name : option jsstring;
  start_date : option jsstring;
  end_date : option jsstring;
  data : jsval;
  expires_at : option Z;
  created_at : Z;
  updated_at : Z
}.

(** The collection in its natural order.  Its index on [cache_key] is
    not unique. *)
Definition collection := list cache_doc.

(** [{ expires_at: null }] or [{ expires_at: { $gt: now } }]. *)
Definition live (t : Z) (d : cache_doc) : bool :=
  match expires_at d with
  | None => true
  | Some e => t <? e
  end.

(** [{ expires_at: { $lte: now } }]. *)
Definition expired (t : Z) (d : cache_doc) : bool :=
  match expires_at d with
  | None => false
  | Some e => e <=? t
  end.

Definition has_key (cacheKey : jsstring) (d : cache_doc) : bool :=
  bool_decide (cache_key d = cacheKey).

(** [findOne] with a filter. *)
Fixpoint findOne (f : cache_doc -> bool) (c : collection) : option cache_doc :=
  match c with
  | [] => None
  | d :: r => if f d then Some d else findOne f r
  end.

(** [getCache(cacheKey)] at the time [t]: [cache ? cache.data : null]. *)
Definition getCache (cacheKey : jsstring) (t : Z) (c : collection) : jsval :=
  match findOne (fun d => has_key cacheKey d && live t d) c with
  | Some cache => data cache
  | None => JNull
  end.

(** [replaceOne(filter, doc, { upsert: true })]: the first document
    that passes the filter is replaced; without one the document is
    inserted. *)
Fixpoint replaceOne (f : cache_doc -> bool) (doc : cache_doc)
  (c : collection) : collection :=
  match c with
  | [] => [doc]
  | d :: r => if f d then doc :: r else d :: replaceOne f doc r
  end.

(** [s ? new Date(s) : null] for an optional string. *)
Definition date_or_null (s : option jsstring) : option jsstring :=
  match s with
  | None | Some [] => None
  | Some _ => s
  end.

Section SetCache.

(** [d.setHours(d.getHours() + h)]: the instant that is [h] hours of
    local time after the instant [t]. *)
Variable setHours_plus : Z -> Z -> Z.

(** [setCache(cacheKey, cacheType, data, stockName = null,
    startDate = null, endDate = null, expiresHours = 24)] at the time
    [t]. *)
Definition setCache (cacheKey cacheType : jsstring) (value : jsval)
  (stockName startDate endDate : option jsstring) (expiresHours : option Z)
  (t : Z) (c : collection) : collection :=
  let expiresAt := setHours_plus t (default 24 expiresHours) in
  replaceOne (has_key cacheKey)
    {| cache_key := cacheKey; cache_type := cacheType;
       stock_name := stockName;
       start_date := date_or_null startDate;
       end_date := date_or_null endDate;
       data := value; expires_at := Some expiresAt;
       created_at := t; updated_at := t |} c.

End SetCache.

(** [clearExpiredCache()] at the time [t]: what is left of the
    collection, and [deletedCount]. *)
Definition clearExpiredCache (t : Z) (c : collection) : collection * nat :=
  (List.filter (fun d => negb (expired t d)) c,
   length (List.filter (expired t) c)).

(** No two documents of the collection have the same key. *)
Definition unique_keys (c : collection) : Prop := NoDup (map cache_key c).

(** Hours of a server whose local time has no daylight saving. *)
Definition plain_hours (t h : Z) : Z := t + h * 3600000.

End Cache.

(** ** [NewsCollector.removeDuplicates] *)

Module NewsCollector.

(** An item as [collectNaverNews] and [collectDaumNews] make it. *)
Record news := {
  title : jsstring;
  url : jsstring;
  summary : jsstring;
  source : jsstring;
  date : jsstring;
  content : jsstring;
  relevance_score : number
}.

(** [`${news.title}-${news.source}`]. *)
Definition key_of (n : news) : jsstring := title n ++ js "-" ++ source n.

(** The filter of [removeDuplicates] with the set [seen] as it is when
    the item at the head is looked at. *)
Fixpoint filter_seen (seen : gset jsstring) (newsData : list news)
  : list news :=
  match newsData with
  | [] => []
  | n :: rest =>
    if decide (key_of n ∈ seen) then filter_seen seen rest
    else n :: filter_seen ({[key_of n]} ∪ seen) rest
  end.

Definition removeDuplicates (newsData : list news) : list news :=
  filter_seen ∅ newsData.

(** [collectNews] from what the two searches give; a search that fails
    gives the empty list. *)
Definition collectNews (naverNews daumNews : list news) : list news :=
  removeDuplicates (naverNews ++ daumNews).

End NewsCollector.

(** ** More sample data *)

Module Import MoreSamples.

(** The ObjectId that [request_id] writes. *)
Definition request_oid : oid := 31170884944518902468104997328%N.

(** A result with an item of news that cannot be read. *)
Definition unreadable_analysis : analysis :=
  {| positive_count := 0; negative_count := 0; neutral_count := 0;
     overall_sentiment := neutral; overall_score := zero;
     confidence_score := zero; total_news_count := 1;
     analyzed_news_count := 0; report_text := JStr (js "report");
     news_data := [JNull]; analyzed_news := []; significant_news := [];
     indicators_data := JObj []; policy_impact := JObj [] |}.

(** A record of an earlier run that was completed. *)
Definition completed_doc : request_doc :=
  {| stock_name := js "LG"; start_date := js "2023-01-01";
     end_date := js "2023-01-08"; status := completed;
     created_at := 1600000000000; updated_at := 1600000300000;
     completed_at := Some 1600000300000 |}.

(** A server that holds this record under [request_id]. *)
Definition world_with_record : world :=
  mkWorld {[request_oid := completed_doc]} ∅ [] [] [] ∅ (fun _ => []) []
          1700000000000 4096%N.

(** What a client posts whose id is not an ObjectId. *)
Definition malformed_body : body :=
  {| b_stockName := Some (js "삼성전자");
     b_daysBack := None;
     b_requestId := Some (js "not-an-object-id") |}.

(** A cached document that has expired at the time 2000. *)
Definition stale_doc : Cache.cache_doc :=
  {| Cache.cache_key := js "news:LG"; Cache.cache_type := js "news";
     Cache.stock_name := Some (js "LG"); Cache.start_date := None;
     Cache.end_date := None; Cache.data := JStr (js "old");
     Cache.expires_at := Some 1000; Cache.created_at := 0;
     Cache.updated_at := 0 |}.

Definition article (t s : string) : NewsCollector.news :=
  {| NewsCollector.title := js t; NewsCollector.url := js "https://news";
     NewsCollector.summary := []; NewsCollector.source := js s;
     NewsCollector.date := js "2024-12-27"; NewsCollector.content := [];
     NewsCollector.relevance_score := zero |}.

End MoreSamples.

(** * Properties *)

(** ** The sample host is a host *)

Module SampleFacts.
Import Sample.

Lemma hex_value_char d : (d < 16)%N -> hex_value (hex_char d) = Some d.
Proof.
  intros Hd. destruct d as [|p]; [reflexivity|].
  do 4 (try destruct p as [p|p|]); try reflexivity; exfalso; lia.
Qed.

Lemma hex_digits_lt k : forall n, Forall (fun d => (d < 16)%N) (hex_digits k n).
Proof.
  induction k as [|k IH]; intros n; simpl; [constructor|].
  apply Forall_app; split; [apply IH|].
  constructor; [|constructor]. apply N.mod_lt. discriminate.
Qed.

Lemma hex_digits_length k : forall n, length (hex_digits k n) = k.
Proof.
  induction k as [|k IH]; intros n; simpl; [reflexivity|].
  rewrite length_app, IH. simpl. lia.
Qed.

Lemma mapM_hex_value ds :
  Forall (fun d => (d < 16)%N) ds -> mapM hex_value (hex_char <$> ds) = Some ds.
Proof.
  induction 1 as [|d ds Hd _ IH]; [reflexivity|].
  cbn. rewrite (hex_value_char d Hd). cbn. rewrite IH. reflexivity.
Qed.

Lemma hex_number_snoc l d : hex_number (l ++ [d]) = (hex_number l * 16 + d)%N.
Proof. unfold hex_number. rewrite fold_left_app. reflexivity. Qed.

Lemma hex_number_digits k : forall n, hex_number (hex_digits k n) = (n mod 16 ^ N.of_nat k)%N.
Proof.
  induction k as [|k IH]; intros n.
  - simpl. rewrite N.mod_1_r. reflexivity.
  - simpl hex_digits. rewrite hex_number_snoc, IH.
    rewrite Nat2N.inj_succ, N.pow_succ_r'.
    rewrite N.Div0.mod_mul_r. lia.
Qed.

Lemma ObjectId_roundtrip i :
  (i < oid_bound)%N -> ObjectId_parse (ObjectId_toString i) = Some i.
Proof.
  intros Hi. unfold ObjectId_parse, ObjectId_toString.
  rewrite length_fmap, hex_digits_length.
  destruct (decide (24%nat = 24%nat)) as [_|]; [|congruence].
  rewrite mapM_hex_value by apply hex_digits_lt.
  change (Some (hex_number (hex_digits 24 i)) = Some i).
  f_equal. rewrite hex_number_digits.
  apply N.mod_small. exact Hi.
Qed.
End SampleFacts.

#[local] Instance sample_host : Host := {|
  JSON_parse := Sample.JSON_parse;
  parseFloat := Sample.parseFloat;
  parseInt := Sample.parseInt;
  Array_from := Sample.Array_from;
  ObjectId_parse := Sample.ObjectId_parse;
  ObjectId_toString := Sample.ObjectId_toString;
  ObjectId_roundtrip := SampleFacts.ObjectId_roundtrip;
  isoDate := Sample.isoDate;
  toFixed3 := Sample.toFixed3
|}.

(** Texts and broadcasts are not unfolded by simplification. *)
Arguments js : simpl never.
Arguments has : simpl never.
Arguments JsString.of_nat : simpl never.
Arguments JsString.of_Z : simpl never.
Arguments sendProgress : simpl never.
Arguments sendRealtimeLog : simpl never.
Arguments io_to_emit : simpl never.
Arguments socket_emit : simpl never.

(** ** Stepping through a computation *)

(** Unfolds the plumbing of a computation applied to a world, and
    nothing else. *)
Tactic Notation "msimpl" :=
  cbn [bind ret exec get throw rethrow try_catch log_if progress_if
       progress_call call_if type_error bson_error fst snd].
Tactic Notation "msimpl" "in" hyp(H) :=
  cbn [bind ret exec get throw rethrow try_catch log_if progress_if
       progress_call call_if type_error bson_error fst snd] in H.

Lemma bind_apply {A B} (m : M A) (k : A -> M B) (w : world) :
  bind m k w = match m w with
               | (Ok a, w') => k a w'
               | (Throw e, w') => (Throw e, w')
               | (Pending, w') => (Pending, w')
               end.
Proof. reflexivity. Qed.

(** Exposes the result of the first computation that is not plumbing. *)
Ltac mbind :=
  match goal with
  | |- context [bind ?m ?k ?w] => rewrite (bind_apply m k w)
  end.

(** ** The result taken from the captured output *)

Section FirstPayload.

Context {host : Host}.

Lemma find_json_first (lines : list jsstring) :
  find_json lines = head (omap parse_payload lines).
Proof.
  induction lines as [|line lines IH]; [reflexivity|].
  cbn [find_json omap list_omap]. unfold parse_payload at 1.
  destruct (startsWith (js "{") (trim line) && endsWith (js "}") (trim line)).
  - destruct (JSON_parse (trim line)); [reflexivity|exact IH].
  - exact IH.
Qed.

Lemma head_omap_first {A B} (f : A -> option B) (earlier later : list A)
  (x : A) (y : B) :
  Forall (fun a => f a = None) earlier ->
  f x = Some y ->
  head (omap f (earlier ++ x :: later)) = Some y.
Proof.
  induction 1 as [|a earlier Ha _ IH]; intros Hx; cbn [app omap list_omap].
  - rewrite Hx. reflexivity.
  - rewrite Ha. apply IH, Hx.
Qed.

Lemma on_close_result (sp : option progress_fn) (lg : option log_fn)
  (st : supervisor) (w : world) :
  processFinished st = false ->
  promise st = None ->
  promise (fst (on_close sp lg (Some 0) st w))
  = Some (result_of_output (stdout st)).
Proof.
  intros Hfin Hp. unfold on_close. rewrite Hfin.
  destruct (decide (Some 0 = Some 0)) as [_|]; [|congruence].
  unfold result_of_output, first_payload, payloads, jsonResult_of.
  cbn [stdout clearTimeout set_finished].
  rewrite find_json_first.
  destruct (head (omap parse_payload (JsString.split newline (stdout st))))
    as [v|]; unfold default, id; cbn [from_option].
  - destruct (truthy v);
      cbn [fst resolve promise clearTimeout set_finished]; rewrite Hp;
      reflexivity.
  - cbn [truthy fst resolve promise clearTimeout set_finished].
    rewrite Hp. reflexivity.
Qed.

(** C5, as the code has it.  When the worker exits with code 0 the
    promise is resolved with the value of the first line of the
    captured output that, trimmed, is between braces and parses (with
    the made-up default result when that value is falsy or when there
    is no such line); lines after it are not looked at. *)
Theorem close_resolves_first_payload :
  forall (sp : option progress_fn) (lg : option log_fn) (st : supervisor)
         (w : world) (earlier later : list jsstring) (line : jsstring)
         (v : jsval),
    processFinished st = false ->
    promise st = None ->
    JsString.split newline (stdout st) = earlier ++ line :: later ->
    Forall (fun l => parse_payload l = None) earlier ->
    parse_payload line = Some v ->
    truthy v = true ->
    promise (fst (on_close sp lg (Some 0) st w)) = Some (PySuccess v).
Proof.
  intros sp lg st w earlier later line v Hfin Hp Hsplit Hearlier Hline Hv.
  rewrite on_close_result by assumption.
  unfold result_of_output, first_payload, payloads.
  rewrite Hsplit, (head_omap_first _ _ _ _ _ Hearlier Hline), Hv.
  reflexivity.
Qed.

End FirstPayload.

Lemma close_resolves_first_payload_witness :
  promise (fst (on_close (host := sample_host) None None (Some 0)
                  (append_stdout two_payloads initial_supervisor)
                  empty_world))
  = Some (PySuccess Sample.value_first).
Proof.
  apply (close_resolves_first_payload (host := sample_host) None None
           (append_stdout two_payloads initial_supervisor) empty_world
           [js "log line"] [Sample.line_second; []] Sample.line_first
           Sample.value_first).
  - reflexivity.
  - reflexivity.
  - vm_compute. reflexivity.
  - repeat constructor.
  - vm_compute. reflexivity.
  - reflexivity.
Defined.

(** The output [two_payloads] has two payload lines; the last one holds
    [value_second], and the promise is not resolved with it. *)
Lemma last_payload_not_returned :
  last_payload (host := sample_host) two_payloads
  = Some Sample.value_second /\
  promise (fst (on_close (host := sample_host) None None (Some 0)
                  (append_stdout two_payloads initial_supervisor)
                  empty_world))
  <> (PySuccess <$> last_payload (host := sample_host) two_payloads).
Proof.
  split; [vm_compute; reflexivity|].
  vm_compute. discriminate.
Qed.

(** ** What is stored of a result *)

Section ResultDoc.

Context {host : Host}.

Lemma or_zero_idem (x : number) : or_zero (or_zero x) = or_zero x.
Proof.
  unfold or_zero. destruct (JsNumber.truthy x) eqn:E; [rewrite E|];
    reflexivity.
Qed.

Lemma or_else_truthy (v d : jsval) : truthy v = true -> or_else v d = v.
Proof. unfold or_else. intros ->. reflexivity. Qed.

Lemma or_else_default (v d : jsval) :
  truthy d = true -> truthy (or_else v d) = true.
Proof. unfold or_else. intros Hd. destruct (truthy v) eqn:E; assumption. Qed.

Lemma or_else_idem (v d : jsval) : or_else (or_else v d) d = or_else v d.
Proof.
  unfold or_else. destruct (truthy v) eqn:E; [rewrite E; reflexivity|].
  destruct (truthy d); reflexivity.
Qed.

(** Storing what was stored changes nothing. *)
Lemma resultDoc_idem (a : analysis) : resultDoc (resultDoc a) = resultDoc a.
Proof.
  unfold resultDoc.
  cbn [positive_count negative_count neutral_count overall_sentiment
       overall_score confidence_score total_news_count analyzed_news_count
       report_text news_data analyzed_news significant_news indicators_data
       policy_impact].
  rewrite !or_zero_idem, !or_else_idem. reflexivity.
Qed.

Lemma resultDoc_as_is (a : analysis) : stored_as_is a -> resultDoc a = a.
Proof.
  intros (Hs & Hc & Hr & Hi & Hp). unfold resultDoc.
  rewrite Hs, Hc, !or_else_truthy by assumption. destruct a. reflexivity.
Qed.

Lemma default_stored_as_is : stored_as_is default_analysis.
Proof. repeat split; vm_compute; reflexivity. Qed.

Lemma truthy_text (s t : jsstring) : t <> [] -> truthy (JStr (s ++ t)) = true.
Proof.
  intros Ht. cbn [truthy]. destruct s as [|c s]; [|reflexivity].
  destruct t; [congruence|reflexivity].
Qed.

(** What [collectAndAnalyzeStock] returns is stored as it is. *)
Lemma build_analysis_stored (stockName : jsstring) (sp : option progress_fn)
  (lg : option log_fn) (data : jsval) (w w' : world) (a : analysis) :
  build_analysis stockName sp lg data w = (Ok a, w') -> stored_as_is a.
Proof.
  unfold build_analysis.
  destruct (negb (readable data)); [discriminate|].
  match goal with
  | |- context [match ?x with Some _ => _ | None => _ end] =>
    destruct x as [analyzedNews|]; [|discriminate]
  end.
  destruct (count_all analyzedNews no_counters) as [c|] eqn:Ec.
  - destruct sp as [send|]; msimpl; intros H; [|discriminate].
    injection H as <- _. unfold stored_as_is.
    cbn [overall_score confidence_score report_text indicators_data
         policy_impact].
    rewrite !or_zero_idem.
    repeat split; try reflexivity; apply or_else_default;
      try reflexivity.
    apply truthy_text. vm_compute. discriminate.
  - msimpl. discriminate.
Qed.

End ResultDoc.

(** ** Effects that leave the database alone *)

Lemma io_only_refl (w : world) : io_only w w.
Proof. unfold io_only. auto 10. Qed.

Lemma io_only_trans (w1 w2 w3 : world) :
  io_only w1 w2 -> io_only w2 w3 -> io_only w1 w3.
Proof.
  unfold io_only. intros (?&?&?&?&?&?&?&?) (?&?&?&?&?&?&?&?).
  repeat split; congruence.
Qed.

Lemma db_actions_app (tr tr' : list action) :
  db_actions (tr ++ tr') = db_actions tr ++ db_actions tr'.
Proof. unfold db_actions. apply List.filter_app. Qed.

Lemma io_only_log_action (a : action) (w : world) :
  io_action a = true -> io_only w (log_action a w).
Proof.
  intros Ha. unfold io_only, log_action. cbn.
  repeat split; try reflexivity.
  rewrite db_actions_app. unfold db_actions at 2. cbn. rewrite Ha. cbn.
  apply app_nil_r.
Qed.

Lemma io_only_set_inbox (i : socket_id -> list message) (w : world) :
  io_only w (set_inbox i w).
Proof. unfold io_only. cbn. auto 10. Qed.

Lemma io_only_set_rooms (r : gmap jsstring (gset socket_id)) (w : world) :
  io_only w (set_rooms r w).
Proof. unfold io_only. cbn. auto 10. Qed.

Lemma io_only_io_to_emit (room : jsstring) (m : message) (w : world) :
  io_only w (io_to_emit room m w).
Proof.
  unfold io_to_emit.
  eapply io_only_trans; [apply io_only_set_inbox|].
  apply io_only_log_action. reflexivity.
Qed.

Lemma io_only_socket_emit (s : socket_id) (m : message) (w : world) :
  io_only w (socket_emit s m w).
Proof.
  unfold socket_emit.
  eapply io_only_trans; [apply io_only_set_inbox|].
  apply io_only_log_action. reflexivity.
Qed.

Lemma io_only_join (s : socket_id) (requestId : jsstring) (w : world) :
  io_only w (on_join_analysis s requestId w).
Proof.
  unfold on_join_analysis. destruct requestId; [apply io_only_refl|].
  eapply io_only_trans; [apply io_only_set_rooms|].
  apply io_only_socket_emit.
Qed.

Lemma io_only_leave (s : socket_id) (requestId : jsstring) (w : world) :
  io_only w (on_leave_analysis s requestId w).
Proof.
  unfold on_leave_analysis. destruct requestId; [apply io_only_refl|].
  eapply io_only_trans; [apply io_only_set_rooms|].
  apply io_only_socket_emit.
Qed.

Lemma io_only_disconnect (s : socket_id) (w : world) :
  io_only w (on_disconnect s w).
Proof. apply io_only_set_rooms. Qed.

Lemma io_progress_sendProgress (requestId : jsstring) :
  io_progress (sendProgress requestId).
Proof. intros ? ? ? ? ? w. apply io_only_io_to_emit. Qed.

Lemma io_log_sendRealtimeLog (requestId : jsstring) :
  io_log (sendRealtimeLog requestId).
Proof. intros ? ? ? w. apply io_only_io_to_emit. Qed.

Lemma io_only_call_if {F} (P : F -> Prop) (f : option F)
  (k : F -> world -> world) (w : world) :
  io_callback P f ->
  (forall g, P g -> io_only w (k g w)) ->
  io_only w (call_if f k w).
Proof.
  intros Hf Hk. destruct f as [g|]; cbn in *; [auto|apply io_only_refl].
Qed.

(** *** Computations *)

Lemma io_comp_ret {A} (a : A) : io_comp (ret a).
Proof. intros w. apply io_only_refl. Qed.

Lemma io_comp_throw {A} (msg : jsstring) : io_comp (throw (A := A) msg).
Proof. intros w. apply io_only_refl. Qed.

Lemma io_comp_rethrow {A} (e : exn) : io_comp (rethrow (A := A) e).
Proof. intros w. apply io_only_refl. Qed.

Lemma io_comp_get {A} (f : world -> A) : io_comp (get f).
Proof. intros w. apply io_only_refl. Qed.

Lemma io_comp_exec (f : world -> world) :
  (forall w, io_only w (f w)) -> io_comp (exec f).
Proof. intros H w. apply H. Qed.

Lemma io_comp_bind {A B} (m : M A) (k : A -> M B) :
  io_comp m -> (forall a, io_comp (k a)) -> io_comp (bind m k).
Proof.
  intros Hm Hk w. unfold bind. specialize (Hm w).
  destruct (m w) as [[a|e|] w1]; cbn in *; [|assumption..].
  eapply io_only_trans; [exact Hm|apply Hk].
Qed.

Lemma io_comp_try_catch {A} (m : M A) (h : exn -> M A) :
  io_comp m -> (forall e, io_comp (h e)) -> io_comp (try_catch m h).
Proof.
  intros Hm Hh w. unfold try_catch. specialize (Hm w).
  destruct (m w) as [[a|e|] w1]; cbn in *; [assumption| |assumption].
  eapply io_only_trans; [exact Hm|apply Hh].
Qed.

Lemma io_comp_log_if (lg : option log_fn) (s : step_id) (msg : jsstring) :
  io_callback io_log lg -> io_comp (log_if lg s msg).
Proof.
  intros Hlg. apply io_comp_exec. intros w.
  apply (io_only_call_if io_log); [exact Hlg|]. intros g Hg. cbv beta. apply Hg.
Qed.

Lemma io_comp_progress_if (sp : option progress_fn) (s : step_id)
  (label : jsstring) (st : step_status) (msg : jsstring)
  (details : list jsstring) :
  io_callback io_progress sp -> io_comp (progress_if sp s label st msg details).
Proof.
  intros Hsp. apply io_comp_exec. intros w.
  apply (io_only_call_if io_progress); [exact Hsp|]. intros g Hg. cbv beta. apply Hg.
Qed.

Lemma io_comp_progress_call (sp : option progress_fn) (s : step_id)
  (label : jsstring) (st : step_status) (msg : jsstring)
  (details : list jsstring) :
  io_callback io_progress sp ->
  io_comp (progress_call sp s label st msg details).
Proof.
  intros Hsp. destruct sp as [send|]; cbn in *.
  - apply io_comp_exec. intros w. apply Hsp.
  - apply io_comp_throw.
Qed.

Lemma no_throw_ret {A} (a : A) : no_throw (ret a).
Proof. intros w e. discriminate. Qed.

Lemma no_throw_exec (f : world -> world) : no_throw (exec f).
Proof. intros w e. discriminate. Qed.

Lemma no_throw_bind {A B} (m : M A) (k : A -> M B) :
  no_throw m -> (forall a, no_throw (k a)) -> no_throw (bind m k).
Proof.
  intros Hm Hk w e. unfold bind. specialize (Hm w).
  destruct (m w) as [[a|e'|] w1]; cbn in *.
  - apply Hk.
  - exfalso. apply (Hm e'). reflexivity.
  - discriminate.
Qed.

Lemma no_throw_try_catch {A} (m : M A) (h : exn -> M A) :
  (forall e, no_throw (h e)) -> no_throw (try_catch m h).
Proof.
  intros Hh w e. unfold try_catch.
  destruct (m w) as [[a|e'|] w1]; cbn; [discriminate|apply Hh|discriminate].
Qed.

(** ** The supervisor *)

Section Supervisor.

Context {host : Host}.

Variables (sp : option progress_fn) (requestId : jsstring)
          (lg : option log_fn).

Lemma resolve_settled (r : pythonResult) (st : supervisor) :
  promise (resolve r st) <> None.
Proof. unfold resolve. cbn. destruct (promise st); discriminate. Qed.

Lemma resolve_first (r : pythonResult) (st : supervisor) :
  promise st = None -> promise (resolve r st) = Some r.
Proof. intros H. unfold resolve. cbn. rewrite H. reflexivity. Qed.

Lemma resolve_stable (r r' : pythonResult) (st : supervisor) :
  promise st = Some r -> promise (resolve r' st) = Some r.
Proof. intros H. unfold resolve. cbn. rewrite H. reflexivity. Qed.

(** A settled promise keeps its value whatever happens next. *)
Lemma on_event_stable (e : event) (st : supervisor) (w : world)
  (r : pythonResult) :
  promise st = Some r ->
  promise (fst (on_event sp requestId lg e st w)) = Some r.
Proof.
  intros H. destruct e; cbn [on_event fst]; try exact H.
  - unfold on_stderr. destruct sp; [|exact H].
    cbn [processFinished append_stderr].
    destruct (processFinished st); exact H.
  - unfold on_close. destruct (processFinished st); [exact H|].
    destruct (decide (code = Some 0)); [|apply resolve_stable; exact H].
    destruct (truthy _); apply resolve_stable; exact H.
  - apply resolve_stable. exact H.
  - unfold on_timeout. destruct (timeoutCleared st); [exact H|].
    destruct (processFinished st); [exact H|].
    apply resolve_stable. exact H.
  - apply resolve_stable. exact H.
Qed.

Lemma supervise_stable (sched : list event) :
  forall (st : supervisor) (w : world) (r : pythonResult),
    promise st = Some r ->
    promise (fst (supervise sp requestId lg sched st w)) = Some r.
Proof.
  induction sched as [|e sched IH]; intros st w r H; [exact H|].
  cbn [supervise]. apply IH, on_event_stable, H.
Qed.

Lemma supervise_app (s1 s2 : list event) :
  forall (st : supervisor) (w : world),
    supervise sp requestId lg (s1 ++ s2) st w
    = supervise sp requestId lg s2
        (fst (supervise sp requestId lg s1 st w))
        (snd (supervise sp requestId lg s1 st w)).
Proof.
  induction s1 as [|e s1 IH]; intros st w; [reflexivity|].
  cbn [app supervise]. apply IH.
Qed.

Lemma initial_consistent : consistent initial_supervisor.
Proof. split; discriminate. Qed.

Lemma consistent_ext (st st' : supervisor) :
  processFinished st' = processFinished st ->
  timeoutCleared st' = timeoutCleared st ->
  promise st' = promise st ->
  consistent st -> consistent st'.
Proof. unfold consistent. intros -> -> ->. auto. Qed.

Lemma on_event_consistent (e : event) (st : supervisor) (w : world) :
  consistent st -> consistent (fst (on_event sp requestId lg e st w)).
Proof.
  intros H. pose proof H as [Hf Hc].
  destruct e; cbn [on_event fst]; try exact H.
  - unfold on_stderr. destruct sp.
    + cbn [processFinished append_stderr].
      destruct (processFinished st); revert H; apply consistent_ext;
        reflexivity.
    + revert H. apply consistent_ext; reflexivity.
  - unfold on_close. destruct (processFinished st) eqn:E; [exact H|].
    destruct (decide (code = Some 0)); [destruct (truthy _)|];
      (split; [intros _; apply resolve_settled|reflexivity]).
  - split; [intros _; apply resolve_settled|exact Hc].
  - unfold on_timeout. destruct (timeoutCleared st) eqn:Ec; [exact H|].
    destruct (processFinished st) eqn:E; [exact H|].
    split; [intros _; apply resolve_settled|].
    cbn. intros _. reflexivity.
  - split; [intros _; apply resolve_settled|exact Hc].
Qed.

Lemma supervise_consistent (sched : list event) :
  forall (st : supervisor) (w : world),
    consistent st ->
    consistent (fst (supervise sp requestId lg sched st w)).
Proof.
  induction sched as [|e sched IH]; intros st w H; [exact H|].
  cbn [supervise]. apply IH, on_event_consistent, H.
Qed.

(** When the first timer has fired the promise is settled. *)
Lemma timeout_settles (st : supervisor) (w : world) :
  consistent st -> promise (fst (on_timeout st w)) <> None.
Proof.
  intros [Hf Hc]. unfold on_timeout.
  destruct (timeoutCleared st) eqn:Ec; [apply Hf, Hc; reflexivity|].
  destruct (processFinished st) eqn:E; [apply Hf; reflexivity|].
  apply resolve_settled.
Qed.

(** Quiet events leave the flags and the promise as they are and add
    their standard output to what is captured. *)
Lemma on_event_quiet (e : event) (st : supervisor) (w : world) :
  quiet e = true ->
  let st' := fst (on_event sp requestId lg e st w) in
  promise st' = promise st /\
  processFinished st' = processFinished st /\
  timeoutCleared st' = timeoutCleared st /\
  stdout st' = stdout st ++ captured [e].
Proof.
  intros Hq.
  destruct e; try discriminate; cbn [on_event fst captured flat_map];
    rewrite ?app_nil_r; try (repeat split; reflexivity).
  unfold on_stderr. destruct sp; [|repeat split; reflexivity].
  cbn [processFinished append_stderr].
  destruct (processFinished st) eqn:E;
    cbn [fst promise processFinished timeoutCleared stdout append_stderr
         set_active];
    rewrite ?E; repeat split; reflexivity.
Qed.

Lemma captured_cons (e : event) (sched : list event) :
  captured (e :: sched) = captured [e] ++ captured sched.
Proof. unfold captured. cbn [flat_map]. rewrite app_nil_r. reflexivity. Qed.

Lemma supervise_quiet (sched : list event) :
  forall (st : supervisor) (w : world),
    still_running sched ->
    let st' := fst (supervise sp requestId lg sched st w) in
    promise st' = promise st /\
    processFinished st' = processFinished st /\
    timeoutCleared st' = timeoutCleared st /\
    stdout st' = stdout st ++ captured sched.
Proof.
  unfold still_running.
  induction sched as [|e sched IH]; intros st w H.
  - cbn. rewrite app_nil_r. auto 10.
  - cbn [forallb] in H. apply andb_prop in H as [He H].
    cbn [supervise].
    destruct (on_event_quiet e st w He) as (Hp & Hf & Hc & Ho).
    destruct (IH (fst (on_event sp requestId lg e st w))
                 (snd (on_event sp requestId lg e st w)) H)
      as (Hp' & Hf' & Hc' & Ho').
    cbv zeta in *.
    rewrite Hp', Hf', Hc', Ho', Hp, Hf, Hc, Ho.
    rewrite (captured_cons e sched), app_assoc. auto 10.
Qed.

(** [await] returns the value the promise is settled with. *)
Lemma await_settled (sched : list event) :
  forall (st : supervisor) (w : world) (r : pythonResult),
    promise (fst (supervise sp requestId lg sched st w)) = Some r ->
    fst (await_promise sp requestId lg sched st w) = Ok r.
Proof.
  induction sched as [|e sched IH]; intros st w r H.
  - cbn in H. cbn [await_promise]. rewrite H. reflexivity.
  - cbn [await_promise]. destruct (promise st) as [r0|] eqn:E.
    + pose proof (supervise_stable (e :: sched) st w r0 E) as H'.
      rewrite H in H'. injection H' as ->. reflexivity.
    + apply IH. exact H.
Qed.

(** [await] runs the events up to the one that settles the promise. *)
Lemma await_app_quiet (before rest : list event) :
  forall (st : supervisor) (w : world),
    still_running before ->
    promise st = None ->
    await_promise sp requestId lg (before ++ rest) st w
    = await_promise sp requestId lg rest
        (fst (supervise sp requestId lg before st w))
        (snd (supervise sp requestId lg before st w)).
Proof.
  unfold still_running.
  induction before as [|e before IH]; intros st w H Hp; [reflexivity|].
  cbn [forallb] in H. apply andb_prop in H as [He H].
  cbn [app await_promise supervise]. rewrite Hp.
  apply IH; [exact H|].
  destruct (on_event_quiet e st w He) as (Hp' & _). cbv zeta in Hp'.
  congruence.
Qed.

End Supervisor.

(** ** The worker run only emits, and its result does not depend on
    who listens *)

Section WorkerRun.

Context {host : Host}.

Variables (sp : option progress_fn) (requestId : jsstring)
          (lg : option log_fn).

Hypothesis sp_io : io_callback io_progress sp.
Hypothesis lg_io : io_callback io_log lg.

Lemma handle_line_io (send : progress_fn) (line : jsstring)
  (active : step_id) (w : world) :
  io_progress send ->
  io_only w (snd (handle_line send requestId line active w)).
Proof.
  intros Hsend. unfold handle_line.
  destruct (skipped line); cbn [snd]; [apply io_only_refl|].
  destruct (c_progress _) as [[[[stepId label] st] msg]|].
  - eapply io_only_trans; [apply io_only_io_to_emit|apply Hsend].
  - apply io_only_io_to_emit.
Qed.

Lemma handle_lines_io (send : progress_fn) (lines : list jsstring) :
  forall (active : step_id) (w : world),
    io_progress send ->
    io_only w (snd (handle_lines send requestId lines active w)).
Proof.
  induction lines as [|line lines IH]; intros active w Hsend.
  - apply io_only_refl.
  - cbn [handle_lines].
    eapply io_only_trans; [apply handle_line_io, Hsend|apply IH, Hsend].
Qed.

Lemma finish_steps_io (send : progress_fn) (msg : string) (w : world) :
  io_progress send -> io_only w (finish_steps send msg w).
Proof.
  intros Hsend. unfold finish_steps.
  repeat (eapply io_only_trans; [|apply Hsend]). apply io_only_refl.
Qed.

Lemma on_event_io (e : event) (st : supervisor) (w : world) :
  io_only w (snd (on_event sp requestId lg e st w)).
Proof.
  destruct e; cbn [on_event snd]; try apply io_only_refl.
  - unfold on_stderr. destruct sp as [send|] eqn:E; [|apply io_only_refl].
    cbn [processFinished append_stderr].
    destruct (processFinished st); cbn [snd]; [apply io_only_refl|].
    apply handle_lines_io. exact sp_io.
  - unfold on_close. destruct (processFinished st); [apply io_only_refl|].
    destruct (decide (code = Some 0)); [|apply io_only_refl].
    destruct (truthy _); cbn [snd].
    + eapply io_only_trans; cycle 1.
      * apply (io_only_call_if io_log); [exact lg_io|].
        intros g Hg. cbv beta. apply Hg.
      * apply (io_only_call_if io_progress); [exact sp_io|].
        intros g Hg. cbv beta. apply finish_steps_io, Hg.
    + apply (io_only_call_if io_progress); [exact sp_io|].
      intros g Hg. cbv beta. apply finish_steps_io, Hg.
  - unfold on_timeout. destruct (timeoutCleared st); [apply io_only_refl|].
    destruct (processFinished st); [apply io_only_refl|].
    apply io_only_log_action. reflexivity.
  - apply io_only_log_action. reflexivity.
  - apply io_only_join.
  - apply io_only_leave.
  - apply io_only_disconnect.
Qed.

Lemma await_promise_io (sched : list event) :
  forall (st : supervisor), io_comp (await_promise sp requestId lg sched st).
Proof.
  induction sched as [|e sched IH]; intros st w.
  - cbn [await_promise]. destruct (promise st); apply io_only_refl.
  - cbn [await_promise]. destruct (promise st); [apply io_only_refl|].
    eapply io_only_trans; [apply on_event_io|apply IH].
Qed.

Lemma await_promise_no_throw (sched : list event) :
  forall (st : supervisor),
    no_throw (await_promise sp requestId lg sched st).
Proof.
  induction sched as [|e sched IH]; intros st w ex.
  - cbn [await_promise]. destruct (promise st); discriminate.
  - cbn [await_promise]. destruct (promise st); [discriminate|]. apply IH.
Qed.

Lemma runPythonAnalyzer_io (stockName startDate endDate : jsstring)
  (sched : list event) :
  io_comp (runPythonAnalyzer stockName startDate endDate sp requestId lg
                             sched).
Proof.
  unfold runPythonAnalyzer.
  apply io_comp_bind; [|intros _; apply io_comp_bind].
  - apply io_comp_exec. intros w.
    apply (io_only_call_if io_progress); [exact sp_io|].
    intros g Hg. cbv beta. apply Hg.
  - apply io_comp_exec. intros w. apply io_only_log_action. reflexivity.
  - intros _. apply await_promise_io.
Qed.

Lemma runPythonAnalyzer_no_throw (stockName startDate endDate : jsstring)
  (sched : list event) :
  no_throw (runPythonAnalyzer stockName startDate endDate sp requestId lg
                              sched).
Proof.
  unfold runPythonAnalyzer.
  apply no_throw_bind; [apply no_throw_exec|intros _].
  apply no_throw_bind; [apply no_throw_exec|intros _].
  apply await_promise_no_throw.
Qed.

Lemma build_analysis_io (stockName : jsstring) (data : jsval) :
  io_comp (build_analysis stockName sp lg data).
Proof.
  unfold build_analysis.
  destruct (negb (readable data)); [apply io_comp_throw|].
  match goal with
  | |- context [match ?x with Some _ => _ | None => _ end] =>
    destruct x as [analyzedNews|]; [|apply io_comp_throw]
  end.
  repeat (apply io_comp_bind; [apply io_comp_log_if, lg_io|intros _]).
  destruct (count_all analyzedNews no_counters) as [c|];
    [|apply io_comp_throw].
  repeat (apply io_comp_bind; [apply io_comp_log_if, lg_io|intros _]).
  apply io_comp_bind; [apply io_comp_progress_call, sp_io|intros _].
  apply io_comp_ret.
Qed.

Lemma collectAndAnalyzeStock_io (stockName : jsstring)
  (startDate endDate : option jsstring) (sched : list event) :
  io_comp (collectAndAnalyzeStock stockName startDate endDate sp requestId
                                  lg sched).
Proof.
  unfold collectAndAnalyzeStock.
  apply io_comp_try_catch.
  - apply io_comp_bind; [apply io_comp_get|intros t].
    repeat (apply io_comp_bind; [apply io_comp_log_if, lg_io|intros _]).
    apply io_comp_bind; [apply runPythonAnalyzer_io|intros r].
    apply io_comp_bind; [apply io_comp_log_if, lg_io|intros _].
    destruct r as [data|e t' raw].
    + apply io_comp_bind; [apply io_comp_log_if, lg_io|intros _].
      apply build_analysis_io.
    + apply io_comp_bind; [apply io_comp_progress_if, sp_io|intros _].
      apply io_comp_throw.
  - intros e.
    apply io_comp_bind; [apply io_comp_progress_if, sp_io|intros _].
    apply io_comp_rethrow.
Qed.

Lemma runJavaScriptAnalysis_io (stockName startDate endDate : jsstring)
  (sched : list event) :
  io_comp (runJavaScriptAnalysis stockName startDate endDate requestId sp lg
                                 sched).
Proof.
  unfold runJavaScriptAnalysis.
  apply io_comp_try_catch.
  - repeat (apply io_comp_bind; [apply io_comp_log_if, lg_io|intros _]).
    apply io_comp_bind; [apply io_comp_progress_if, sp_io|intros _].
    apply io_comp_bind; [apply io_comp_log_if, lg_io|intros _].
    apply io_comp_bind; [apply collectAndAnalyzeStock_io|intros a].
    repeat (apply io_comp_bind; [apply io_comp_log_if, lg_io|intros _]).
    apply io_comp_bind; [apply io_comp_progress_call, sp_io|intros _].
    apply io_comp_bind; [apply io_comp_get|intros t].
    apply io_comp_ret.
  - intros e.
    apply io_comp_bind; [apply io_comp_progress_if, sp_io|intros _].
    apply io_comp_ret.
Qed.

Lemma runJavaScriptAnalysis_no_throw
  (stockName startDate endDate : jsstring) (sched : list event) :
  no_throw (runJavaScriptAnalysis stockName startDate endDate requestId sp
                                  lg sched).
Proof.
  unfold runJavaScriptAnalysis. apply no_throw_try_catch. intros e.
  apply no_throw_bind; [apply no_throw_exec|intros _]. apply no_throw_ret.
Qed.

End WorkerRun.

(** ** The phases of the handler *)

Lemma db_step_refl (id : oid) (w : world) : db_step id w w kept kept [].
Proof. unfold db_step, kept. rewrite app_nil_r. auto. Qed.

Lemma db_step_trans (id : oid) (w1 w2 w3 : world) f1 g1 h1 f2 g2 h2 :
  db_step id w1 w2 f1 g1 h1 -> db_step id w2 w3 f2 g2 h2 ->
  db_step id w1 w3 (fun m => f2 (f1 m)) (fun m => g2 (g1 m)) (h1 ++ h2).
Proof.
  unfold db_step. intros (Hr & Hs & Hn & Hh) (Hr' & Hs' & Hn' & Hh').
  rewrite Hr', Hr, Hs', Hs, Hn', Hn, Hh', Hh, app_assoc. auto.
Qed.

Lemma history_io (id : oid) (w w' : world) :
  io_only w w' -> history id w' = history id w.
Proof. intros (_&_&_&_&_&_&_&H). unfold history. rewrite H. reflexivity. Qed.

Lemma db_step_io (id : oid) (w w' : world) :
  io_only w w' -> db_step id w w' kept kept [].
Proof.
  intros H. pose proof (history_io id _ _ H) as Hh.
  destruct H as (Hr & Hs & _ & _ & _ & Hn & _).
  unfold db_step, kept. rewrite app_nil_r. auto.
Qed.

Lemma history_log_action (id : oid) (a : action) (w : world) :
  history id (log_action a w)
  = history id w ++ omap (status_write id) (db_actions [a]).
Proof.
  unfold history, log_action. cbn [trace].
  rewrite db_actions_app, omap_app. reflexivity.
Qed.

(** Closes a [db_step] between a world and an explicit update of it. *)
Ltac db_solve :=
  unfold db_step, kept; rewrite ?history_log_action;
  cbn [analysis_requests analysis_results now trace log_action
       set_requests set_results set_news set_indicators set_logs
       set_next_oid
       db_actions List.filter io_action negb omap list_omap status_write];
  repeat match goal with
         | |- context [decide (?x = ?x)] =>
           destruct (decide (x = x)); [|congruence]
         end;
  unfold history;
  cbn [trace set_requests set_results set_news set_indicators set_logs
       set_next_oid];
  rewrite ?app_nil_r; auto.

Section Phases.

Context {host : Host}.

Lemma updateAnalysisStatus_step (requestId : jsstring) (id : oid)
  (s : job_status) (c : option Z) (w : world) :
  ObjectId_parse requestId = Some id ->
  exists w',
    updateAnalysisStatus requestId s c w = (Ok tt, w') /\
    db_step id w w' (alter (update_doc s c (now w)) id) kept [s].
Proof.
  intros Hid. unfold updateAnalysisStatus. rewrite Hid. msimpl.
  eexists. split; [reflexivity|].
  unfold db_step, kept. rewrite history_log_action.
  cbn [db_actions List.filter io_action negb omap list_omap status_write].
  destruct (decide (id = id)); [|congruence].
  cbn [analysis_requests analysis_results now log_action set_requests].
  auto.
Qed.

Lemma addLog_step (requestId level component msg : jsstring) (id j : oid)
  (w : world) :
  ObjectId_parse requestId = Some id ->
  exists w',
    addLog requestId level component msg w = (Ok tt, w') /\
    db_step j w w' kept kept [].
Proof.
  intros Hid. unfold addLog. destruct requestId as [|c r].
  - msimpl. eexists. split; [reflexivity|].
    db_solve.
  - rewrite Hid. msimpl. eexists. split; [reflexivity|].
    db_solve.
Qed.

Lemma saveAnalysisResults_step (requestId : jsstring) (id : oid)
  (a : analysis) (w : world) :
  ObjectId_parse requestId = Some id ->
  exists w',
    saveAnalysisResults requestId a w = (Ok tt, w') /\
    db_step id w w' kept (insert id (resultDoc a)) [].
Proof.
  intros Hid. unfold saveAnalysisResults. rewrite Hid. msimpl.
  eexists. split; [reflexivity|].
  db_solve.
Qed.

(** Saving the news or the indicators leaves requests and results as
    they are, whether it succeeds or throws; it succeeds when every
    item can be read. *)
Lemma saveNewsData_step (requestId : jsstring) (id : oid)
  (news : list jsval) (w : world) :
  ObjectId_parse requestId = Some id ->
  exists o w',
    saveNewsData requestId news w = (o, w') /\ o <> Pending /\
    db_step id w w' kept kept [] /\
    (forallb readable news = true -> o = Ok tt).
Proof.
  intros Hid. unfold saveNewsData. destruct news as [|n news].
  - exists (Ok tt), w. split; [reflexivity|]. split; [discriminate|].
    split; [apply db_step_refl|reflexivity].
  - rewrite Hid. destruct (forallb readable (n :: news)).
    + msimpl. eexists. eexists. split; [reflexivity|].
      split; [discriminate|]. split; [db_solve|reflexivity].
    + eexists. exists w. split; [reflexivity|].
      split; [discriminate|]. split; [apply db_step_refl|discriminate].
Qed.

Lemma saveEconomicIndicators_step (requestId : jsstring) (id : oid)
  (v : jsval) (w : world) :
  ObjectId_parse requestId = Some id ->
  exists o w',
    saveEconomicIndicators requestId v w = (o, w') /\ o <> Pending /\
    db_step id w w' kept kept [] /\
    (forallb (fun e => readable (snd e)) (indicator_items v) = true ->
     o = Ok tt).
Proof.
  intros Hid. unfold saveEconomicIndicators.
  destruct (negb (truthy v)).
  { exists (Ok tt), w. split; [reflexivity|]. split; [discriminate|].
    split; [apply db_step_refl|reflexivity]. }
  destruct (indicator_items v) as [|i items].
  { exists (Ok tt), w. split; [reflexivity|]. split; [discriminate|].
    split; [apply db_step_refl|reflexivity]. }
  rewrite Hid. destruct (forallb _ (i :: items)).
  - msimpl. eexists. eexists. split; [reflexivity|].
    split; [discriminate|]. split; [db_solve|reflexivity].
  - eexists. exists w. split; [reflexivity|].
    split; [discriminate|]. split; [apply db_step_refl|discriminate].
Qed.

End Phases.

(** *** Broadcasts and the database *)

Section Sends.

Context {host : Host}.

Variables (requestId : jsstring) (stepId : step_id) (label : jsstring)
          (st : step_status) (msg : jsstring) (details : list jsstring)
          (w : world).

Let sent := sendProgress requestId stepId label st msg details w.

Lemma send_requests : analysis_requests sent = analysis_requests w.
Proof. reflexivity. Qed.

Lemma send_results : analysis_results sent = analysis_results w.
Proof. reflexivity. Qed.

Lemma send_now : now sent = now w.
Proof. reflexivity. Qed.

Lemma send_history (id : oid) : history id sent = history id w.
Proof. apply history_io, io_progress_sendProgress. Qed.

End Sends.

Lemma try_catch_apply {A} (m : M A) (h : exn -> M A) (w : world) :
  try_catch m h w = match m w with
                    | (Throw e, w') => h e w'
                    | r => r
                    end.
Proof. reflexivity. Qed.

(** Rewrites what a broadcast leaves alone. *)
Ltac sends :=
  rewrite ?send_requests, ?send_results, ?send_now, ?send_history.

(** Puts together the steps found among the hypotheses. *)
Ltac db_chain :=
  unfold db_step, kept in *;
  repeat match goal with
         | H : _ /\ _ |- _ => destruct H
         end;
  repeat match goal with
         | H : analysis_requests ?x = _ |- _ => rewrite H; clear H
         | H : analysis_results ?x = _ |- _ => rewrite H; clear H
         | H : now ?x = _ |- _ => rewrite H; clear H
         | H : history _ ?x = _ |- _ => rewrite H; clear H
         | _ => progress sends
         end;
  rewrite <- ?app_assoc, ?app_nil_r; cbn [app]; auto.

Section Phases2.

Context {host : Host}.

Lemma begin_job_step (requestId stockName : jsstring) (id : oid) (w : world) :
  ObjectId_parse requestId = Some id ->
  exists w',
    begin_job requestId stockName w = (Ok tt, w') /\
    db_step id w w' (alter (update_doc processing None (now w)) id) kept
            [processing].
Proof.
  intros Hid. unfold begin_job. msimpl. mbind.
  match goal with
  | |- context [addLog ?r ?a ?b ?c ?w0] =>
    destruct (addLog_step r a b c id id w0 Hid) as (w1 & E1 & S1)
  end.
  rewrite E1. mbind.
  destruct (updateAnalysisStatus_step requestId id processing None w1 Hid)
    as (w2 & E2 & S2).
  rewrite E2. msimpl. eexists. split; [reflexivity|].
  db_chain.
Qed.

Lemma finish_failure_step (requestId err : jsstring) (id : oid) (w : world) :
  ObjectId_parse requestId = Some id ->
  exists w',
    finish_failure requestId err w = (Ok (Failure err requestId), w') /\
    db_step id w w' (alter (update_doc failed None (now w)) id) kept [failed].
Proof.
  intros Hid. unfold finish_failure. msimpl. mbind.
  match goal with
  | |- context [updateAnalysisStatus ?r ?s ?c ?w0] =>
    destruct (updateAnalysisStatus_step r id s c w0 Hid) as (w1 & E1 & S1)
  end.
  rewrite E1. mbind.
  match goal with
  | |- context [addLog ?r ?a ?b ?c ?w0] =>
    destruct (addLog_step r a b c id id w0 Hid) as (w2 & E2 & S2)
  end.
  rewrite E2. msimpl. eexists. split; [reflexivity|].
  db_chain.
Qed.

Lemma saveAnalysisToDatabase_step (requestId : jsstring) (id : oid)
  (a : analysis) (w : world) :
  ObjectId_parse requestId = Some id ->
  exists o w',
    saveAnalysisToDatabase requestId a None w = (o, w') /\ o <> Pending /\
    db_step id w w' kept (insert id (resultDoc a)) [] /\
    (storable a -> o = Ok tt).
Proof.
  intros Hid. unfold saveAnalysisToDatabase. rewrite try_catch_apply. mbind.
  destruct (saveAnalysisResults_step requestId id a w Hid) as (w1 & E1 & S1).
  rewrite E1. mbind.
  destruct (saveNewsData_step requestId id (news_data a) w1 Hid)
    as (o2 & w2 & E2 & P2 & S2 & K2).
  rewrite E2.
  destruct o2 as [[]|e2|]; [|msimpl|congruence].
  - assert (exists o3 w3,
              (if truthy (indicators_data a)
               then saveEconomicIndicators requestId (indicators_data a)
               else ret tt) w2 = (o3, w3) /\ o3 <> Pending /\
              db_step id w2 w3 kept kept [] /\
              (forallb (fun e => readable (snd e))
                       (indicator_items (indicators_data a)) = true ->
               o3 = Ok tt)) as (o3 & w3 & E3 & P3 & S3 & K3).
    { destruct (truthy (indicators_data a)).
      - apply saveEconomicIndicators_step, Hid.
      - exists (Ok tt), w2. split; [reflexivity|]. split; [discriminate|].
        split; [apply db_step_refl|reflexivity]. }
    rewrite E3. destruct o3 as [[]|e3|]; [|msimpl|congruence].
    + eexists. eexists. split; [reflexivity|]. split; [discriminate|].
      split; [db_chain|reflexivity].
    + eexists. eexists. split; [reflexivity|]. split; [discriminate|].
      split; [db_chain|]. intros [_ H]. specialize (K3 H). discriminate.
  - eexists. eexists. split; [reflexivity|]. split; [discriminate|].
    split; [db_chain|]. intros [H _]. specialize (K2 H). discriminate.
Qed.

Lemma finish_success_step (requestId : jsstring) (id : oid)
  (data : analysisData) (w : world) :
  ObjectId_parse requestId = Some id ->
  exists o w',
    finish_success requestId data w = (o, w') /\
    ((o = Ok (Success requestId data) /\
      db_step id w w'
              (alter (update_doc completed (Some (now w)) (now w)) id)
              (insert id (resultDoc (d_analysis data))) [completed]) \/
     ((exists e, o = Throw e) /\
      db_step id w w' kept (insert id (resultDoc (d_analysis data))) [])) /\
    (storable (d_analysis data) -> o = Ok (Success requestId data)).
Proof.
  intros Hid. unfold finish_success. msimpl. mbind.
  rewrite try_catch_apply. mbind.
  match goal with
  | |- context [saveAnalysisToDatabase ?r ?a None ?w0] =>
    destruct (saveAnalysisToDatabase_step r id a w0 Hid)
      as (o1 & w1 & E1 & P1 & S1 & K1)
  end.
  rewrite E1. destruct o1 as [[]|e1|]; [|msimpl|congruence].
  - msimpl. mbind.
    match goal with
    | |- context [updateAnalysisStatus ?r ?s ?c ?w0] =>
      destruct (updateAnalysisStatus_step r id s c w0 Hid) as (w2 & E2 & S2)
    end.
    rewrite E2. msimpl. mbind.
    match goal with
    | |- context [addLog ?r ?a ?b ?c ?w0] =>
      destruct (addLog_step r a b c id id w0 Hid) as (w3 & E3 & S3)
    end.
    rewrite E3. msimpl. eexists. eexists. split; [reflexivity|].
    split; [|reflexivity]. left. split; [reflexivity|]. db_chain.
  - eexists. eexists. split; [reflexivity|].
    split.
    + right. split; [eauto|]. db_chain.
    + intros H. specialize (K1 H). discriminate.
Qed.

Lemma create_request_step (req : body) (rid : jsstring) (i : oid)
  (stockName startDateStr endDateStr : jsstring) (w : world) :
  job_of w req rid i ->
  let doc := new_request_doc stockName startDateStr endDateStr (now w) in
  exists wA,
    create_request (b_requestId req) stockName startDateStr endDateStr w
    = (Ok rid, wA) /\
    ObjectId_parse rid = Some i /\
    db_step i w wA (fst (creation i doc w)) kept (snd (creation i doc w)).
Proof.
  intros Hjob doc. unfold create_request, creation.
  destruct Hjob as [Hreq Hne Hid|Hfalsy Hi Hrid Hfresh
                   |bad Hreq Hne Hbad Hi Hrid Hfresh].
  - rewrite Hreq. cbn [falsy]. destruct rid as [|c r]; [congruence|].
    unfold default, id. cbn [from_option]. rewrite try_catch_apply. mbind.
    unfold createAnalysisRequestWithId. rewrite Hid. msimpl.
    rewrite try_catch_apply. mbind. unfold insertOne.
    destruct (analysis_requests w !! i) as [d|] eqn:E.
    + cbn [exn_code]. destruct (decide (Some 11000 = Some 11000)); [|congruence].
      msimpl. exists w. split; [reflexivity|]. split; [reflexivity|].
      apply db_step_refl.
    + msimpl. eexists. split; [reflexivity|]. split; [reflexivity|].
      db_solve.
  - assert (Hparse : ObjectId_parse rid = Some i).
    { rewrite Hrid. apply ObjectId_roundtrip. rewrite Hi.
      apply N.mod_lt. discriminate. }
    rewrite Hfalsy. unfold createAnalysisRequest, generate_oid. msimpl.
    rewrite <- Hi, <- Hrid.
    mbind. unfold insertOne. cbn [analysis_requests set_next_oid].
    rewrite Hfresh. msimpl. eexists. split; [reflexivity|].
    split; [exact Hparse|]. db_solve.
  - assert (Hparse : ObjectId_parse rid = Some i).
    { rewrite Hrid. apply ObjectId_roundtrip. rewrite Hi.
      apply N.mod_lt. discriminate. }
    rewrite Hreq. cbn [falsy]. destruct bad as [|c r]; [congruence|].
    unfold default, id. cbn [from_option]. rewrite try_catch_apply. mbind.
    unfold createAnalysisRequestWithId. rewrite Hbad. msimpl.
    unfold createAnalysisRequest, generate_oid. msimpl.
    rewrite <- Hi, <- Hrid.
    mbind. unfold insertOne. cbn [analysis_requests set_next_oid].
    rewrite Hfresh. msimpl. eexists. split; [reflexivity|].
    split; [exact Hparse|]. db_solve.
Qed.

End Phases2.

(** *** The handler, case by case *)

Section Handler.
Context {host : Host}.

Lemma handler_cases (req : body) (sched : list event) (w : world)
  (rid : jsstring) (i : oid) :
  valid_body req -> job_of w req rid i ->
  let doc := request_of req (now w) in
  let r := fun wB =>
    runJavaScriptAnalysis (stock_name doc) (start_date doc) (end_date doc)
      rid (Some (sendProgress rid)) (Some (sendRealtimeLog rid)) sched wB in
  let o := fst (post_api_analysis req sched w) in
  let w' := snd (post_api_analysis req sched w) in
  exists wB,
    ObjectId_parse rid = Some i /\
    db_step i w wB
      (fun m => to_processing i (now w) (fst (creation i doc w) m)) kept
      (snd (creation i doc w) ++ [processing]) /\
    io_only wB (snd (r wB)) /\
    match fst (r wB) with
    | Pending => o = Pending /\ w' = snd (r wB)
    | Ok (AnalysisFailure err) =>
      o = Ok (Failure err rid) /\
      db_step i (snd (r wB)) w' (to_failed i (now w)) kept [failed]
    | Ok (AnalysisSuccess d) =>
      ((o = Ok (Success rid d) /\
        db_step i (snd (r wB)) w' (to_completed i (now w))
                (insert i (resultDoc (d_analysis d))) [completed]) \/
       (o = Ok InternalServerError /\
        db_step i (snd (r wB)) w' kept (insert i (resultDoc (d_analysis d))) [])) /\
      (storable (d_analysis d) -> o = Ok (Success rid d))
    | Throw _ => False
    end.
Proof.
  intros [Hname Hdays] Hjob doc r o w'.
  subst o w'. unfold post_api_analysis. rewrite try_catch_apply.
  rewrite Hname, Hdays. unfold run_analysis. msimpl. mbind.
  destruct (create_request_step req rid i
              (default [] (b_stockName req))
              (isoDate (now w - default 0 (days_of (b_daysBack req)) * day_ms))
              (isoDate (now w)) w Hjob) as (wA & EA & Hid & SA).
  rewrite EA. mbind.
  destruct (begin_job_step rid (default [] (b_stockName req)) i wA Hid)
    as (wB & EB & SB).
  rewrite EB. exists wB. split; [exact Hid|].
  assert (Hnow : now wB = now w).
  { destruct SA as (_ & _ & Ha & _), SB as (_ & _ & Hb & _). congruence. }
  split.
  { fold doc in SA. unfold to_processing.
    destruct SA as (Ha1 & Ha2 & Ha3 & Ha4), SB as (Hb1 & Hb2 & Hb3 & Hb4).
    unfold db_step, kept in *.
    rewrite Hb1, Ha1, Hb2, Ha2, Hb3, Ha3, Hb4, Ha4, app_assoc. auto. }
  subst r. cbv beta. cbn [stock_name start_date end_date doc request_of
                           new_request_doc].
  pose proof (runJavaScriptAnalysis_io (Some (sendProgress rid)) rid
                (Some (sendRealtimeLog rid))
                (io_progress_sendProgress rid) (io_log_sendRealtimeLog rid)
                (default [] (b_stockName req))
                (isoDate (now w - default 0 (days_of (b_daysBack req)) * day_ms))
                (isoDate (now w)) sched wB) as Hio.
  pose proof (runJavaScriptAnalysis_no_throw (Some (sendProgress rid)) rid
                (Some (sendRealtimeLog rid))
                (default [] (b_stockName req))
                (isoDate (now w - default 0 (days_of (b_daysBack req)) * day_ms))
                (isoDate (now w)) sched wB) as Hnt.
  split; [exact Hio|].
  mbind.
  destruct (runJavaScriptAnalysis _ _ _ _ _ _ _ wB) as [[[d|err]|ex|] wC];
    cbn [fst snd] in *.
  - assert (HnowC : now wC = now w).
    { destruct Hio as (_&_&_&_&_&Hn&_). congruence. }
    destruct (finish_success_step rid i d wC Hid)
      as (o1 & w1 & E1 & Hcase & Hok).
    rewrite E1. rewrite HnowC in Hcase. unfold to_completed.
    split.
    + destruct Hcase as [[-> S1]|[[e ->] S1]]; cbn [fst snd]; auto.
    + intros Hst. rewrite (Hok Hst). reflexivity.
  - assert (HnowC : now wC = now w).
    { destruct Hio as (_&_&_&_&_&Hn&_). congruence. }
    destruct (finish_failure_step rid err i wC Hid) as (w1 & E1 & S1).
    rewrite E1. rewrite HnowC in S1. cbn [fst snd]. auto.
  - exfalso. apply (Hnt ex). reflexivity.
  - auto.
Qed.

End Handler.

(** *** What the analysis returns for a given result of the worker *)

Section Outcomes.
Context {host : Host}.
Variables (sp : option progress_fn) (requestId : jsstring) (lg : option log_fn)
          (stockName startDate endDate : jsstring) (sched : list event).

Lemma runPythonAnalyzer_result (r : pythonResult) :
  (forall w, fst (await_promise sp requestId lg sched initial_supervisor w)
             = Ok r) ->
  forall d1 d2 w, fst (runPythonAnalyzer stockName d1 d2 sp requestId
                                         lg sched w) = Ok r.
Proof. intros H d1 d2 w. unfold runPythonAnalyzer. msimpl. apply H. Qed.

Lemma default_prop_analyzed_news :
  default JUndefined (get_prop default_data (js "analyzed_news")) = JArr [].
Proof. vm_compute. reflexivity. Qed.
Lemma default_prop_news_data :
  default JUndefined (get_prop default_data (js "news_data")) = JArr [].
Proof. vm_compute. reflexivity. Qed.
Lemma default_prop_significant_news :
  default JUndefined (get_prop default_data (js "significant_news")) = JArr [].
Proof. vm_compute. reflexivity. Qed.
Lemma default_prop_indicators_data :
  default JUndefined (get_prop default_data (js "indicators_data")) = JObj [].
Proof. vm_compute. reflexivity. Qed.
Lemma default_prop_report :
  default JUndefined (get_prop default_data (js "report"))
  = JStr (js "Python 분석 완료 (JSON 출력 없음)").
Proof. vm_compute. reflexivity. Qed.
Lemma default_prop_policy_impact :
  default JUndefined (get_prop default_data (js "policy_impact")) = JUndefined.
Proof. vm_compute. reflexivity. Qed.
Lemma default_report_kept (d : jsval) :
  or_else (JStr (js "Python 분석 완료 (JSON 출력 없음)")) d
  = JStr (js "Python 분석 완료 (JSON 출력 없음)").
Proof.
  unfold or_else.
  replace (truthy (JStr (js "Python 분석 완료 (JSON 출력 없음)"))) with true
    by (vm_compute; reflexivity).
  reflexivity.
Qed.
Lemma default_statistics :
  overallSentiment_of (avgSentiment_of no_counters) = neutral /\
  or_zero (abs (avgSentiment_of no_counters)) = zero /\
  or_zero (confidenceScore_of []) = zero.
Proof. repeat split; vm_compute; reflexivity. Qed.

Lemma build_analysis_default (send : progress_fn) (w : world) :
  fst (build_analysis stockName (Some send) lg default_data w)
  = Ok default_analysis.
Proof.
  unfold build_analysis. cbn [readable default_data negb]. cbv zeta.
  rewrite default_prop_analyzed_news, default_prop_news_data,
    default_prop_significant_news, default_prop_indicators_data,
    default_prop_report, default_prop_policy_impact, default_report_kept.
  cbn [isArray as_array count_all length]. msimpl.
  destruct default_statistics as (-> & -> & ->).
  reflexivity.
Qed.

Lemma fst_eq {A B} (p : A * B) (a : A) : fst p = a -> p = (a, snd p).
Proof. destruct p. cbn. intros ->. reflexivity. Qed.

Lemma collectAndAnalyzeStock_failure (e : jsstring) (t : bool)
  (raw : option (jsstring * jsstring)) (sd ed : option jsstring) :
  (forall d1 d2 w,
     fst (runPythonAnalyzer stockName d1 d2 sp requestId lg sched w)
     = Ok (PyFailure e t raw)) ->
  forall w,
    fst (collectAndAnalyzeStock stockName sd ed sp requestId lg sched w)
    = Throw {| exn_message := js "Python 분석 실패: " ++ e; exn_code := None |}.
Proof.
  intros H w. unfold collectAndAnalyzeStock. rewrite try_catch_apply.
  msimpl. mbind.
  match goal with
  | |- context [runPythonAnalyzer ?a ?b ?c ?d ?f ?g ?h ?w0] =>
    rewrite (fst_eq _ _ (H b c w0))
  end.
  msimpl. reflexivity.
Qed.

Lemma collectAndAnalyzeStock_default (send : progress_fn)
  (sd ed : option jsstring) :
  sp = Some send ->
  (forall d1 d2 w,
     fst (runPythonAnalyzer stockName d1 d2 sp requestId lg sched w)
     = Ok (PySuccess default_data)) ->
  forall w,
    fst (collectAndAnalyzeStock stockName sd ed sp requestId lg sched w)
    = Ok default_analysis.
Proof.
  intros Hsp H w. unfold collectAndAnalyzeStock. rewrite try_catch_apply.
  msimpl. mbind.
  match goal with
  | |- context [runPythonAnalyzer ?a ?b ?c ?d ?f ?g ?h ?w0] =>
    rewrite (fst_eq _ _ (H b c w0))
  end.
  msimpl. subst sp.
  match goal with
  | |- context [build_analysis ?a ?b ?c ?d ?w0] =>
    rewrite (fst_eq _ _ (build_analysis_default send w0))
  end.
  reflexivity.
Qed.

Lemma runJavaScriptAnalysis_failure (e : jsstring) (t : bool)
  (raw : option (jsstring * jsstring)) :
  (forall w, fst (await_promise sp requestId lg sched initial_supervisor w)
             = Ok (PyFailure e t raw)) ->
  forall w,
    fst (runJavaScriptAnalysis stockName startDate endDate requestId sp lg
                               sched w)
    = Ok (AnalysisFailure (js "Python 분석 실패: " ++ e)).
Proof.
  intros H w. unfold runJavaScriptAnalysis. rewrite try_catch_apply.
  msimpl. mbind.
  match goal with
  | |- context [collectAndAnalyzeStock ?a ?b ?c ?d ?f ?g ?h ?w0] =>
    rewrite (fst_eq _ _ (collectAndAnalyzeStock_failure e t raw b c
               (runPythonAnalyzer_result _ H) w0))
  end.
  msimpl. reflexivity.
Qed.

Lemma runJavaScriptAnalysis_default (send : progress_fn) :
  sp = Some send ->
  (forall w, fst (await_promise sp requestId lg sched initial_supervisor w)
             = Ok (PySuccess default_data)) ->
  forall w,
    exists d,
      fst (runJavaScriptAnalysis stockName startDate endDate requestId sp lg
                                 sched w)
      = Ok (AnalysisSuccess d) /\ d_analysis d = default_analysis.
Proof.
  intros Hsp H w. unfold runJavaScriptAnalysis. rewrite try_catch_apply.
  msimpl. mbind.
  match goal with
  | |- context [collectAndAnalyzeStock ?a ?b ?c ?d ?f ?g ?h ?w0] =>
    rewrite (fst_eq _ _ (collectAndAnalyzeStock_default send b c Hsp
               (runPythonAnalyzer_result _ H) w0))
  end.
  subst sp. msimpl. eexists. split; reflexivity.
Qed.

End Outcomes.

(** ** The classifier of worker lines *)

Section Classifier.

Context {host : Host}.

Lemma skipped_short (line : jsstring) :
  skipped line = true <-> (length (trim line) < 5)%nat.
Proof.
  unfold skipped. destruct (trim line) as [|c t] eqn:E.
  - simpl. split; [lia|reflexivity].
  - rewrite Nat.ltb_lt. reflexivity.
Qed.

Ltac rule_fields :=
  cbn [r_match r_done r_start r_stage r_label r_done_message r_next
       r_start_message].

Ltac try_rule r l :=
  let E := fresh "E" in
  destruct (r_match r l) eqn:E; unfold r in E; cbn [r_match] in E;
  rewrite E; cbv iota;
  [unfold apply_rule, r; rule_fields; reflexivity|].

(** The chain of the source and the table agree on every line. *)
Lemma classify_table (cleanLine : jsstring) (active : step_id) :
  classify cleanLine active = classify_by_rules cleanLine active.
Proof.
  unfold classify, classify_by_rules, stage_rules, first_match.
  try_rule news_rule cleanLine.
  try_rule economic_rule cleanLine.
  try_rule policy_rule cleanLine.
  try_rule sentiment_rule cleanLine.
  try_rule report_rule cleanLine.
  reflexivity.
Qed.

Lemma first_match_app (before after : list rule) (r : rule)
  (line : jsstring) :
  Forall (fun r' => r_match r' line = false) before ->
  r_match r line = true ->
  first_match (before ++ r :: after) line = Some r.
Proof.
  induction 1 as [|r' before Hr' _ IH]; intros Hr; simpl.
  - rewrite Hr. reflexivity.
  - rewrite Hr'. apply IH, Hr.
Qed.

Lemma first_match_none (rules : list rule) (line : jsstring) :
  Forall (fun r' => r_match r' line = false) rules ->
  first_match rules line = None.
Proof.
  induction 1 as [|r' rules Hr' _ IH]; simpl; [reflexivity|].
  rewrite Hr'. exact IH.
Qed.

(** C8.  A line that is blank or shorter than five code units after
    trimming is passed over: nothing is emitted and the active stage
    stays as it is.  For any other line the stage rules are tried in
    their fixed order and the first rule that matches decides the
    stage, the status and the text of the progress event, and the next
    active stage; a line that no rule matches gives no progress event
    and leaves the active stage as it is. *)
Theorem classifier_first_match_wins :
  forall (send : progress_fn) (requestId line : jsstring)
         (active : step_id) (w : world),
    let cleanLine := strip_timestamp (trim line) in
    let logged :=
      io_to_emit (roomName requestId)
        (RealtimeLog {| l_requestId := requestId; l_stepId := active;
                        l_timestamp := now w; l_message := cleanLine;
                        l_type := log_type_of cleanLine |}) w in
    ((length (trim line) < 5)%nat ->
       handle_line send requestId line active w = (active, w)) /\
    (forall (before after : list rule) (r : rule),
       (5 <= length (trim line))%nat ->
       stage_rules = before ++ r :: after ->
       Forall (fun r' => r_match r' cleanLine = false) before ->
       r_match r cleanLine = true ->
       handle_line send requestId line active w
       = (c_active (apply_rule r cleanLine),
          match c_progress (apply_rule r cleanLine) with
          | Some (stepId, label, st, msg) => send stepId label st msg [] logged
          | None => logged
          end)) /\
    ((5 <= length (trim line))%nat ->
     Forall (fun r' => r_match r' cleanLine = false) stage_rules ->
       handle_line send requestId line active w = (active, logged)).
Proof.
  intros send requestId line active w cleanLine logged.
  assert (Hlong : (5 <= length (trim line))%nat -> skipped line = false).
  { intros H. destruct (skipped line) eqn:E; [|reflexivity].
    apply skipped_short in E. lia. }
  split; [|split].
  - intros Hshort. apply skipped_short in Hshort.
    unfold handle_line. rewrite Hshort. reflexivity.
  - intros before after r Hlen Hrules Hbefore Hr.
    unfold handle_line. rewrite (Hlong Hlen).
    fold cleanLine. fold logged.
    rewrite classify_table. unfold classify_by_rules.
    rewrite Hrules, (first_match_app before after r _ Hbefore Hr).
    reflexivity.
  - intros Hlen Hnone.
    unfold handle_line. rewrite (Hlong Hlen).
    fold cleanLine. fold logged.
    rewrite classify_table. unfold classify_by_rules.
    rewrite (first_match_none _ _ Hnone). reflexivity.
Qed.

End Classifier.

Lemma classifier_first_match_wins_witness :
  handle_line (sendProgress request_id) request_id
              (js "  ok ") news_collection empty_world
  = (news_collection, empty_world) /\
  fst (handle_line (sendProgress request_id) request_id
                   (js "[12:00:01] [분석] 경제지표 ECOS 수집 완료")
                   news_collection empty_world)
  = policy_analysis /\
  fst (handle_line (sendProgress request_id) request_id
                   (js "plain text line") sentiment_analysis
                   empty_world)
  = sentiment_analysis.
Proof.
  split; [|split].
  - apply (classifier_first_match_wins (sendProgress request_id)
             request_id (js "  ok ") news_collection
             empty_world).
    vm_compute. lia.
  - rewrite (proj1 (proj2 (classifier_first_match_wins
               (sendProgress request_id) request_id
               (js "[12:00:01] [분석] 경제지표 ECOS 수집 완료")
               news_collection empty_world))
               [news_rule] [policy_rule; sentiment_rule; report_rule]
               economic_rule).
    + reflexivity.
    + vm_compute. lia.
    + reflexivity.
    + repeat constructor.
    + vm_compute. reflexivity.
  - rewrite (proj2 (proj2 (classifier_first_match_wins
               (sendProgress request_id) request_id
               (js "plain text line") sentiment_analysis
               empty_world))).
    + reflexivity.
    + vm_compute. lia.
    + repeat constructor.
Defined.

(** ** Validation of the request *)

Section Validation.

Context {host : Host}.

(** C10.  When [stockName] is missing (or empty) or [daysBack] does not
    parse to an integer between 1 and 90, the handler answers 400 and
    nothing else happens: the world after the request is the world
    before it, so no record is created, no event is sent and no worker
    is started. *)
Theorem invalid_request_rejected :
  forall (req : body) (sched : list event) (w : world),
    falsy (b_stockName req) = true \/
    invalid_days (days_of (b_daysBack req)) = true ->
    exists msg,
      post_api_analysis req sched w = (Ok (BadRequest msg), w) /\
      http_status (BadRequest msg) = 400%nat.
Proof.
  intros req sched w H. unfold post_api_analysis, try_catch.
  destruct (falsy (b_stockName req)) eqn:Ename.
  - eexists. split; reflexivity.
  - destruct H as [H|H]; [discriminate|]. rewrite H.
    eexists. split; reflexivity.
Qed.

End Validation.

Lemma invalid_request_rejected_witness :
  exists msg,
    post_api_analysis
      {| b_stockName := Some (js "삼성전자");
         b_daysBack := Some (JNum (JsNumber.of_nat 91));
         b_requestId := Some request_id |}
      [Close (Some 0)] empty_world
    = (Ok (BadRequest msg), empty_world) /\
    http_status (BadRequest msg) = 400%nat.
Proof.
  apply (invalid_request_rejected (host := sample_host)).
  right. vm_compute. reflexivity.
Defined.

(** ** The statistics of [collectAndAnalyzeStock] *)

Section Statistics.

Context {host : Host}.

(** One turn of the loop adds one to the counter of the bucket of the
    score and leaves the other two as they are. *)
Lemma count_score_bucket (score : number) (c : counters) :
  let c' := count_score score c in
  let hit b := if same_bucket b (bucket_of_score score) then 1%nat else 0%nat in
  positiveCount c' = (positiveCount c + hit positive)%nat /\
  negativeCount c' = (negativeCount c + hit negative)%nat /\
  neutralCount c' = (neutralCount c + hit neutral)%nat.
Proof.
  unfold count_score, bucket_of_score.
  destruct (isNaN score) eqn:Enan.
  - destruct score; try discriminate. cbn. lia.
  - cbn [negb].
    destruct (gt score point_one);
      [|destruct (lt score minus_point_one)]; cbn; lia.
Qed.

Lemma count_bucket_cons (b : sentiment) (news : jsval) (l : list jsval) :
  count_bucket b (news :: l)
  = ((if same_bucket b (bucket_of news) then 1 else 0) + count_bucket b l)%nat.
Proof.
  unfold count_bucket. cbn [List.filter]. unfold in_bucket at 1.
  destruct (same_bucket b (bucket_of news)); reflexivity.
Qed.

Lemma count_all_buckets (l : list jsval) :
  forall c c',
    count_all l c = Some c' ->
    positiveCount c' = (positiveCount c + count_bucket positive l)%nat /\
    negativeCount c' = (negativeCount c + count_bucket negative l)%nat /\
    neutralCount c' = (neutralCount c + count_bucket neutral l)%nat.
Proof.
  induction l as [|news l IH]; intros c c' H.
  - injection H as <-. unfold count_bucket. cbn. lia.
  - cbn [count_all] in H.
    destruct (get_prop news (js "score")) as [v|] eqn:Ev; [|discriminate].
    destruct (IH _ _ H) as (Hp & Hn & Hz).
    destruct (count_score_bucket (score_of v) c) as (Hp1 & Hn1 & Hz1).
    cbv beta zeta in Hp1, Hn1, Hz1.
    rewrite !count_bucket_cons. unfold bucket_of, news_score.
    rewrite Ev. unfold default, id. cbn [from_option]. lia.
Qed.

Lemma bucket_partition (l : list jsval) :
  (count_bucket positive l + count_bucket negative l
   + count_bucket neutral l)%nat = length l.
Proof.
  unfold count_bucket. induction l as [|news l IH]; [reflexivity|].
  fold (count_bucket positive l) (count_bucket negative l)
       (count_bucket neutral l) in IH.
  fold (count_bucket positive (news :: l)) (count_bucket negative (news :: l))
       (count_bucket neutral (news :: l)).
  rewrite !count_bucket_cons.
  destruct (bucket_of news); cbn [same_bucket length]; lia.
Qed.

Lemma or_zero_abs_nonneg (x : number) : le zero (or_zero (abs x)) = true.
Proof. destruct x as [s|s| |s m e]; try destruct s; reflexivity. Qed.

Lemma unparseable_neutral (news : jsval) :
  isNaN (parseFloat (default JUndefined (get_prop news (js "score")))) = true ->
  bucket_of news = neutral.
Proof.
  intros H.
  unfold bucket_of, bucket_of_score, news_score, score_of, or_zero,
    JsNumber.truthy.
  rewrite H. reflexivity.
Qed.

Lemma log_if_ok (lg : option log_fn) (s : step_id) (m : jsstring) (w : world) :
  exists w', log_if lg s m w = (Ok tt, w').
Proof. eexists. reflexivity. Qed.

(** What a successful [build_analysis] returns. *)
Lemma build_analysis_ok (stockName : jsstring) (sp : option progress_fn)
  (lg : option log_fn) (data : jsval) (w w' : world) (a : analysis) :
  build_analysis stockName sp lg data w = (Ok a, w') ->
  exists c,
    count_all (analyzed_news a) no_counters = Some c /\
    positive_count a = positiveCount c /\
    negative_count a = negativeCount c /\
    neutral_count a = neutralCount c /\
    analyzed_news_count a = length (analyzed_news a) /\
    overall_score a = or_zero (abs (avgSentiment_of c)).
Proof.
  unfold build_analysis.
  destruct (negb (readable data)); [discriminate|].
  match goal with
  | |- context [match ?x with Some _ => _ | None => _ end] =>
    destruct x as [analyzedNews|]; [|discriminate]
  end.
  destruct (count_all analyzedNews no_counters) as [c|] eqn:Ec.
  - destruct sp as [send|]; msimpl; intros H.
    + injection H as <- _. exists c. cbn [analyzed_news positive_count
        negative_count neutral_count analyzed_news_count overall_score].
      auto 10.
    + discriminate.
  - msimpl. discriminate.
Qed.

(** A result of [collectAndAnalyzeStock] is one of [build_analysis]. *)
Lemma collectAndAnalyzeStock_ok (stockName : jsstring)
  (startDate endDate : option jsstring) (sp : option progress_fn)
  (requestId : jsstring) (lg : option log_fn) (sched : list event)
  (w w' : world) (a : analysis) :
  collectAndAnalyzeStock stockName startDate endDate sp requestId lg sched w
  = (Ok a, w') ->
  exists data w1, build_analysis stockName sp lg data w1 = (Ok a, w').
Proof.
  unfold collectAndAnalyzeStock, try_catch. msimpl. mbind.
  match goal with
  | |- context [runPythonAnalyzer ?a ?b ?c ?d ?e ?f ?g ?w0] =>
    destruct (runPythonAnalyzer a b c d e f g w0)
      as [[[data|err t raw]|ex|] w3]
  end; msimpl; try discriminate.
  destruct (build_analysis stockName sp lg data _)
    as [[a'|e|] w4] eqn:E; msimpl; try discriminate.
  intros H. injection H as -> ->. eauto.
Qed.

(** The state of the supervisor, and so the value a caller of [await]
    gets, does not depend on the state of the server. *)
Lemma handle_lines_active (send : progress_fn) (requestId : jsstring)
  (lines : list jsstring) :
  forall (active : step_id) (w1 w2 : world),
    fst (handle_lines send requestId lines active w1)
    = fst (handle_lines send requestId lines active w2).
Proof.
  induction lines as [|line lines IH]; intros active w1 w2; [reflexivity|].
  cbn [handle_lines]. cbv zeta.
  assert (E : fst (handle_line send requestId line active w1)
              = fst (handle_line send requestId line active w2)).
  { unfold handle_line. destruct (skipped line); reflexivity. }
  rewrite E. apply IH.
Qed.

Lemma on_event_state (sp : option progress_fn) (requestId : jsstring)
  (lg : option log_fn) (e : event) (st : supervisor) (w1 w2 : world) :
  fst (on_event sp requestId lg e st w1)
  = fst (on_event sp requestId lg e st w2).
Proof.
  destruct e; cbn [on_event fst]; try reflexivity.
  - unfold on_stderr. destruct sp as [send|]; [|reflexivity].
    destruct (processFinished _); [reflexivity|]. cbn [fst].
    f_equal. apply handle_lines_active.
  - unfold on_close. destruct (processFinished st); [reflexivity|].
    destruct (decide _); [destruct (truthy _)|]; reflexivity.
  - unfold on_timeout.
    destruct (timeoutCleared st); [reflexivity|].
    destruct (processFinished st); reflexivity.
Qed.

Lemma await_promise_state (sp : option progress_fn) (requestId : jsstring)
  (lg : option log_fn) (sched : list event) :
  forall (st : supervisor) (w1 w2 : world),
    fst (await_promise sp requestId lg sched st w1)
    = fst (await_promise sp requestId lg sched st w2).
Proof.
  induction sched as [|e sched IH]; intros st w1 w2;
    cbn [await_promise]; destruct (promise st); try reflexivity.
  rewrite (on_event_state sp requestId lg e st w1 w2). apply IH.
Qed.

(** The list of analysed items of a result is the one of the worker. *)
Lemma build_analysis_list (stockName : jsstring) (sp : option progress_fn)
  (lg : option log_fn) (data : jsval) (w w' : world) (a : analysis) :
  build_analysis stockName sp lg data w = (Ok a, w') ->
  worker_analyzed_news data = Some (analyzed_news a).
Proof.
  unfold build_analysis, worker_analyzed_news. cbv zeta.
  destruct (negb (readable data)); [discriminate|].
  match goal with
  | |- context [match ?x with Some _ => _ | None => _ end] =>
    destruct x as [analyzedNews|]; [|discriminate]
  end.
  destruct (count_all analyzedNews no_counters) as [c|] eqn:Ec.
  - destruct sp as [send|]; msimpl; intros H; [|discriminate].
    injection H as <- _. reflexivity.
  - msimpl. discriminate.
Qed.

(** A result of [collectAndAnalyzeStock] is made by [build_analysis]
    from the data the promise of the worker was resolved with. *)
Lemma collectAndAnalyzeStock_worker (stockName : jsstring)
  (startDate endDate : option jsstring) (sp : option progress_fn)
  (requestId : jsstring) (lg : option log_fn) (sched : list event)
  (w w' : world) (a : analysis) :
  collectAndAnalyzeStock stockName startDate endDate sp requestId lg sched w
  = (Ok a, w') ->
  exists data w1,
    fst (await_promise sp requestId lg sched initial_supervisor w)
    = Ok (PySuccess data) /\
    build_analysis stockName sp lg data w1 = (Ok a, w').
Proof.
  unfold collectAndAnalyzeStock, try_catch. msimpl. mbind.
  match goal with
  | |- context [runPythonAnalyzer ?a ?b ?c ?d ?e ?f ?g ?w0] =>
    destruct (runPythonAnalyzer a b c d e f g w0)
      as [[[data|err t raw]|ex|] w3] eqn:Erun
  end; msimpl; try discriminate.
  destruct (build_analysis stockName sp lg data _)
    as [[a'|e|] w4] eqn:E; msimpl; try discriminate.
  intros H. injection H as -> ->. exists data. eexists.
  split; [|exact E].
  unfold runPythonAnalyzer in Erun. msimpl in Erun.
  match type of Erun with
  | await_promise _ _ _ _ _ ?w0 = _ =>
    rewrite (await_promise_state sp requestId lg sched initial_supervisor
                                 w w0), Erun
  end.
  reflexivity.
Qed.

(** C9.  Every result that [collectAndAnalyzeStock] returns is made
    from the data the promise of the worker was resolved with: its
    analysed items are those of the worker, all of them and in their
    order.  Each of them is counted in one bucket: the three counts are
    the numbers of these items whose score is above 0.1, below -0.1,
    and neither; an item whose score does not parse is in the neutral
    bucket; so the counts add up to the number of analysed items.  The
    overall score is the absolute value of the mean of the scores that
    parse, and is not negative. *)
Theorem analysis_counts_partition :
  forall (stockName : jsstring) (startDate endDate : option jsstring)
         (sp : option progress_fn) (requestId : jsstring)
         (lg : option log_fn) (sched : list event) (w w' : world)
         (a : analysis),
    collectAndAnalyzeStock stockName startDate endDate sp requestId lg
                           sched w = (Ok a, w') ->
    (exists result,
       fst (await_promise sp requestId lg sched initial_supervisor w)
       = Ok (PySuccess result) /\
       worker_analyzed_news result = Some (analyzed_news a)) /\
    positive_count a = count_bucket positive (analyzed_news a) /\
    negative_count a = count_bucket negative (analyzed_news a) /\
    neutral_count a = count_bucket neutral (analyzed_news a) /\
    (forall news,
       isNaN (parseFloat (default JUndefined (get_prop news (js "score"))))
       = true -> bucket_of news = neutral) /\
    (positive_count a + negative_count a + neutral_count a)%nat
    = length (analyzed_news a) /\
    analyzed_news_count a = length (analyzed_news a) /\
    (exists c,
       count_all (analyzed_news a) no_counters = Some c /\
       overall_score a = or_zero (abs (avgSentiment_of c))) /\
    le zero (overall_score a) = true.
Proof.
  intros stockName startDate endDate sp requestId lg sched w w' a H.
  apply collectAndAnalyzeStock_worker in H as (data & w1 & Hworker & H).
  pose proof (build_analysis_list _ _ _ _ _ _ _ H) as Hlist.
  apply build_analysis_ok in H as (c & Hc & Hp & Hn & Hz & Hlen & Hscore).
  split; [exists data; auto|].
  pose proof Hc as Hc0.
  apply count_all_buckets in Hc as (Hp' & Hn' & Hz'). cbn in Hp', Hn', Hz'.
  rewrite Hp, Hn, Hz, Hp', Hn', Hz'.
  repeat split; auto using unparseable_neutral.
  - apply bucket_partition.
  - exists c. auto.
  - rewrite Hscore. apply or_zero_abs_nonneg.
Qed.

End Statistics.

Lemma analysis_counts_partition_witness :
  exists a w',
    collectAndAnalyzeStock (host := sample_host) (js "삼성전자") None None
      (Some (sendProgress request_id)) request_id
      (Some (sendRealtimeLog request_id)) good_run empty_world = (Ok a, w') /\
    (exists result,
       fst (await_promise (host := sample_host)
              (Some (sendProgress request_id)) request_id
              (Some (sendRealtimeLog request_id)) good_run
              initial_supervisor empty_world) = Ok (PySuccess result) /\
       worker_analyzed_news (host := sample_host) result
       = Some (analyzed_news a)) /\
    length (analyzed_news a) = 4%nat /\
    positive_count a = 1%nat /\ negative_count a = 1%nat /\
    neutral_count a = 2%nat /\
    (positive_count a + negative_count a + neutral_count a)%nat
    = length (analyzed_news a) /\
    le zero (overall_score a) = true.
Proof.
  eexists. eexists. split; [vm_compute; reflexivity|].
  split.
  { eapply (fun H => proj1 (analysis_counts_partition (host := sample_host)
                (js "삼성전자") None None (Some (sendProgress request_id))
                request_id (Some (sendRealtimeLog request_id)) good_run
                empty_world _ _ H)).
    vm_compute. reflexivity. }
  repeat split; vm_compute; reflexivity.
Defined.

(** ** The result of a successful analysis *)

Section StoredResult.

Context {host : Host}.

(** A successful analysis returns a result that is stored as it is. *)
Lemma runJavaScriptAnalysis_stored (stockName startDate endDate : jsstring)
  (requestId : jsstring) (sp : option progress_fn) (lg : option log_fn)
  (sched : list event) (w : world) (d : analysisData) :
  fst (runJavaScriptAnalysis stockName startDate endDate requestId sp lg
                             sched w) = Ok (AnalysisSuccess d) ->
  stored_as_is (d_analysis d).
Proof.
  unfold runJavaScriptAnalysis. rewrite try_catch_apply. msimpl. mbind.
  match goal with
  | |- context [collectAndAnalyzeStock ?a ?b ?c ?e ?f ?g ?h ?w0] =>
    destruct (collectAndAnalyzeStock a b c e f g h w0) as [[x|ex|] w1] eqn:E
  end; msimpl; try discriminate.
  destruct sp as [send|]; msimpl; [|discriminate].
  intros H. injection H as <-. cbn [d_analysis].
  apply collectAndAnalyzeStock_ok in E as (data & w2 & Hb).
  exact (build_analysis_stored _ _ _ _ _ _ _ Hb).
Qed.

End StoredResult.

(** ** What a socket receives *)

Section Rooms.

Context {host : Host}.

(** A broadcast does not reach a socket that is not in the room. *)
Lemma emit_skips_outsiders (room : jsstring) (m : message) (w : world)
  (s : socket_id) :
  s ∉ roomClients room w -> inbox (io_to_emit room m w) s = inbox w s.
Proof.
  intros Hs. unfold io_to_emit. cbn [inbox log_action set_inbox].
  destruct (decide (s ∈ roomClients room w)); [contradiction|reflexivity].
Qed.

(** Joining a room brings the acknowledgement and nothing that was
    broadcast before. *)
Lemma join_brings_no_history (s : socket_id) (requestId : jsstring)
  (w : world) :
  requestId <> [] ->
  inbox (on_join_analysis s requestId w) s
  = inbox w s ++ [JoinedAnalysis requestId].
Proof.
  intros Hr. unfold on_join_analysis.
  destruct requestId as [|c r]; [congruence|].
  unfold socket_emit. cbn [inbox log_action set_inbox set_rooms].
  destruct (decide (s = s)); [reflexivity|congruence].
Qed.

End Rooms.

(** C1 on the code.  A job runs to its end while no socket is in its
    room: fifteen progress events are broadcast.  A socket that joins
    the room afterwards receives the acknowledgement of the join and
    none of these events. *)
Theorem late_joiner_gets_no_history :
  length (broadcast_progress (trace (world_after_job (host := sample_host))))
  = 15%nat /\
  inbox (late_join (host := sample_host) 7%nat) 7%nat
  = [JoinedAnalysis request_id].
Proof. split; vm_compute; reflexivity. Qed.

(** C2 on the code.  A socket joins the room and the request is posted.
    When the promise of the worker is settled, the socket has already
    received the completion signal, and the result of the request is
    not in the store.  Over the whole request the first broadcast of
    the completion signal comes before the write of the result, which
    comes before the write of the status [completed]. *)
Theorem completion_signal_before_save :
  existsb is_completion
          (inbox (world_at_settlement (host := sample_host) 5%nat) 5%nat)
  = true /\
  getAnalysisResults (host := sample_host) request_id
                     (world_at_settlement (host := sample_host) 5%nat) = None /\
  exists i j k,
    index_of emits_completion
             (trace (world_after_watched_job (host := sample_host) 5%nat))
    = Some i /\
    index_of saves_results
             (trace (world_after_watched_job (host := sample_host) 5%nat))
    = Some j /\
    index_of sets_completed
             (trace (world_after_watched_job (host := sample_host) 5%nat))
    = Some k /\
    (i < j)%nat /\ (j < k)%nat.
Proof.
  split; [|split].
  - vm_compute. reflexivity.
  - vm_compute. reflexivity.
  - exists 22%nat, 38%nat, 40%nat.
    split; [vm_compute; reflexivity|].
    split; [vm_compute; reflexivity|].
    split; [vm_compute; reflexivity|].
    lia.
Qed.

(** ** Timeout and exit of the worker *)

Section Deadline.

Context {host : Host}.

Variables (sp : option progress_fn) (requestId : jsstring)
          (lg : option log_fn).

Lemma await_done (sched : list event) (st : supervisor) (w : world)
  (r : pythonResult) :
  promise st = Some r ->
  await_promise sp requestId lg sched st w = (Ok r, w).
Proof. intros H. destruct sched; cbn [await_promise]; rewrite H; reflexivity. Qed.

Lemma quiet_from_start (before : list event) (w : world) :
  still_running before ->
  let st := fst (supervise sp requestId lg before initial_supervisor w) in
  promise st = None /\ processFinished st = false /\
  timeoutCleared st = false /\ stdout st = captured before.
Proof.
  intros H.
  destruct (supervise_quiet sp requestId lg before initial_supervisor w H)
    as (Hp & Hf & Hc & Ho).
  cbv zeta in *. rewrite Hp, Hf, Hc, Ho. auto.
Qed.

(** A worker that is still running when the first timer fires: the
    promise is resolved with the timeout, the process is sent the
    signal, and nothing that follows changes the result. *)
Lemma timer_resolves (before : list event) (w : world) :
  still_running before ->
  let r := supervise sp requestId lg (before ++ [TimeoutFired])
                     initial_supervisor w in
  promise (fst r) = Some timeout_result /\
  processFinished (fst r) = true /\
  last (trace (snd r)) = Some Kill.
Proof.
  intros H. rewrite supervise_app.
  destruct (quiet_from_start before w H) as (Hp & Hf & Hc & _).
  cbv zeta in *. cbn [supervise on_event]. unfold on_timeout.
  rewrite Hc, Hf. cbn [fst snd].
  split; [apply resolve_first; exact Hp|]. split; [reflexivity|].
  unfold log_action. cbn [trace]. apply last_snoc.
Qed.

Lemma supervise_timeout (before after : list event) (w : world) :
  still_running before ->
  promise (fst (supervise sp requestId lg (with_deadline before after)
                          initial_supervisor w)) = Some timeout_result.
Proof.
  intros H. unfold with_deadline.
  change (before ++ TimeoutFired :: SecondTimeoutFired :: after)
    with (before ++ [TimeoutFired] ++ SecondTimeoutFired :: after).
  rewrite app_assoc, supervise_app.
  apply supervise_stable. apply (timer_resolves before w H).
Qed.

Lemma await_timeout (before after : list event) (w : world) :
  still_running before ->
  fst (await_promise sp requestId lg (with_deadline before after)
                     initial_supervisor w) = Ok timeout_result.
Proof. intros H. apply await_settled, supervise_timeout, H. Qed.

(** A worker that exits with code 0 while it is awaited: the promise is
    resolved with the result read from the captured output. *)
Lemma await_exit_zero (before rest : list event) (w : world) :
  still_running before ->
  fst (await_promise sp requestId lg (before ++ Close (Some 0) :: rest)
                     initial_supervisor w)
  = Ok (result_of_output (captured before)).
Proof.
  intros H. apply await_settled.
  change (before ++ Close (Some 0) :: rest)
    with (before ++ [Close (Some 0)] ++ rest).
  rewrite app_assoc, supervise_app. apply supervise_stable.
  rewrite supervise_app.
  destruct (quiet_from_start before w H) as (Hp & Hf & Hc & Ho).
  cbv zeta in *. cbn [supervise on_event].
  rewrite <- Ho. apply on_close_result; assumption.
Qed.

End Deadline.

Section JobRecord.

Context {host : Host}.

(** After its creation the record of the job is there. *)
Lemma creation_lookup (i : oid) (doc : request_doc) (w : world) :
  exists d,
    fst (creation i doc w) (analysis_requests w) !! i = Some d /\
    (analysis_requests w !! i = None -> d = doc).
Proof.
  unfold creation. destruct (analysis_requests w !! i) as [d|] eqn:E.
  - exists d. cbn. unfold kept. split; [exact E|discriminate].
  - exists doc. cbn. split; [apply lookup_insert_eq|reflexivity].
Qed.

End JobRecord.

Section Timeout.

Context {host : Host}.

(** The request depends on the schedule through [await] only. *)
Lemma runPythonAnalyzer_await (sched sched' : list event) :
  same_await sched sched' ->
  forall stockName startDate endDate sp requestId lg w,
    runPythonAnalyzer stockName startDate endDate sp requestId lg sched w
    = runPythonAnalyzer stockName startDate endDate sp requestId lg sched' w.
Proof.
  intros H stockName startDate endDate sp requestId lg w.
  unfold runPythonAnalyzer. msimpl. apply H.
Qed.

Lemma collectAndAnalyzeStock_await (sched sched' : list event) :
  same_await sched sched' ->
  forall stockName startDate endDate sp requestId lg w,
    collectAndAnalyzeStock stockName startDate endDate sp requestId lg sched w
    = collectAndAnalyzeStock stockName startDate endDate sp requestId lg
                             sched' w.
Proof.
  intros H stockName startDate endDate sp requestId lg w.
  unfold collectAndAnalyzeStock. rewrite !try_catch_apply. msimpl.
  rewrite !bind_apply.
  rewrite (runPythonAnalyzer_await sched sched' H). reflexivity.
Qed.

Lemma runJavaScriptAnalysis_await (sched sched' : list event) :
  same_await sched sched' ->
  forall stockName startDate endDate requestId sp lg w,
    runJavaScriptAnalysis stockName startDate endDate requestId sp lg sched w
    = runJavaScriptAnalysis stockName startDate endDate requestId sp lg
                            sched' w.
Proof.
  intros H stockName startDate endDate requestId sp lg w.
  unfold runJavaScriptAnalysis. rewrite !try_catch_apply. msimpl.
  rewrite !bind_apply.
  rewrite (collectAndAnalyzeStock_await sched sched' H). reflexivity.
Qed.

Lemma post_api_analysis_await (sched sched' : list event) :
  same_await sched sched' ->
  forall req w, post_api_analysis req sched w = post_api_analysis req sched' w.
Proof.
  intros H req w. unfold post_api_analysis. rewrite !try_catch_apply.
  destruct (falsy (b_stockName req)); [reflexivity|].
  destruct (invalid_days _); [reflexivity|].
  unfold run_analysis. msimpl. rewrite !bind_apply.
  destruct (create_request _ _ _ _ w) as [[rid|e|] wA]; try reflexivity.
  rewrite !bind_apply.
  destruct (begin_job _ _ wA) as [[[]|e|] wB]; try reflexivity.
  rewrite !bind_apply.
  rewrite (runJavaScriptAnalysis_await sched sched' H). reflexivity.
Qed.

(** What [await] gives at the deadline of a worker that is still
    running, and the state of the server then: the signal is the one
    effect of the callback of the timer. *)
Lemma await_deadline (sp : option progress_fn) (requestId : jsstring)
  (lg : option log_fn) (before after : list event) (w : world) :
  still_running before ->
  await_promise sp requestId lg (with_deadline before after)
                initial_supervisor w
  = (Ok timeout_result,
     log_action Kill (snd (supervise sp requestId lg before
                                     initial_supervisor w))).
Proof.
  intros H. unfold with_deadline.
  rewrite await_app_quiet by (exact H || reflexivity).
  destruct (quiet_from_start sp requestId lg before w H) as (Hp & Hf & Hc & _).
  cbv zeta in Hp, Hf, Hc.
  cbn [await_promise]. rewrite Hp. cbn [on_event]. unfold on_timeout.
  rewrite Hc, Hf. cbn [fst snd].
  rewrite (resolve_first _ (set_finished _)) by exact Hp. reflexivity.
Qed.

Lemma deadline_same_await (before after after' : list event) :
  still_running before ->
  same_await (with_deadline before after) (with_deadline before after').
Proof.
  intros H sp requestId lg w. rewrite !await_deadline by exact H.
  reflexivity.
Qed.

(** C3, as the code has it.  Over every schedule in which the two
    timers fire, also one in which the worker exits or fails right
    before them, the promise of a run is settled by the time the first
    timer has fired, with one value that nothing later changes, and this
    value is what the awaiting caller gets.  When the worker is still
    running at the deadline, the callback of the first timer sends it
    the termination signal, which is its one effect, sets
    [processFinished] and resolves the promise with the timeout
    failure.  It does not wait for the process: what the worker still
    writes is added to the captured output and shown to nobody, and the
    request goes on at once, so that its record has status [failed]
    whatever comes after the timers, the exit of the process or
    nothing at all. *)
Theorem timeout_resolves_once :
  forall (sp : option progress_fn) (requestId : jsstring)
         (lg : option log_fn) (before after : list event) (w : world),
    (exists r,
       promise (fst (supervise sp requestId lg (before ++ [TimeoutFired])
                               initial_supervisor w)) = Some r /\
       promise (fst (supervise sp requestId lg (with_deadline before after)
                               initial_supervisor w)) = Some r /\
       fst (await_promise sp requestId lg (with_deadline before after)
                          initial_supervisor w) = Ok r) /\
    (still_running before ->
     let at_deadline := supervise sp requestId lg (before ++ [TimeoutFired])
                                  initial_supervisor w in
     promise (fst at_deadline) = Some timeout_result /\
     processFinished (fst at_deadline) = true /\
     snd at_deadline
     = log_action Kill (snd (supervise sp requestId lg before
                                       initial_supervisor w)) /\
     forall late,
       forallb is_output late = true ->
       let later := supervise sp requestId lg
                              (before ++ [TimeoutFired] ++ late)
                              initial_supervisor w in
       stdout (fst later) = captured before ++ captured late /\
       promise (fst later) = Some timeout_result /\
       snd later = snd at_deadline) /\
    (forall (req : body) (rid : jsstring) (i : oid),
       valid_body req -> job_of w req rid i -> still_running before ->
       status <$> (analysis_requests
                     (snd (post_api_analysis req (with_deadline before after)
                                             w)) !! i) = Some failed /\
       forall after',
         post_api_analysis req (with_deadline before after') w
         = post_api_analysis req (with_deadline before after) w).
Proof.
  intros sp requestId lg before after w. split; [|split].
  - pose proof (supervise_consistent sp requestId lg before
                  initial_supervisor w initial_consistent) as Hcons.
    pose proof (timeout_settles
                  (fst (supervise sp requestId lg before initial_supervisor w))
                  (snd (supervise sp requestId lg before initial_supervisor w))
                  Hcons) as Hset.
    assert (Hone : supervise sp requestId lg (before ++ [TimeoutFired])
                             initial_supervisor w
                   = on_timeout
                       (fst (supervise sp requestId lg before
                                       initial_supervisor w))
                       (snd (supervise sp requestId lg before
                                       initial_supervisor w))).
    { rewrite supervise_app. cbn [supervise on_event].
      destruct (on_timeout _ _). reflexivity. }
    destruct (promise (fst (on_timeout _ _))) as [r|] eqn:Er; [|congruence].
    assert (Hall : promise (fst (supervise sp requestId lg
                                   (with_deadline before after)
                                   initial_supervisor w)) = Some r).
    { unfold with_deadline.
      change (before ++ TimeoutFired :: SecondTimeoutFired :: after)
        with (before ++ [TimeoutFired] ++ SecondTimeoutFired :: after).
      rewrite app_assoc, supervise_app. apply supervise_stable.
      rewrite Hone. exact Er. }
    exists r. split; [rewrite Hone; exact Er|].
    split; [exact Hall|]. apply await_settled, Hall.
  - intros Hrun at_deadline.
    destruct (quiet_from_start sp requestId lg before w Hrun)
      as (Hp & Hf & Hc & Ho).
    cbv zeta in Hp, Hf, Hc, Ho.
    assert (Hat : at_deadline
                  = (resolve timeout_result
                       (set_finished
                          (fst (supervise sp requestId lg before
                                          initial_supervisor w))),
                     log_action Kill
                       (snd (supervise sp requestId lg before
                                       initial_supervisor w)))).
    { subst at_deadline. rewrite supervise_app. cbn [supervise on_event].
      unfold on_timeout. rewrite Hc, Hf. reflexivity. }
    assert (Hpr : promise (fst at_deadline) = Some timeout_result).
    { rewrite Hat. apply resolve_first. exact Hp. }
    split; [exact Hpr|]. split; [rewrite Hat; reflexivity|].
    split; [rewrite Hat; reflexivity|].
    intros late Hlate later. subst later. rewrite app_assoc.
    rewrite (supervise_app sp requestId lg (before ++ [TimeoutFired]) late).
    fold at_deadline.
    assert (Hgen : forall l st w0,
               forallb is_output l = true ->
               processFinished st = true ->
               let r := supervise sp requestId lg l st w0 in
               stdout (fst r) = stdout st ++ captured l /\
               promise (fst r) = promise st /\ snd r = w0).
    { induction l as [|e l IH]; intros st w0 Hl Hfin.
      - cbn [supervise fst snd captured flat_map]. rewrite app_nil_r. auto.
      - cbn [forallb] in Hl. apply andb_prop in Hl as [He Hl].
        cbn [supervise]. rewrite (captured_cons e l).
        destruct e; try discriminate; cbn [on_event fst snd].
        + destruct (IH (append_stdout chunk st) w0 Hl Hfin) as (H1 & H2 & H3).
          cbv zeta in H1, H2, H3. rewrite H1, H2, H3.
          cbn [stdout promise append_stdout captured flat_map].
          rewrite app_nil_r, app_assoc. auto.
        + unfold on_stderr. cbn [processFinished append_stderr].
          rewrite Hfin.
          destruct sp; cbn [fst snd];
            destruct (IH (append_stderr chunk st) w0 Hl Hfin)
              as (H1 & H2 & H3);
            cbv zeta in H1, H2, H3; rewrite H1, H2, H3;
            cbn [stdout promise append_stderr captured flat_map app]; auto. }
    destruct (Hgen late (fst at_deadline) (snd at_deadline) Hlate)
      as (H1 & H2 & H3).
    { rewrite Hat. reflexivity. }
    cbv zeta in H1, H2, H3. rewrite H1, H2, H3, Hpr.
    split; [|auto]. rewrite Hat.
    cbn [fst stdout resolve set_finished]. rewrite Ho. reflexivity.
  - intros req rid i Hvalid Hjob Hrun. split.
    + destruct (handler_cases req (with_deadline before after) w rid i
                  Hvalid Hjob) as (wB & Hid & SB & Hio & Hcase).
      cbv zeta in Hcase.
      match type of Hcase with
      | context [runJavaScriptAnalysis ?a ?b ?c ?d ?e ?f ?g ?w0] =>
        pose proof (runJavaScriptAnalysis_failure e d f a b c g
                      (js "Python 분석기 타임아웃 (300초)") true None
                      (fun w1 => await_timeout e d f before after w1 Hrun) w0)
          as Hfail
      end.
      rewrite Hfail in Hcase. destruct Hcase as (Ho & SF).
      destruct SB as (HB & _), SF as (HF & _). destruct Hio as (HC & _).
      rewrite HF, HC, HB. unfold to_failed, to_processing.
      rewrite !lookup_alter_eq.
      destruct (creation_lookup i (request_of req (now w)) w) as (d & -> & _).
      reflexivity.
    + intros after'. apply post_api_analysis_await.
      apply deadline_same_await. exact Hrun.
Qed.

End Timeout.

Lemma timeout_resolves_once_witness :
  status <$> (analysis_requests
                (snd (post_api_analysis (host := sample_host) sample_body
                        (with_deadline worker_output []) empty_world))
              !! 31170884944518902468104997328%N) = Some failed.
Proof.
  apply (proj2 (proj2 (timeout_resolves_once (host := sample_host) None []
                         None worker_output [] empty_world))
               sample_body request_id 31170884944518902468104997328%N).
  - split; vm_compute; reflexivity.
  - apply client_id.
    + reflexivity.
    + vm_compute. discriminate.
    + vm_compute. reflexivity.
  - vm_compute. reflexivity.
Defined.

(** A worker that does not mind the signal: it is still running at the
    deadline, the job of the request ends with status [failed], and the
    worker goes on writing; its exit is never seen. *)
Lemma timed_out_worker_still_runs :
  forallb quiet worker_output = true /\
  status <$> getAnalysisRequest (host := sample_host) request_id
               (snd (post_api_analysis (host := sample_host) sample_body
                       (with_deadline worker_output
                          [StdoutData (js "still at work")])
                       empty_world))
  = Some failed /\
  exit_observed (with_deadline worker_output
                               [StdoutData (js "still at work")]) = false /\
  stdout (fst (supervise (host := sample_host) None request_id None
                 (with_deadline worker_output
                    [StdoutData (js "still at work")])
                 initial_supervisor empty_world))
  = captured worker_output ++ js "still at work".
Proof. repeat split; vm_compute; reflexivity. Qed.

(** ** A worker that exits with code 0 and no payload *)

Section NoPayload.

Context {host : Host}.

Lemma default_storable : storable default_analysis.
Proof. split; reflexivity. Qed.

Lemma result_without_payload (out : jsstring) :
  first_payload out = None -> result_of_output out = PySuccess default_data.
Proof. intros H. unfold result_of_output. rewrite H. reflexivity. Qed.

(** C4, as the code has it.  When the worker exits with code 0 and its
    captured output has no line that is a well-formed payload, the
    promise is resolved as a success with the made-up default data, the
    request is answered with success, the result stored for it has all
    counts zero, and the job ends with status [completed]. *)
Theorem exit_zero_without_payload_completes :
  forall (req : body) (rid : jsstring) (i : oid)
         (before rest : list event) (w : world),
    valid_body req -> job_of w req rid i ->
    still_running before ->
    first_payload (captured before) = None ->
    let sched := before ++ Close (Some 0) :: rest in
    let run := post_api_analysis req sched w in
    (forall sp lg w0,
       fst (await_promise sp rid lg sched initial_supervisor w0)
       = Ok (PySuccess default_data)) /\
    (exists data,
       fst run = Ok (Success rid data) /\
       d_analysis data = default_analysis) /\
    analysis_results (snd run) !! i = Some default_analysis /\
    status <$> (analysis_requests (snd run) !! i) = Some completed.
Proof.
  intros req rid i before rest w Hvalid Hjob Hrun Hnone sched run.
  assert (Hawait : forall sp lg w0,
             fst (await_promise sp rid lg sched initial_supervisor w0)
             = Ok (PySuccess default_data)).
  { intros sp lg w0. subst sched. rewrite await_exit_zero by exact Hrun.
    rewrite (result_without_payload _ Hnone). reflexivity. }
  split; [exact Hawait|]. subst run.
  destruct (handler_cases req sched w rid i Hvalid Hjob)
    as (wB & Hid & SB & Hio & Hcase).
  cbv zeta in Hcase.
  match type of Hcase with
  | context [runJavaScriptAnalysis ?a ?b ?c ?d ?e ?f ?g ?w0] =>
    destruct (runJavaScriptAnalysis_default e d f a b c g (sendProgress rid)
                eq_refl (Hawait e f) w0) as (data & Hdata & Hdef)
  end.
  rewrite Hdata in Hcase. destruct Hcase as (Hcase & Hok).
  rewrite Hdef in Hok, Hcase. specialize (Hok default_storable).
  destruct Hcase as [[_ SF]|[Hbad _]]; [|congruence].
  split; [exists data; auto|].
  destruct SB as (HB & _), SF as (HF & HR & _). destruct Hio as (HC & _).
  split.
  - rewrite HR, lookup_insert_eq.
    rewrite (resultDoc_as_is _ default_stored_as_is). reflexivity.
  - rewrite HF, HC, HB. unfold to_completed, to_processing.
    rewrite !lookup_alter_eq.
    destruct (creation_lookup i (request_of req (now w)) w) as (d & -> & _).
    reflexivity.
Qed.

End NoPayload.

Lemma exit_zero_without_payload_completes_witness :
  status <$> (analysis_requests
                (snd (post_api_analysis (host := sample_host) sample_body
                        ([StdoutData no_payload] ++ Close (Some 0) :: [])
                        empty_world))
              !! 31170884944518902468104997328%N) = Some completed.
Proof.
  apply (exit_zero_without_payload_completes (host := sample_host)
           sample_body request_id 31170884944518902468104997328%N
           [StdoutData no_payload] [] empty_world).
  - split; vm_compute; reflexivity.
  - apply client_id.
    + reflexivity.
    + vm_compute. discriminate.
    + vm_compute. reflexivity.
  - vm_compute. reflexivity.
  - vm_compute. reflexivity.
Defined.

(** The worker exits with code 0, its output has no payload line, and
    the job does not end with status [failed]. *)
Lemma no_payload_job_not_failed :
  first_payload (host := sample_host)
                (captured [StdoutData no_payload]) = None /\
  status <$> getAnalysisRequest (host := sample_host) request_id
               (snd (post_api_analysis (host := sample_host) sample_body
                       [StdoutData no_payload; Close (Some 0)] empty_world))
  <> Some failed.
Proof.
  split; [vm_compute; reflexivity|]. vm_compute. discriminate.
Qed.

(** ** The statuses of a job *)

Section Lifecycle.

Context {host : Host}.






End Lifecycle.



(** ** A submission under an id that exists *)

Section Resubmission.

Context {host : Host}.



End Resubmission.



(** ** Rooms and deliveries *)

Section RoomFacts.

Lemma roomName_inj (r r' : jsstring) : roomName r = roomName r' -> r = r'.
Proof. unfold roomName. apply app_inv_head. Qed.

Lemma inbox_emit (room : jsstring) (m : message) (w : world) (s : socket_id) :
  inbox (io_to_emit room m w) s
  = if decide (s ∈ roomClients room w) then inbox w s ++ [m] else inbox w s.
Proof. reflexivity. Qed.

Lemma rooms_emit (room : jsstring) (m : message) (w : world) :
  rooms (io_to_emit room m w) = rooms w.
Proof. reflexivity. Qed.

Lemma clients_join (s : socket_id) (requestId room : jsstring) (w : world) :
  requestId <> [] ->
  roomClients room (on_join_analysis s requestId w)
  = if decide (room = roomName requestId)
    then roomClients room w ∪ {[s]} else roomClients room w.
Proof.
  intros Hr. unfold on_join_analysis.
  destruct requestId as [|c r]; [congruence|].
  unfold roomClients, socket_emit. cbn [rooms log_action set_inbox set_rooms].
  destruct (decide (room = roomName (c :: r))) as [->|Hne].
  - rewrite lookup_insert_eq. reflexivity.
  - rewrite lookup_insert_ne by congruence. reflexivity.
Qed.

Lemma clients_leave (s : socket_id) (requestId room : jsstring) (w : world) :
  requestId <> [] ->
  roomClients room (on_leave_analysis s requestId w)
  = if decide (room = roomName requestId)
    then roomClients room w ∖ {[s]} else roomClients room w.
Proof.
  intros Hr. unfold on_leave_analysis.
  destruct requestId as [|c r]; [congruence|].
  unfold roomClients, socket_emit. cbn [rooms log_action set_inbox set_rooms].
  destruct (decide (room = roomName (c :: r))) as [->|Hne].
  - rewrite lookup_insert_eq. reflexivity.
  - rewrite lookup_insert_ne by congruence. reflexivity.
Qed.

Lemma leave_acknowledged (s : socket_id) (requestId : jsstring) (w : world) :
  requestId <> [] ->
  inbox (on_leave_analysis s requestId w) s
  = inbox w s ++ [LeftAnalysis requestId].
Proof.
  intros Hr. unfold on_leave_analysis.
  destruct requestId as [|c r]; [congruence|].
  unfold socket_emit. cbn [inbox log_action set_inbox set_rooms].
  destruct (decide (s = s)); [reflexivity|congruence].
Qed.

Lemma clients_disconnect (s : socket_id) (room : jsstring) (w : world) :
  roomClients room (on_disconnect s w) = roomClients room w ∖ {[s]}.
Proof.
  unfold on_disconnect, roomClients. cbn [rooms set_rooms].
  rewrite lookup_fmap. destruct (rooms w !! room); cbn; [reflexivity|].
  apply set_eq. intros x. rewrite elem_of_difference, elem_of_empty. tauto.
Qed.

(** X1.  A socket that has joined the room of a request receives the
    next progress event of this request, right after the
    acknowledgement of the join, stamped with the time of the server. *)
Theorem joined_socket_receives_progress :
  forall (s : socket_id) (requestId : jsstring) (stepId : step_id)
         (label : jsstring) (st : step_status) (msg : jsstring)
         (details : list jsstring) (w : world),
    requestId <> [] ->
    inbox (sendProgress requestId stepId label st msg details
             (on_join_analysis s requestId w)) s
    = inbox w s ++
      [JoinedAnalysis requestId;
       Progress {| p_requestId := requestId; p_stepId := stepId;
                   p_label := label; p_status := st; p_message := msg;
                   p_timestamp := now w; p_details := details |}].
Proof.
  intros s requestId stepId label st msg details w Hr.
  unfold sendProgress. rewrite inbox_emit, clients_join by exact Hr.
  destruct (decide (roomName requestId = roomName requestId)); [|congruence].
  destruct (decide _) as [_|Hn];
    [|exfalso; apply Hn, elem_of_union_r, elem_of_singleton; reflexivity].
  rewrite join_brings_no_history by exact Hr.
  rewrite <- app_assoc. cbn [app].
  destruct (io_only_join s requestId w) as (_ & _ & _ & _ & _ & -> & _).
  reflexivity.
Qed.

(** X2.  After [leave-analysis] the socket gets the acknowledgement and
    no event of the request any more, while the sockets that stay in
    the room are served as before. *)
Theorem left_socket_receives_nothing :
  forall (s : socket_id) (requestId : jsstring) (m : message) (w : world),
    requestId <> [] ->
    let w' := io_to_emit (roomName requestId) m
                (on_leave_analysis s requestId w) in
    inbox w' s = inbox w s ++ [LeftAnalysis requestId] /\
    forall s', s' <> s -> s' ∈ roomClients (roomName requestId) w ->
               inbox w' s' = inbox w s' ++ [m].
Proof.
  intros s requestId m w Hr w'. subst w'. split.
  - rewrite inbox_emit, clients_leave by exact Hr.
    destruct (decide (roomName requestId = roomName requestId)); [|congruence].
    destruct (decide _) as [Hin|_].
    { apply elem_of_difference in Hin. destruct Hin as (_ & Hin).
      exfalso. apply Hin, elem_of_singleton. reflexivity. }
    apply leave_acknowledged, Hr.
  - intros s' Hs' Hin.
    rewrite inbox_emit, clients_leave by exact Hr.
    destruct (decide (roomName requestId = roomName requestId)); [|congruence].
    destruct (decide _) as [_|Hn].
    2:{ exfalso. apply Hn, elem_of_difference. split; [exact Hin|].
        rewrite elem_of_singleton. exact Hs'. }
    unfold on_leave_analysis. destruct requestId as [|c r]; [congruence|].
    unfold socket_emit. cbn [inbox log_action set_inbox set_rooms].
    destruct (decide (s' = s)); [contradiction|reflexivity].
Qed.

(** X3.  Rooms are kept apart: joining the room of one request changes
    the members of no other room, so that an event of another request
    reaches the socket only if it was in that room already. *)
Theorem rooms_are_isolated :
  forall (s : socket_id) (requestId other : jsstring) (m : message)
         (w : world),
    requestId <> [] -> other <> requestId ->
    roomClients (roomName other) (on_join_analysis s requestId w)
    = roomClients (roomName other) w /\
    (s ∉ roomClients (roomName other) w ->
     inbox (io_to_emit (roomName other) m (on_join_analysis s requestId w)) s
     = inbox w s ++ [JoinedAnalysis requestId]).
Proof.
  intros s requestId other m w Hr Hne.
  assert (Hc : roomClients (roomName other) (on_join_analysis s requestId w)
               = roomClients (roomName other) w).
  { rewrite clients_join by exact Hr.
    destruct (decide _) as [E|_]; [|reflexivity].
    apply roomName_inj in E. contradiction. }
  split; [exact Hc|]. intros Hout.
  rewrite inbox_emit, Hc.
  destruct (decide _); [contradiction|].
  apply join_brings_no_history, Hr.
Qed.

(** X4.  A socket that is disconnected is in no room: no broadcast
    reaches it afterwards, whatever the room, and the other members of
    every room stay. *)
Theorem disconnected_socket_receives_nothing :
  forall (s : socket_id) (room : jsstring) (m : message) (w : world),
    inbox (io_to_emit room m (on_disconnect s w)) s = inbox w s /\
    forall s', s' <> s ->
      (s' ∈ roomClients room (on_disconnect s w) <-> s' ∈ roomClients room w).
Proof.
  intros s room m w. split.
  - rewrite inbox_emit, clients_disconnect.
    destruct (decide _) as [Hin|_]; [|reflexivity].
    apply elem_of_difference in Hin. destruct Hin as (_ & Hin).
    exfalso. apply Hin, elem_of_singleton. reflexivity.
  - intros s' Hs'. rewrite clients_disconnect, elem_of_difference.
    rewrite elem_of_singleton. tauto.
Qed.

End RoomFacts.

Lemma joined_socket_receives_progress_witness :
  inbox (sendProgress request_id step_init (js "a") loading (js "b") []
           (on_join_analysis 3%nat request_id empty_world)) 3%nat
  = [JoinedAnalysis request_id;
     Progress {| p_requestId := request_id; p_stepId := step_init;
                 p_label := js "a"; p_status := loading; p_message := js "b";
                 p_timestamp := 1700000000000; p_details := [] |}].
Proof.
  apply (joined_socket_receives_progress 3%nat
           request_id step_init (js "a") loading (js "b") [] empty_world).
  vm_compute. discriminate.
Defined.

Lemma left_socket_receives_nothing_witness :
  inbox (io_to_emit (roomName request_id) (JoinedAnalysis request_id)
           (on_leave_analysis 3%nat request_id
              (on_join_analysis 3%nat request_id empty_world))) 3%nat
  = inbox (on_join_analysis 3%nat request_id empty_world) 3%nat
    ++ [LeftAnalysis request_id].
Proof.
  apply (left_socket_receives_nothing 3%nat request_id
           (JoinedAnalysis request_id)
           (on_join_analysis 3%nat request_id empty_world)).
  vm_compute. discriminate.
Defined.

Lemma rooms_are_isolated_witness :
  roomClients (roomName (js "64b7f3a2c1d4e5f6a7b8c9d1"))
              (on_join_analysis 3%nat request_id empty_world)
  = roomClients (roomName (js "64b7f3a2c1d4e5f6a7b8c9d1")) empty_world.
Proof.
  apply (rooms_are_isolated 3%nat request_id (js "64b7f3a2c1d4e5f6a7b8c9d1")
           (JoinedAnalysis request_id) empty_world).
  - vm_compute. discriminate.
  - vm_compute. discriminate.
Defined.

(** ** More about the supervisor *)

Section SupervisorMore.

Context {host : Host}.

Variables (sp : option progress_fn) (requestId : jsstring)
          (lg : option log_fn).

Lemma on_event_quiet_more (e : event) (st : supervisor) (w : world) :
  quiet e = true ->
  let st' := fst (on_event sp requestId lg e st w) in
  stderr st' = stderr st ++ captured_stderr [e] /\
  resolveCalls st' = resolveCalls st.
Proof.
  intros Hq.
  destruct e; try discriminate;
    cbn [on_event fst captured_stderr flat_map];
    rewrite ?app_nil_r; try (split; reflexivity).
  unfold on_stderr. destruct sp; [|split; reflexivity].
  cbn [processFinished append_stderr].
  destruct (processFinished st) eqn:E;
    cbn [fst stderr resolveCalls append_stderr set_active];
    split; reflexivity.
Qed.

Lemma captured_stderr_cons (e : event) (sched : list event) :
  captured_stderr (e :: sched) = captured_stderr [e] ++ captured_stderr sched.
Proof.
  unfold captured_stderr. cbn [flat_map]. rewrite app_nil_r. reflexivity.
Qed.

Lemma supervise_quiet_more (sched : list event) :
  forall (st : supervisor) (w : world),
    still_running sched ->
    let st' := fst (supervise sp requestId lg sched st w) in
    stderr st' = stderr st ++ captured_stderr sched /\
    resolveCalls st' = resolveCalls st.
Proof.
  unfold still_running.
  induction sched as [|e sched IH]; intros st w H.
  - cbn. rewrite app_nil_r. auto.
  - cbn [forallb] in H. apply andb_prop in H as [He H].
    cbn [supervise].
    destruct (on_event_quiet_more e st w He) as (Ho & Hc).
    destruct (IH (fst (on_event sp requestId lg e st w))
                 (snd (on_event sp requestId lg e st w)) H) as (Ho' & Hc').
    cbv zeta in *. rewrite Ho', Hc', Ho, Hc.
    rewrite (captured_stderr_cons e sched), app_assoc. auto.
Qed.

(** The state of the supervisor when the worker is still running. *)
Lemma running_state (before : list event) (w : world) :
  still_running before ->
  let st := fst (supervise sp requestId lg before initial_supervisor w) in
  promise st = None /\ processFinished st = false /\
  timeoutCleared st = false /\ stdout st = captured before /\
  stderr st = captured_stderr before /\ resolveCalls st = 0%nat.
Proof.
  intros H.
  destruct (quiet_from_start sp requestId lg before w H) as (Hp & Hf & Hc & Ho).
  destruct (supervise_quiet_more before initial_supervisor w H) as (He & Hr).
  cbv zeta in *. auto 10.
Qed.

(** The event that settles the promise ends the wait. *)
Lemma await_settling_event (before rest : list event) (e : event)
  (w : world) (r : pythonResult) :
  still_running before ->
  let st := fst (supervise sp requestId lg before initial_supervisor w) in
  let w1 := snd (supervise sp requestId lg before initial_supervisor w) in
  promise (fst (on_event sp requestId lg e st w1)) = Some r ->
  await_promise sp requestId lg (before ++ e :: rest) initial_supervisor w
  = (Ok r, snd (on_event sp requestId lg e st w1)).
Proof.
  intros H st w1 Hr. rewrite await_app_quiet by (exact H || reflexivity).
  fold st w1.
  destruct (quiet_from_start sp requestId lg before w H) as (Hp & _).
  cbv zeta in Hp. fold st in Hp.
  cbn [await_promise]. rewrite Hp.
  apply await_done. exact Hr.
Qed.

(** X5.  A worker that exits with another code than 0, or is ended by
    a signal, while it is awaited: the caller gets a failure that names
    the code and carries all that the worker wrote to its standard
    output and standard error; the handler of the exit sends no event. *)
Theorem nonzero_exit_reports_output :
  forall (before rest : list event) (code : option Z) (w : world),
    still_running before ->
    code <> Some 0 ->
    await_promise sp requestId lg (before ++ Close code :: rest)
                  initial_supervisor w
    = (Ok (PyFailure (js "Python 실행 실패 (code: " ++ code_text code
                         ++ js ")") false
                     (Some (captured before, captured_stderr before))),
       snd (supervise sp requestId lg before initial_supervisor w)).
Proof.
  intros before rest code w H Hcode.
  destruct (running_state before w H) as (Hp & Hf & Hc & Ho & He & _).
  cbv zeta in *.
  assert (Hclose :
    on_close sp lg code
      (fst (supervise sp requestId lg before initial_supervisor w))
      (snd (supervise sp requestId lg before initial_supervisor w))
    = (resolve (PyFailure (js "Python 실행 실패 (code: " ++ code_text code
                            ++ js ")") false
                  (Some (captured before, captured_stderr before)))
         (clearTimeout (set_finished
            (fst (supervise sp requestId lg before initial_supervisor w)))),
       snd (supervise sp requestId lg before initial_supervisor w))).
  { unfold on_close. rewrite Hf.
    destruct (decide (code = Some 0)); [contradiction|].
    cbn [stdout stderr clearTimeout set_finished]. rewrite Ho, He.
    reflexivity. }
  pose proof (await_settling_event before rest (Close code) w
    (PyFailure (js "Python 실행 실패 (code: " ++ code_text code ++ js ")")
       false (Some (captured before, captured_stderr before))) H) as Ha.
  cbv zeta in Ha. cbn [on_event] in Ha. rewrite Hclose in Ha.
  cbn [fst snd] in Ha. apply Ha.
  apply resolve_first. cbn [promise clearTimeout set_finished]. exact Hp.
Qed.

(** X6.  An error of the process while it is awaited: the caller gets a
    failure with the message of the error; no event is sent, the process
    is not signalled and the first timer stays armed. *)
Theorem process_error_fails_the_run :
  forall (before rest : list event) (msg : jsstring) (w : world),
    still_running before ->
    let st := fst (supervise sp requestId lg (before ++ [ProcessError msg])
                             initial_supervisor w) in
    await_promise sp requestId lg (before ++ ProcessError msg :: rest)
                  initial_supervisor w
    = (Ok (PyFailure (js "프로세스 오류: " ++ msg) false None),
       snd (supervise sp requestId lg before initial_supervisor w)) /\
    processFinished st = false /\ timeoutCleared st = false.
Proof.
  intros before rest msg w H st.
  destruct (running_state before w H) as (Hp & Hf & Hc & _).
  cbv zeta in *. split.
  - pose proof (await_settling_event before rest (ProcessError msg) w
      (PyFailure (js "프로세스 오류: " ++ msg) false None) H) as Ha.
    cbv zeta in Ha. cbn [on_event on_error fst snd] in Ha. apply Ha.
    apply resolve_first, Hp.
  - subst st. rewrite supervise_app. cbn [supervise on_event on_error fst snd].
    cbn [processFinished timeoutCleared resolve]. auto.
Qed.

(** X7.  At the deadline of a worker that has exited: the first timer
    does nothing, since the exit has cleared it; the second timer, which
    nothing clears, signals the process all the same and calls [resolve]
    a second time, which leaves the promise as it was. *)
Theorem timers_after_exit :
  forall (before : list event) (code : option Z) (w : world),
    still_running before ->
    let r := supervise sp requestId lg (before ++ [Close code])
                       initial_supervisor w in
    on_timeout (fst r) (snd r) = r /\
    promise (fst (on_second_timeout (fst r) (snd r))) = promise (fst r) /\
    promise (fst r) <> None /\
    resolveCalls (fst (on_second_timeout (fst r) (snd r))) = 2%nat /\
    trace (snd (on_second_timeout (fst r) (snd r))) = trace (snd r) ++ [Kill].
Proof.
  intros before code w H r.
  destruct (running_state before w H) as (Hp & Hf & Hc & _ & _ & Hn).
  cbv zeta in *.
  assert (Hr : timeoutCleared (fst r) = true /\ promise (fst r) <> None /\
               resolveCalls (fst r) = 1%nat).
  { subst r. rewrite supervise_app. cbn [supervise on_event].
    unfold on_close. rewrite Hf.
    destruct (decide (code = Some 0));
      [destruct (truthy _)|];
      cbn [fst timeoutCleared promise resolveCalls resolve clearTimeout
           set_finished];
      rewrite Hp, Hn; (split; [reflexivity|split; [discriminate|reflexivity]]). }
  destruct Hr as (Hcl & Hset & Hcalls).
  split.
  { unfold on_timeout. rewrite Hcl. destruct r; reflexivity. }
  unfold on_second_timeout. cbn [fst snd].
  destruct (promise (fst r)) as [p|] eqn:Ep; [|congruence].
  split; [apply resolve_stable; exact Ep|].
  split; [discriminate|].
  split; [cbn [resolveCalls resolve]; rewrite Hcalls; reflexivity|].
  reflexivity.
Qed.

(** X8.  The result of a run that exits with code 0 depends on the text
    of the standard output alone: not on how the text is cut into
    chunks, nor on what comes between them, nor on the world the run
    starts from. *)
Theorem result_depends_on_output_text :
  forall (before before' rest rest' : list event) (w w' : world),
    still_running before -> still_running before' ->
    captured before = captured before' ->
    fst (await_promise sp requestId lg (before ++ Close (Some 0) :: rest)
                       initial_supervisor w)
    = fst (await_promise sp requestId lg (before' ++ Close (Some 0) :: rest')
                         initial_supervisor w').
Proof.
  intros before before' rest rest' w w' H H' E.
  rewrite !await_exit_zero by assumption. rewrite E. reflexivity.
Qed.

(** What is read from the worker when the run is over changes nothing. *)
Lemma output_when_finished (late : list event) :
  forall (st : supervisor) (w : world),
    processFinished st = true ->
    forallb is_output late = true ->
    let r := supervise sp requestId lg late st w in
    snd r = w /\ promise (fst r) = promise st /\
    processFinished (fst r) = true.
Proof.
  induction late as [|e late IH]; intros st w Hf Hl.
  { cbn [supervise fst snd]. auto. }
  cbn [forallb] in Hl. apply andb_prop in Hl as [He Hl].
  cbn [supervise].
  assert (Hstep : snd (on_event sp requestId lg e st w) = w /\
                  promise (fst (on_event sp requestId lg e st w)) = promise st /\
                  processFinished (fst (on_event sp requestId lg e st w)) = true).
  { destruct e; try discriminate; cbn [on_event fst snd].
    - cbn [promise processFinished append_stdout]. auto.
    - unfold on_stderr. cbn [processFinished append_stderr]. rewrite Hf.
      destruct sp; cbn [fst snd promise processFinished append_stderr];
        rewrite ?Hf; auto. }
  destruct Hstep as (Hw & Hp & Hf').
  destruct (IH _ (snd (on_event sp requestId lg e st w)) Hf' Hl)
    as (Hw' & Hp' & Hf'').
  cbv zeta in *. rewrite Hw', Hp', Hf'', Hw, Hp. auto.
Qed.

(** X9.  Once the run is over, by the exit, by the first timer or
    otherwise with [processFinished] set, what the worker still writes
    is shown to nobody and changes nothing of the result. *)
Theorem late_output_is_dropped :
  forall (sched late : list event) (st : supervisor) (w : world),
    processFinished (fst (supervise sp requestId lg sched st w)) = true ->
    forallb is_output late = true ->
    snd (supervise sp requestId lg (sched ++ late) st w)
    = snd (supervise sp requestId lg sched st w) /\
    promise (fst (supervise sp requestId lg (sched ++ late) st w))
    = promise (fst (supervise sp requestId lg sched st w)).
Proof.
  intros sched late st w Hf Hl. rewrite supervise_app.
  destruct (output_when_finished late _
              (snd (supervise sp requestId lg sched st w)) Hf Hl)
    as (Hw & Hp & _).
  cbv zeta in *. auto.
Qed.

(** X10.  The value a promise is settled with is final: whatever the
    event loop delivers afterwards, the promise keeps it and the
    awaiting caller gets it. *)
Theorem settled_result_is_final :
  forall (sched later : list event) (st : supervisor) (w : world)
         (r : pythonResult),
    promise (fst (supervise sp requestId lg sched st w)) = Some r ->
    promise (fst (supervise sp requestId lg (sched ++ later) st w)) = Some r /\
    fst (await_promise sp requestId lg (sched ++ later) st w) = Ok r.
Proof.
  intros sched later st w r H.
  assert (Hall : promise (fst (supervise sp requestId lg (sched ++ later)
                                         st w)) = Some r).
  { rewrite supervise_app. apply supervise_stable, H. }
  split; [exact Hall|]. apply await_settled, Hall.
Qed.

End SupervisorMore.

Lemma nonzero_exit_reports_output_witness :
  await_promise (host := sample_host) None request_id None
    (worker_output ++ Close (Some 1) :: []) initial_supervisor empty_world
  = (Ok (PyFailure (js "Python 실행 실패 (code: " ++ code_text (Some 1)
                       ++ js ")") false
                   (Some (captured worker_output,
                          captured_stderr worker_output))),
     snd (supervise (host := sample_host) None request_id None worker_output
                    initial_supervisor empty_world)).
Proof.
  apply (nonzero_exit_reports_output (host := sample_host) None request_id
           None worker_output [] (Some 1) empty_world).
  - vm_compute. reflexivity.
  - discriminate.
Defined.

Lemma process_error_fails_the_run_witness :
  await_promise (host := sample_host) None request_id None
    (worker_output ++ ProcessError (js "spawn python ENOENT") :: [])
    initial_supervisor empty_world
  = (Ok (PyFailure (js "프로세스 오류: " ++ js "spawn python ENOENT") false
                   None),
     snd (supervise (host := sample_host) None request_id None worker_output
                    initial_supervisor empty_world)).
Proof.
  apply (process_error_fails_the_run (host := sample_host) None request_id
           None worker_output [] (js "spawn python ENOENT") empty_world).
  vm_compute. reflexivity.
Defined.

Lemma timers_after_exit_witness :
  resolveCalls
    (fst (on_second_timeout
            (fst (supervise (host := sample_host) None request_id None
                            (worker_output ++ [Close (Some 0)])
                            initial_supervisor empty_world))
            (snd (supervise (host := sample_host) None request_id None
                            (worker_output ++ [Close (Some 0)])
                            initial_supervisor empty_world)))) = 2%nat.
Proof.
  apply (timers_after_exit (host := sample_host) None request_id None
           worker_output (Some 0) empty_world).
  vm_compute. reflexivity.
Defined.

Lemma result_depends_on_output_text_witness :
  fst (await_promise (host := sample_host) None request_id None
         ([StdoutData (js "ab")] ++ Close (Some 0) :: [])
         initial_supervisor empty_world)
  = fst (await_promise (host := sample_host) None request_id None
           ([StdoutData (js "a"); StderrData (js "warning");
             StdoutData (js "b")] ++ Close (Some 0) :: [TimeoutFired])
           initial_supervisor world_with_record).
Proof.
  apply (result_depends_on_output_text (host := sample_host) None request_id
           None [StdoutData (js "ab")]
           [StdoutData (js "a"); StderrData (js "warning");
            StdoutData (js "b")] [] [TimeoutFired] empty_world
           world_with_record).
  - vm_compute. reflexivity.
  - vm_compute. reflexivity.
  - vm_compute. reflexivity.
Defined.

Lemma late_output_is_dropped_witness :
  snd (supervise (host := sample_host) (Some (sendProgress request_id))
         request_id None
         ([TimeoutFired] ++ [StderrData (js "[뉴스] 12개 수집 완료")])
         initial_supervisor empty_world)
  = snd (supervise (host := sample_host) (Some (sendProgress request_id))
           request_id None [TimeoutFired] initial_supervisor empty_world).
Proof.
  apply (late_output_is_dropped (host := sample_host)
           (Some (sendProgress request_id)) request_id None [TimeoutFired]
           [StderrData (js "[뉴스] 12개 수집 완료")] initial_supervisor
           empty_world).
  - vm_compute. reflexivity.
  - vm_compute. reflexivity.
Defined.

Lemma settled_result_is_final_witness :
  fst (await_promise (host := sample_host) None request_id None
         ([TimeoutFired] ++ [Close (Some 0); SecondTimeoutFired])
         initial_supervisor empty_world)
  = Ok timeout_result.
Proof.
  apply (settled_result_is_final (host := sample_host) None request_id None
           [TimeoutFired] [Close (Some 0); SecondTimeoutFired]
           initial_supervisor empty_world timeout_result).
  vm_compute. reflexivity.
Defined.

(** ** The completion signal while the worker runs *)

Section NoEarlyCompletion.

Context {host : Host}.

(** What the rule chain can answer: the step it leaves active is a
    stage or the one before, and the event it asks for is for a stage,
    with status [loading] or [success]. *)
Lemma classify_stage (cleanLine : jsstring) (active : step_id) :
  (c_active (classify cleanLine active) = active \/
   In (c_active (classify cleanLine active)) stages) /\
  match c_progress (classify cleanLine active) with
  | Some (stepId, _, st, _) => In stepId stages /\ st <> error
  | None => True
  end.
Proof.
  unfold classify.
  repeat match goal with
         | |- context [if ?b then _ else _] => destruct b
         end;
    cbn [c_active c_progress stages In];
    (split; [tauto|]); try exact I; (split; [tauto|discriminate]).
Qed.

Lemma completion_emit (room : jsstring) (m : message) (w : world)
  (s : socket_id) :
  is_completion m = false ->
  List.filter is_completion (inbox (io_to_emit room m w) s)
  = List.filter is_completion (inbox w s).
Proof.
  intros Hm. rewrite inbox_emit. destruct (decide _); [|reflexivity].
  rewrite List.filter_app. cbn [List.filter]. rewrite Hm.
  apply app_nil_r.
Qed.

Lemma completion_socket_emit (s' : socket_id) (m : message) (w : world)
  (s : socket_id) :
  is_completion m = false ->
  List.filter is_completion (inbox (socket_emit s' m w) s)
  = List.filter is_completion (inbox w s).
Proof.
  intros Hm. unfold socket_emit. cbn [inbox log_action set_inbox].
  destruct (decide _); [|reflexivity].
  rewrite List.filter_app. cbn [List.filter]. rewrite Hm.
  apply app_nil_r.
Qed.

Lemma completion_handle_line (requestId line : jsstring) (active : step_id)
  (w : world) (s : socket_id) :
  List.filter is_completion
    (inbox (snd (handle_line (sendProgress requestId) requestId line
                             active w)) s)
  = List.filter is_completion (inbox w s).
Proof.
  unfold handle_line. destruct (skipped line); [reflexivity|].
  cbv zeta. cbn [snd].
  destruct (classify_stage (strip_timestamp (trim line)) active) as (_ & Hc).
  destruct (c_progress _) as [[[[stepId label] st] msg]|].
  - unfold sendProgress. rewrite completion_emit.
    + apply completion_emit. reflexivity.
    + destruct Hc as (Hin & _). cbn [is_completion p_stepId p_status].
      destruct stepId; try reflexivity.
      cbn [stages In] in Hin.
      repeat (destruct Hin as [Hin|Hin]; [discriminate|]). contradiction.
  - apply completion_emit. reflexivity.
Qed.

Lemma completion_handle_lines (requestId : jsstring) (lines : list jsstring)
  (s : socket_id) :
  forall (active : step_id) (w : world),
    List.filter is_completion
      (inbox (snd (handle_lines (sendProgress requestId) requestId lines
                                active w)) s)
    = List.filter is_completion (inbox w s).
Proof.
  induction lines as [|line lines IH]; intros active w; [reflexivity|].
  cbn [handle_lines]. cbv zeta. rewrite IH. apply completion_handle_line.
Qed.

(** X11.  While the worker runs nobody is told that the job is
    complete: over its output and over what the sockets do, the events
    the server sends never include the completion signal, whatever the
    lines of the worker say.  The signal can only come from the handler
    of the exit. *)
Theorem no_completion_while_running :
  forall (requestId : jsstring) (lg : option log_fn) (sched : list event)
         (st : supervisor) (w : world) (s : socket_id),
    still_running sched ->
    List.filter is_completion
      (inbox (snd (supervise (Some (sendProgress requestId)) requestId lg
                             sched st w)) s)
    = List.filter is_completion (inbox w s).
Proof.
  intros requestId lg sched. unfold still_running.
  induction sched as [|e sched IH]; intros st w s H; [reflexivity|].
  cbn [forallb] in H. apply andb_prop in H as [He H].
  cbn [supervise]. rewrite IH by exact H.
  destruct e as [c|c|c|m| | |s0 r|s0 r|s0]; try discriminate;
    cbn [on_event snd]; try reflexivity.
  - unfold on_stderr. destruct (processFinished _); [reflexivity|].
    cbn [snd]. apply completion_handle_lines.
  - unfold on_join_analysis. destruct r; [reflexivity|].
    rewrite completion_socket_emit by reflexivity. reflexivity.
  - unfold on_leave_analysis. destruct r; [reflexivity|].
    rewrite completion_socket_emit by reflexivity. reflexivity.
Qed.

End NoEarlyCompletion.

Section ExitSignal.

Context {host : Host}.

Lemma completion_emit_member (room : jsstring) (m : message) (w : world)
  (s : socket_id) :
  s ∈ roomClients room w ->
  List.filter is_completion (inbox (io_to_emit room m w) s)
  = List.filter is_completion (inbox w s)
    ++ (if is_completion m then [m] else []).
Proof.
  intros Hin. rewrite inbox_emit. destruct (decide _); [|contradiction].
  rewrite List.filter_app. cbn [List.filter].
  destruct (is_completion m); reflexivity.
Qed.

Lemma finish_steps_completion (requestId : jsstring) (msg : string)
  (w : world) (s : socket_id) :
  s ∈ roomClients (roomName requestId) w ->
  List.filter is_completion
    (inbox (finish_steps (sendProgress requestId) msg w) s)
  = List.filter is_completion (inbox w s)
    ++ [Progress {| p_requestId := requestId; p_stepId := step_complete;
                    p_label := js "분석 완료"; p_status := success;
                    p_message := js msg; p_timestamp := now w;
                    p_details := [] |}].
Proof.
  intros Hin. unfold finish_steps, sendProgress.
  rewrite completion_emit_member by exact Hin.
  rewrite 3 completion_emit_member by exact Hin.
  cbn [is_completion p_stepId p_status]. rewrite !app_nil_r. reflexivity.
Qed.

(** X12.  When the worker exits with code 0, the handler of the exit
    itself gives every socket of the room the completion signal, once,
    before the promise is resolved and so before anything is saved;
    when it exits otherwise, the handler sends nothing. *)
Theorem exit_signals_completion :
  forall (requestId : jsstring) (code : option Z) (st : supervisor)
         (w : world) (s : socket_id),
    processFinished st = false ->
    s ∈ roomClients (roomName requestId) w ->
    let w' := snd (on_close (Some (sendProgress requestId))
                            (Some (sendRealtimeLog requestId)) code st w) in
    if decide (code = Some 0) then
      exists msg,
        List.filter is_completion (inbox w' s)
        = List.filter is_completion (inbox w s)
          ++ [Progress {| p_requestId := requestId;
                          p_stepId := step_complete;
                          p_label := js "분석 완료"; p_status := success;
                          p_message := msg; p_timestamp := now w;
                          p_details := [] |}]
    else w' = w.
Proof.
  intros requestId code st w s Hf Hin w'. subst w'.
  unfold on_close. rewrite Hf.
  destruct (decide (code = Some 0)); [|reflexivity].
  destruct (truthy _); cbn [snd call_if]; eexists.
  - unfold sendRealtimeLog. rewrite completion_emit by reflexivity.
    apply finish_steps_completion, Hin.
  - apply finish_steps_completion, Hin.
Qed.

End ExitSignal.

Lemma no_completion_while_running_witness :
  List.filter is_completion
    (inbox (snd (supervise (host := sample_host)
                   (Some (sendProgress request_id)) request_id None
                   worker_output initial_supervisor
                   (on_join_analysis 5%nat request_id empty_world))) 5%nat)
  = List.filter is_completion
      (inbox (on_join_analysis 5%nat request_id empty_world) 5%nat).
Proof.
  apply (no_completion_while_running (host := sample_host) request_id None
           worker_output initial_supervisor
           (on_join_analysis 5%nat request_id empty_world) 5%nat).
  vm_compute. reflexivity.
Defined.

Lemma exit_signals_completion_witness :
  exists msg,
    List.filter is_completion
      (inbox (snd (on_close (host := sample_host)
                     (Some (sendProgress request_id))
                     (Some (sendRealtimeLog request_id)) (Some 0)
                     initial_supervisor
                     (on_join_analysis 5%nat request_id empty_world))) 5%nat)
    = List.filter is_completion
        (inbox (on_join_analysis 5%nat request_id empty_world) 5%nat)
      ++ [Progress {| p_requestId := request_id; p_stepId := step_complete;
                      p_label := js "분석 완료"; p_status := success;
                      p_message := msg;
                      p_timestamp :=
                        now (on_join_analysis 5%nat request_id empty_world);
                      p_details := [] |}].
Proof.
  apply (exit_signals_completion (host := sample_host) request_id (Some 0)
           initial_supervisor
           (on_join_analysis 5%nat request_id empty_world) 5%nat).
  - reflexivity.
  - rewrite clients_join by (vm_compute; discriminate).
    destruct (decide _); [|congruence].
    apply elem_of_union_r, elem_of_singleton. reflexivity.
Defined.

(** ** Calls without a progress callback *)

Section NoCallback.

Context {host : Host}.

(** Without [sendProgress] the result object is never built: the call
    that follows the last log entries is not guarded. *)
Lemma build_analysis_needs_callback (stockName : jsstring)
  (lg : option log_fn) (data : jsval) (w : world) :
  exists e, fst (build_analysis stockName None lg data w) = Throw e.
Proof.
  unfold build_analysis.
  destruct (negb (readable data)); [eexists; reflexivity|].
  match goal with
  | |- context [match ?x with Some _ => _ | None => _ end] =>
    destruct x as [analyzedNews|]; [|eexists; reflexivity]
  end.
  destruct (count_all analyzedNews no_counters) as [c|] eqn:Ec;
    msimpl; eexists; reflexivity.
Qed.

Lemma collect_without_callback (stockName : jsstring)
  (startDate endDate : option jsstring) (requestId : jsstring)
  (lg : option log_fn) (sched : list event) (w : world) :
  match fst (collectAndAnalyzeStock stockName startDate endDate None
               requestId lg sched w) with
  | Ok _ => False
  | Throw _ => True
  | Pending =>
    exists w0, fst (await_promise None requestId lg sched
                                  initial_supervisor w0) = Pending
  end.
Proof.
  unfold collectAndAnalyzeStock. rewrite try_catch_apply. msimpl. mbind.
  match goal with
  | |- context [runPythonAnalyzer ?a ?b ?c ?d ?e ?f ?g ?w0] =>
    destruct (runPythonAnalyzer a b c d e f g w0)
      as [[[data|err t raw]|ex|] w3] eqn:E
  end; msimpl; try exact I.
  - match goal with
    | |- context [build_analysis ?a ?b ?c ?d ?w0] =>
      destruct (build_analysis_needs_callback a c d w0) as (e & He);
      rewrite (fst_eq _ _ He)
    end.
    exact I.
  - unfold runPythonAnalyzer in E. msimpl in E.
    match type of E with
    | await_promise _ _ _ _ _ ?w0 = _ => exists w0; rewrite E; reflexivity
    end.
Qed.

(** X13.  [collectAndAnalyzeStock] called without a progress callback
    returns no result, whatever the worker does: it throws or waits for
    ever, since the success path calls the callback without testing it. *)
Theorem analysis_needs_progress_callback :
  forall (stockName : jsstring) (startDate endDate : option jsstring)
         (requestId : jsstring) (lg : option log_fn) (sched : list event)
         (w : world) (a : analysis),
    fst (collectAndAnalyzeStock stockName startDate endDate None requestId
                                lg sched w) <> Ok a.
Proof.
  intros stockName startDate endDate requestId lg sched w a H.
  pose proof (collect_without_callback stockName startDate endDate requestId
                lg sched w) as Hc.
  rewrite H in Hc. exact Hc.
Qed.

(** Runs that come to an end: the worker exits with code 0, or it is
    still running at the deadline. *)
Lemma exit_zero_ends (before rest : list event) :
  still_running before -> comes_to_an_end (before ++ Close (Some 0) :: rest).
Proof.
  intros H lg requestId w. rewrite await_exit_zero by exact H. discriminate.
Qed.

Lemma deadline_ends (before after : list event) :
  still_running before -> comes_to_an_end (with_deadline before after).
Proof.
  intros H lg requestId w. rewrite await_timeout by exact H. discriminate.
Qed.

(** X14.  [getRecentAnalysis] passes no callback on: when the run of
    the worker comes to an end, it throws. *)
Theorem getRecentAnalysis_throws :
  forall (stockName : jsstring) (days : option Z) (sched : list event)
         (w : world),
    comes_to_an_end sched ->
    exists e, fst (getRecentAnalysis stockName days sched w) = Throw e.
Proof.
  intros stockName days sched w Hend. unfold getRecentAnalysis. msimpl.
  match goal with
  | |- context [collectAndAnalyzeStock ?a ?b ?c ?d ?e ?f ?g ?w0] =>
    pose proof (collect_without_callback a b c e f g w0) as Hc;
    destruct (fst (collectAndAnalyzeStock a b c d e f g w0)) as [x|e0|]
  end.
  - contradiction.
  - eexists. reflexivity.
  - destruct Hc as (w0 & Hp). exfalso. exact (Hend _ _ _ Hp).
Qed.

Lemma batch_loop_null (stockList : list jsstring) :
  forall (startDate endDate : option jsstring) (scheds : list (list event))
         (results : gmap jsstring (option analysis)) (w : world),
    (length stockList <= length scheds)%nat ->
    Forall comes_to_an_end scheds ->
    exists m,
      fst (batch_loop stockList startDate endDate scheds results w) = Ok m /\
      forall s, m !! s = if decide (s ∈ stockList) then Some None
                         else results !! s.
Proof.
  induction stockList as [|stockName rest IH];
    intros startDate endDate scheds results w Hlen Hall.
  - exists results. split; [reflexivity|]. intros s.
    destruct (decide (s ∈ [])) as [Hin|_]; [|reflexivity].
    apply elem_of_nil in Hin. contradiction.
  - destruct scheds as [|sched scheds]; [cbn in Hlen; lia|].
    apply Forall_cons in Hall as [Hend Hall]. cbn [length] in Hlen.
    cbn [batch_loop head tail default from_option]. unfold id.
    mbind. rewrite try_catch_apply. mbind.
    pose proof (collect_without_callback stockName startDate endDate
                  no_request None sched w) as Hc.
    destruct (collectAndAnalyzeStock stockName startDate endDate None
                no_request None sched w) as [[a|e|] w1]; cbn [fst] in Hc.
    + contradiction.
    + msimpl.
      destruct (IH startDate endDate scheds (<[stockName := None]> results)
                   w1 ltac:(lia) Hall) as (m & Hm & Hs).
      exists m. split; [exact Hm|]. intros s. rewrite Hs.
      destruct (decide (s = stockName)) as [->|Hne].
      * destruct (decide (stockName ∈ rest));
          destruct (decide (stockName ∈ stockName :: rest)) as [_|Hn];
          try reflexivity;
          try (exfalso; apply Hn, elem_of_cons; left; reflexivity).
        apply lookup_insert_eq.
      * rewrite lookup_insert_ne by congruence.
        destruct (decide (s ∈ rest)) as [Hin|Hout];
          destruct (decide (s ∈ stockName :: rest)) as [Hin'|Hout'];
          try reflexivity.
        -- exfalso. apply Hout', elem_of_cons. right. exact Hin.
        -- exfalso. apply elem_of_cons in Hin' as [?|?]; contradiction.
    + destruct Hc as (w0 & Hp). exfalso. exact (Hend _ _ _ Hp).
Qed.

(** X15.  [batchAnalysis] never gives an analysis: when every run of
    the worker comes to an end, it returns the object that has [null]
    for each stock of the list and nothing else. *)
Theorem batchAnalysis_yields_only_null :
  forall (stockList : list jsstring) (startDate endDate : option jsstring)
         (scheds : list (list event)) (w : world),
    (length stockList <= length scheds)%nat ->
    Forall comes_to_an_end scheds ->
    exists m,
      fst (batchAnalysis stockList startDate endDate scheds w) = Ok m /\
      forall s, m !! s = if decide (s ∈ stockList) then Some None else None.
Proof.
  intros stockList startDate endDate scheds w Hlen Hall.
  destruct (batch_loop_null stockList startDate endDate scheds ∅ w Hlen Hall)
    as (m & Hm & Hs).
  exists m. split; [exact Hm|]. intros s. rewrite Hs, lookup_empty.
  reflexivity.
Qed.

End NoCallback.

Lemma getRecentAnalysis_throws_witness :
  exists e,
    fst (getRecentAnalysis (host := sample_host) (js "삼성전자") None
           ([] ++ Close (Some 0) :: []) empty_world) = Throw e.
Proof.
  apply (getRecentAnalysis_throws (host := sample_host) (js "삼성전자") None
           ([] ++ Close (Some 0) :: []) empty_world).
  apply exit_zero_ends. reflexivity.
Defined.

Lemma batchAnalysis_yields_only_null_witness :
  exists m,
    fst (batchAnalysis (host := sample_host) [js "삼성전자"; js "LG"] None None
           [[] ++ Close (Some 0) :: []; with_deadline [] []] empty_world)
    = Ok m /\
    forall s, m !! s = if decide (s ∈ [js "삼성전자"; js "LG"])
                       then Some None else None.
Proof.
  apply (batchAnalysis_yields_only_null (host := sample_host)
           [js "삼성전자"; js "LG"] None None
           [[] ++ Close (Some 0) :: []; with_deadline [] []] empty_world).
  - cbn [length]. lia.
  - repeat constructor.
    + apply exit_zero_ends. reflexivity.
    + apply deadline_ends. reflexivity.
Defined.

(** ** The records of the database *)

Section Records.

Context {host : Host}.

(** X16.  A request created under an id of the driver that is free is
    found under the id that is returned, with status [pending] and the
    time of its creation; the other records are as before. *)
Theorem created_request_is_found :
  forall (stockName startDate endDate : jsstring) (w : world),
    analysis_requests w !! (next_oid w mod oid_bound)%N = None ->
    exists rid w',
      createAnalysisRequest stockName startDate endDate w = (Ok rid, w') /\
      getAnalysisRequest rid w'
      = Some (new_request_doc stockName startDate endDate (now w)) /\
      forall other, other <> (next_oid w mod oid_bound)%N ->
                    analysis_requests w' !! other
                    = analysis_requests w !! other.
Proof.
  intros stockName startDate endDate w Hfree.
  assert (Hlt : (next_oid w mod oid_bound < oid_bound)%N).
  { apply N.mod_lt. discriminate. }
  remember (next_oid w mod oid_bound)%N as i eqn:Hi.
  exists (ObjectId_toString i). eexists. split.
  - unfold createAnalysisRequest, generate_oid. msimpl. rewrite <- Hi.
    mbind. unfold insertOne. cbn [analysis_requests set_next_oid].
    unfold oid in *. rewrite Hfree. msimpl. reflexivity.
  - split.
    + unfold getAnalysisRequest. rewrite (ObjectId_roundtrip _ Hlt).
      cbn [analysis_requests log_action set_requests set_next_oid now].
      apply lookup_insert_eq.
    + intros other Hne.
      cbn [analysis_requests log_action set_requests set_next_oid].
      apply lookup_insert_ne. congruence.
Qed.

(** X17.  An update of the status of a request that has no record
    creates none: the update is made without [upsert], so the
    collection stays as it is and the request is still not found. *)
Theorem status_update_needs_record :
  forall (requestId : jsstring) (i : oid) (s : job_status)
         (completedAt : option Z) (w : world),
    ObjectId_parse requestId = Some i ->
    analysis_requests w !! i = None ->
    exists w',
      updateAnalysisStatus requestId s completedAt w = (Ok tt, w') /\
      analysis_requests w' = analysis_requests w /\
      getAnalysisRequest requestId w' = None.
Proof.
  intros requestId i s completedAt w Hid Hnone.
  eexists. split.
  - unfold updateAnalysisStatus. msimpl. rewrite Hid. reflexivity.
  - cbn [analysis_requests log_action set_requests].
    assert (E : alter (update_doc s completedAt (now w)) i
                      (analysis_requests w) = analysis_requests w).
    { apply map_eq. intros j. destruct (decide (j = i)) as [->|Hne].
      - rewrite lookup_alter_eq, Hnone. reflexivity.
      - rewrite lookup_alter_ne by congruence. reflexivity. }
    split; [exact E|].
    unfold getAnalysisRequest. rewrite Hid.
    cbn [analysis_requests log_action set_requests]. rewrite E. exact Hnone.
Qed.

(** X18.  A result that is saved is found for the request afterwards
    in the form [saveAnalysisResults] gives it, whether or not a result
    was stored before: the counts, the sentiment and the lists as they
    were given, the scores never NaN, each field that was falsy replaced
    by its default.  So a result is found as it was given exactly when
    the defaults leave it alone, and saving what is found stores the
    same again.  The results of the other requests are as before. *)
Theorem saved_results_are_found :
  forall (requestId : jsstring) (i : oid) (a : analysis) (w : world),
    ObjectId_parse requestId = Some i ->
    exists w',
      saveAnalysisResults requestId a w = (Ok tt, w') /\
      getAnalysisResults requestId w' = Some (resultDoc a) /\
      isNaN (overall_score (resultDoc a)) = false /\
      isNaN (confidence_score (resultDoc a)) = false /\
      (getAnalysisResults requestId w' = Some a <-> resultDoc a = a) /\
      (stored_as_is a -> resultDoc a = a) /\
      getAnalysisResults requestId
        (snd (saveAnalysisResults requestId (resultDoc a) w'))
      = Some (resultDoc a) /\
      forall other, other <> i ->
                    analysis_results w' !! other = analysis_results w !! other.
Proof.
  intros requestId i a w Hid. eexists. split.
  { unfold saveAnalysisResults. rewrite Hid. reflexivity. }
  assert (Hget : getAnalysisResults requestId
                   (log_action (DbSaveResults i)
                      (set_results (<[i := resultDoc a]> (analysis_results w))
                                   w)) = Some (resultDoc a)).
  { unfold getAnalysisResults. rewrite Hid.
    cbn [analysis_results log_action set_results]. apply lookup_insert_eq. }
  assert (Hnan : forall x, isNaN (or_zero x) = false).
  { intros x. unfold or_zero, JsNumber.truthy.
    destruct x; reflexivity. }
  split; [exact Hget|].
  split; [apply Hnan|]. split; [apply Hnan|].
  split; [rewrite Hget; split; congruence|].
  split; [apply resultDoc_as_is|].
  split.
  - unfold saveAnalysisResults, getAnalysisResults. rewrite Hid.
    cbn [snd exec analysis_results log_action set_results].
    rewrite lookup_insert_eq, resultDoc_idem. reflexivity.
  - intros other Hne. cbn [analysis_results log_action set_results].
    apply lookup_insert_ne. congruence.
Qed.

(** X19.  Saving an analysis is not all or nothing: when an item of
    its news cannot be read, the call throws after the result itself has
    been stored, and no news is stored. *)
Theorem unreadable_news_leaves_result :
  forall (requestId : jsstring) (i : oid) (a : analysis)
         (lg : option log_fn) (w : world),
    ObjectId_parse requestId = Some i ->
    io_callback io_log lg ->
    forallb readable (news_data a) = false ->
    let r := saveAnalysisToDatabase requestId a lg w in
    (exists e, fst r = Throw e) /\
    analysis_results (snd r) !! i = Some (resultDoc a) /\
    news_data_docs (snd r) = news_data_docs w.
Proof.
  intros requestId i a lg w Hid Hlg Hbad.
  assert (E : exists e,
    saveAnalysisToDatabase requestId a lg w
    = (Throw e,
       call_if lg (fun g => g step_save
                     (js "❌ Error saving analysis results: "
                         ++ exn_message e) log_error)
         (log_action (DbSaveResults i)
            (set_results (<[i := resultDoc a]> (analysis_results w)) w)))).
  { unfold saveAnalysisToDatabase. rewrite try_catch_apply. mbind.
    unfold saveAnalysisResults at 1. rewrite Hid. msimpl. mbind.
    unfold saveNewsData at 1.
    destruct (news_data a) as [|n l] eqn:En; [discriminate|].
    rewrite Hid, Hbad. msimpl. eexists. reflexivity. }
  destruct E as (e & E). cbv zeta. rewrite E. cbn [fst snd].
  split; [exists e; reflexivity|].
  match goal with
  | |- context [call_if lg ?k ?w0] =>
    assert (Hio : io_only w0 (call_if lg k w0))
      by (apply (io_only_call_if io_log); [exact Hlg|intros g Hg; apply Hg])
  end.
  destruct Hio as (_ & -> & -> & _).
  cbn [analysis_results news_data_docs log_action set_results].
  split; [apply lookup_insert_eq|reflexivity].
Qed.

End Records.

Lemma created_request_is_found_witness :
  exists rid w',
    createAnalysisRequest (host := sample_host) (js "삼성전자")
      (js "2023-11-07") (js "2023-11-14") empty_world = (Ok rid, w') /\
    getAnalysisRequest (host := sample_host) rid w'
    = Some (new_request_doc (js "삼성전자") (js "2023-11-07")
              (js "2023-11-14") (now empty_world)) /\
    forall other, other <> (next_oid empty_world mod oid_bound)%N ->
                  analysis_requests w' !! other
                  = analysis_requests empty_world !! other.
Proof.
  apply (created_request_is_found (host := sample_host) (js "삼성전자")
           (js "2023-11-07") (js "2023-11-14") empty_world).
  vm_compute. reflexivity.
Defined.

Lemma status_update_needs_record_witness :
  exists w',
    updateAnalysisStatus (host := sample_host) request_id failed None
                         empty_world = (Ok tt, w') /\
    analysis_requests w' = analysis_requests empty_world /\
    getAnalysisRequest (host := sample_host) request_id w' = None.
Proof.
  apply (status_update_needs_record (host := sample_host) request_id
           request_oid failed None empty_world).
  - vm_compute. reflexivity.
  - vm_compute. reflexivity.
Defined.

Lemma saved_results_are_found_witness :
  exists w',
    saveAnalysisResults (host := sample_host) request_id unreadable_analysis
                        empty_world = (Ok tt, w') /\
    getAnalysisResults (host := sample_host) request_id w'
    = Some (resultDoc unreadable_analysis) /\
    isNaN (overall_score (resultDoc unreadable_analysis)) = false.
Proof.
  destruct (saved_results_are_found (host := sample_host) request_id
              request_oid unreadable_analysis empty_world)
    as (w' & Hs & Hg & Hn & _).
  - vm_compute. reflexivity.
  - exists w'. auto.
Defined.

Lemma unreadable_news_leaves_result_witness :
  (exists e,
     fst (saveAnalysisToDatabase (host := sample_host) request_id
            unreadable_analysis None empty_world) = Throw e) /\
  analysis_results
    (snd (saveAnalysisToDatabase (host := sample_host) request_id
            unreadable_analysis None empty_world)) !! request_oid
  = Some (resultDoc unreadable_analysis) /\
  news_data_docs
    (snd (saveAnalysisToDatabase (host := sample_host) request_id
            unreadable_analysis None empty_world))
  = news_data_docs empty_world.
Proof.
  apply (unreadable_news_leaves_result (host := sample_host) request_id
           request_oid unreadable_analysis None empty_world).
  - vm_compute. reflexivity.
  - exact I.
  - reflexivity.
Defined.

(** ** More about the handler of a submission *)

Section HandlerMore.

Context {host : Host}.

(** X20.  The analysis itself writes nothing to the database and does
    not throw: between the status [processing] and the end of
    [runJavaScriptAnalysis] the collections, the clock and the writes
    made so far are the same, whatever the worker does. *)
Theorem analysis_phase_writes_nothing :
  forall (stockName startDate endDate requestId : jsstring)
         (sched : list event) (w : world),
    let r := runJavaScriptAnalysis stockName startDate endDate requestId
               (Some (sendProgress requestId))
               (Some (sendRealtimeLog requestId)) sched w in
    io_only w (snd r) /\ forall e, fst r <> Throw e.
Proof.
  intros stockName startDate endDate requestId sched w r. subst r. split.
  - apply runJavaScriptAnalysis_io.
    + apply io_progress_sendProgress.
    + apply io_log_sendRealtimeLog.
  - apply runJavaScriptAnalysis_no_throw.
Qed.

(** X21.  A submission that is answered with success can be fetched:
    the answer names the request, the record of the request has status
    [completed] and a time of completion, and the result found for it
    is the analysis of the answer, field by field. *)
Theorem answered_result_is_stored :
  forall (req : body) (sched : list event) (w : world) (rid : jsstring)
         (i : oid) (answered : jsstring) (data : analysisData),
    valid_body req -> job_of w req rid i ->
    fst (post_api_analysis req sched w) = Ok (Success answered data) ->
    let w' := snd (post_api_analysis req sched w) in
    answered = rid /\
    getAnalysisResults rid w' = Some (d_analysis data) /\
    exists d,
      getAnalysisRequest rid w' = Some d /\
      status d = completed /\ completed_at d <> None.
Proof.
  intros req sched w rid i answered data Hvalid Hjob Hans w'. subst w'.
  destruct (handler_cases req sched w rid i Hvalid Hjob)
    as (wB & Hid & SB & Hio & Hcase).
  cbv zeta in Hcase. rewrite Hans in Hcase.
  destruct SB as (HB & _). destruct Hio as (HC & _).
  destruct (fst (runJavaScriptAnalysis _ _ _ _ _ _ _ wB))
    as [[d0|err]|ex|] eqn:Erun; [| | contradiction |].
  - destruct Hcase as ([[Ho SF]|[Ho _]] & _); [|discriminate].
    injection Ho as -> ->. destruct SF as (HF & HR & _).
    split; [reflexivity|].
    unfold getAnalysisResults, getAnalysisRequest. rewrite Hid.
    split.
    { rewrite HR, lookup_insert_eq.
      rewrite (resultDoc_as_is _ (runJavaScriptAnalysis_stored _ _ _ _ _ _ _
                                    _ _ Erun)).
      reflexivity. }
    rewrite HF, HC, HB. unfold to_completed, to_processing.
    rewrite !lookup_alter_eq.
    destruct (creation_lookup i (request_of req (now w)) w) as (d & -> & _).
    eexists. split; [reflexivity|]. split; [reflexivity|discriminate].
  - destruct Hcase as (Ho & _). discriminate.
  - destruct Hcase as (Ho & _). discriminate.
Qed.

(** X22.  A submission under the id of a record that exists runs on
    this record: its stock name, dates and time of creation stay, even
    if the submission names another stock; the record is given the
    status [processing] again, not [pending]; and unless the run ends
    with [completed], the time of completion of the earlier run stays
    in the record. *)
Theorem resubmission_reuses_record :
  forall (req : body) (sched : list event) (w : world) (rid : jsstring)
         (i : oid) (d0 : request_doc),
    valid_body req -> job_of w req rid i ->
    analysis_requests w !! i = Some d0 ->
    let w' := snd (post_api_analysis req sched w) in
    exists d,
      analysis_requests w' !! i = Some d /\
      stock_name d = stock_name d0 /\ start_date d = start_date d0 /\
      end_date d = end_date d0 /\ created_at d = created_at d0 /\
      (exists rest, history i w' = history i w ++ processing :: rest) /\
      (status d <> completed -> completed_at d = completed_at d0).
Proof.
  intros req sched w rid i d0 Hvalid Hjob Hold w'. subst w'.
  destruct (handler_cases req sched w rid i Hvalid Hjob)
    as (wB & Hid & SB & Hio & Hcase).
  cbv zeta in Hcase.
  unfold creation in SB. rewrite Hold in SB. cbn [fst snd app] in SB.
  unfold kept in SB.
  destruct SB as (HB & _ & _ & HhB).
  pose proof (history_io i _ _ Hio) as HhC. destruct Hio as (HC & _).
  destruct (fst (runJavaScriptAnalysis _ _ _ _ _ _ _ wB))
    as [[data|err]|ex|]; [| | contradiction |].
  - destruct Hcase as ([[Ho SF]|[Ho SF]] & _);
      destruct SF as (HF & _ & _ & HhF).
    + eexists. split.
      { rewrite HF, HC, HB. unfold to_completed, to_processing.
        rewrite !lookup_alter_eq, Hold. reflexivity. }
      cbn [stock_name start_date end_date created_at status completed_at
           update_doc].
      repeat (split; [reflexivity|]).
      split; [|congruence].
      rewrite HhF, HhC, HhB, <- app_assoc. eexists. reflexivity.
    + eexists. split.
      { rewrite HF, HC, HB. unfold kept, to_processing.
        rewrite !lookup_alter_eq, Hold. reflexivity. }
      cbn [stock_name start_date end_date created_at status completed_at
           update_doc].
      repeat (split; [reflexivity|]).
      split; [|reflexivity].
      rewrite HhF, HhC, HhB, <- app_assoc. eexists. reflexivity.
  - destruct Hcase as (Ho & SF). destruct SF as (HF & _ & _ & HhF).
    eexists. split.
    { rewrite HF, HC, HB. unfold to_failed, to_processing.
      rewrite !lookup_alter_eq, Hold. reflexivity. }
    cbn [stock_name start_date end_date created_at status completed_at
         update_doc].
    repeat (split; [reflexivity|]).
    split; [|reflexivity].
    rewrite HhF, HhC, HhB, <- app_assoc. eexists. reflexivity.
  - destruct Hcase as (Ho & ->).
    eexists. split.
    { rewrite HC, HB. unfold to_processing.
      rewrite !lookup_alter_eq, Hold. reflexivity. }
    cbn [stock_name start_date end_date created_at status completed_at
         update_doc].
    repeat (split; [reflexivity|]).
    split; [|reflexivity].
    rewrite HhC, HhB. eexists. reflexivity.
Qed.

(** X23.  An id of the client that is not an ObjectId is dropped
    without a word: the job runs under an id made up by the driver,
    which differs from the one the client has sent, and the answer
    carries the new id. *)
Theorem malformed_client_id_is_replaced :
  forall (req : body) (sched : list event) (w : world) (bad : jsstring),
    valid_body req ->
    b_requestId req = Some bad -> bad <> [] ->
    ObjectId_parse bad = None ->
    analysis_requests w !! ((next_oid w mod oid_bound)%N : oid) = None ->
    let rid := ObjectId_toString (next_oid w mod oid_bound)%N in
    let run := post_api_analysis req sched w in
    rid <> bad /\
    getAnalysisRequest bad (snd run) = None /\
    getAnalysisRequest rid (snd run) <> None /\
    match fst run with
    | Ok (Success answered _) | Ok (Failure _ answered) => answered = rid
    | Ok (BadRequest _) => False
    | _ => True
    end.
Proof.
  intros req sched w bad Hvalid Hreq Hne Hbad Hfree. cbv zeta.
  assert (Hlt : (next_oid w mod oid_bound < oid_bound)%N).
  { apply N.mod_lt. discriminate. }
  assert (exists i : oid, i = (next_oid w mod oid_bound)%N) as (i & Hi)
    by (eexists; reflexivity).
  rewrite <- Hi in Hfree, Hlt |- *.
  set (rid := ObjectId_toString i).
  assert (Hjob : job_of w req rid i).
  { apply (replaced_id w req rid i bad); auto. }
  assert (Hrid : ObjectId_parse rid = Some i).
  { apply ObjectId_roundtrip, Hlt. }
  split; [intros E; rewrite E in Hrid; congruence|].
  split; [unfold getAnalysisRequest; rewrite Hbad; reflexivity|].
  destruct (handler_cases req sched w rid i Hvalid Hjob)
    as (wB & Hid & SB & Hio & Hcase).
  cbv zeta in Hcase.
  destruct SB as (HB & _). destruct Hio as (HC & _).
  assert (HwB : analysis_requests wB !! i <> None).
  { rewrite HB. unfold to_processing. rewrite lookup_alter_eq.
    destruct (creation_lookup i (request_of req (now w)) w) as (d & -> & _).
    discriminate. }
  unfold getAnalysisRequest. rewrite Hrid.
  destruct (fst (runJavaScriptAnalysis _ _ _ _ _ _ _ wB))
    as [[data|err]|ex|]; [| | contradiction |].
  - destruct Hcase as ([[Ho SF]|[Ho SF]] & _); destruct SF as (HF & _);
      rewrite Ho; (split; [|reflexivity]); rewrite HF, HC.
    + unfold to_completed. rewrite lookup_alter_eq.
      destruct (analysis_requests wB !! i); [discriminate|congruence].
    + exact HwB.
  - destruct Hcase as (Ho & SF). destruct SF as (HF & _).
    rewrite Ho. split; [|reflexivity]. rewrite HF, HC.
    unfold to_failed. rewrite lookup_alter_eq.
    destruct (analysis_requests wB !! i); [discriminate|congruence].
  - destruct Hcase as (Ho & ->). rewrite Ho. split; [|exact I].
    rewrite HC. exact HwB.
Qed.

End HandlerMore.

Lemma answered_result_is_stored_witness :
  exists a,
    getAnalysisResults (host := sample_host) request_id
      (snd (post_api_analysis (host := sample_host) sample_body good_run
                              empty_world)) = Some a.
Proof.
  edestruct (answered_result_is_stored (host := sample_host) sample_body
               good_run empty_world request_id request_oid)
    as (_ & Hr & _).
  - split; vm_compute; reflexivity.
  - apply client_id.
    + reflexivity.
    + vm_compute. discriminate.
    + vm_compute. reflexivity.
  - vm_compute. reflexivity.
  - eexists. exact Hr.
Defined.

Lemma resubmission_reuses_record_witness :
  exists d,
    analysis_requests
      (snd (post_api_analysis (host := sample_host) sample_body
              (with_deadline worker_output []) world_with_record))
    !! request_oid = Some d /\
    stock_name d = stock_name completed_doc /\
    (status d <> completed -> completed_at d = completed_at completed_doc).
Proof.
  destruct (resubmission_reuses_record (host := sample_host) sample_body
              (with_deadline worker_output []) world_with_record request_id
              request_oid completed_doc)
    as (d & Hd & Hs & _ & _ & _ & _ & Hc).
  - split; vm_compute; reflexivity.
  - apply client_id.
    + reflexivity.
    + vm_compute. discriminate.
    + vm_compute. reflexivity.
  - vm_compute. reflexivity.
  - exists d. auto.
Defined.

Lemma malformed_client_id_is_replaced_witness :
  ObjectId_toString (Host := sample_host)
                    (next_oid empty_world mod oid_bound)%N
  <> js "not-an-object-id" /\
  getAnalysisRequest (host := sample_host) (js "not-an-object-id")
    (snd (post_api_analysis (host := sample_host) malformed_body good_run
                            empty_world)) = None.
Proof.
  destruct (malformed_client_id_is_replaced (host := sample_host)
              malformed_body good_run empty_world (js "not-an-object-id"))
    as (Hne & Hnone & _).
  - split; vm_compute; reflexivity.
  - reflexivity.
  - vm_compute. discriminate.
  - vm_compute. reflexivity.
  - vm_compute. reflexivity.
  - split; assumption.
Defined.

(** ** The cache *)

Section CacheFacts.

Import Cache.

Lemma live_not_expired (t : Z) (d : cache_doc) :
  live t d = negb (expired t d).
Proof.
  unfold live, expired. destruct (expires_at d) as [e|]; [|reflexivity].
  destruct (Z.ltb_spec t e), (Z.leb_spec e t); try reflexivity; lia.
Qed.

Lemma findOne_replaceOne (f g : cache_doc -> bool) (doc : cache_doc)
  (c : collection) :
  g doc = true -> (forall d, g d = true -> f d = true) ->
  findOne g (replaceOne f doc c) = Some doc.
Proof.
  intros Hdoc Hsub. induction c as [|d r IH]; cbn [replaceOne findOne].
  - rewrite Hdoc. reflexivity.
  - destruct (f d) eqn:Ef; cbn [findOne].
    + rewrite Hdoc. reflexivity.
    + destruct (g d) eqn:Eg; [|exact IH].
      apply Hsub in Eg. congruence.
Qed.

Lemma findOne_replaceOne_other (f g : cache_doc -> bool) (doc : cache_doc)
  (c : collection) :
  g doc = false -> (forall d, f d = true -> g d = false) ->
  findOne g (replaceOne f doc c) = findOne g c.
Proof.
  intros Hdoc Hdis. induction c as [|d r IH]; cbn [replaceOne findOne].
  - rewrite Hdoc. reflexivity.
  - destruct (f d) eqn:Ef; cbn [findOne].
    + rewrite Hdoc, (Hdis d Ef). reflexivity.
    + rewrite IH. reflexivity.
Qed.

Lemma keys_replaceOne (key : jsstring) (doc : cache_doc) (c : collection) :
  cache_key doc = key ->
  forall k, In k (map cache_key (replaceOne (has_key key) doc c))
            <-> k = key \/ In k (map cache_key c).
Proof.
  intros Hk k. induction c as [|d r IH]; cbn [replaceOne map In].
  - rewrite Hk. intuition congruence.
  - unfold has_key at 1. destruct (bool_decide_reflect (cache_key d = key)) as [E|E];
      cbn [map In].
    + rewrite Hk, E. intuition congruence.
    + rewrite IH. tauto.
Qed.

Lemma unique_replaceOne (key : jsstring) (doc : cache_doc) (c : collection) :
  cache_key doc = key ->
  unique_keys c -> unique_keys (replaceOne (has_key key) doc c).
Proof.
  intros Hk. unfold unique_keys.
  induction c as [|d r IH]; intros Hu; cbn [replaceOne map].
  - repeat constructor. intros Hin. apply elem_of_nil in Hin. exact Hin.
  - cbn [map] in Hu. apply NoDup_cons in Hu as [Hd Hr].
    unfold has_key at 1.
    destruct (bool_decide_reflect (cache_key d = key)) as [E|E]; cbn [map].
    + apply NoDup_cons. split; [|exact Hr]. rewrite Hk, <- E. exact Hd.
    + apply NoDup_cons. split; [|apply IH, Hr].
      intros Hin. apply list_elem_of_In, (keys_replaceOne key doc r Hk) in Hin.
      destruct Hin as [Hin|Hin]; [congruence|].
      apply Hd, list_elem_of_In, Hin.
Qed.

Lemma findOne_none (f : cache_doc -> bool) (c : collection) :
  (forall d, In d c -> f d = false) -> findOne f c = None.
Proof.
  induction c as [|d r IH]; intros H; [reflexivity|].
  cbn [findOne]. rewrite (H d (or_introl eq_refl)).
  apply IH. intros d' Hd'. apply H. right. exact Hd'.
Qed.

Lemma findOne_clear (cacheKey : jsstring) (t : Z) (c : collection) :
  findOne (fun d => has_key cacheKey d && live t d)
          (List.filter (fun d => negb (expired t d)) c)
  = findOne (fun d => has_key cacheKey d && live t d) c.
Proof.
  induction c as [|d r IH]; [reflexivity|].
  cbn [List.filter findOne].
  destruct (expired t d) eqn:E; cbn [negb findOne];
    rewrite (live_not_expired t d), E; cbn [negb].
  - rewrite andb_false_r. exact IH.
  - rewrite IH. reflexivity.
Qed.

Section Expiry.

Variable setHours_plus : Z -> Z -> Z.

(** X24.  What is put in the cache is served under its key until it
    expires, whatever the collection held and whatever is stored under
    other keys, which are served as before. *)
Theorem cached_value_is_served :
  forall (cacheKey cacheType : jsstring) (value : jsval)
         (stockName startDate endDate : option jsstring)
         (expiresHours : option Z) (t t' : Z) (c : collection),
    t' < setHours_plus t (default 24 expiresHours) ->
    let c' := setCache setHours_plus cacheKey cacheType value stockName
                       startDate endDate expiresHours t c in
    getCache cacheKey t' c' = value /\
    forall other, other <> cacheKey ->
                  getCache other t' c' = getCache other t' c.
Proof.
  intros cacheKey cacheType value stockName startDate endDate expiresHours
         t t' c Hlive c'. subst c'. unfold getCache, setCache. split.
  - rewrite findOne_replaceOne; [reflexivity| |].
    + unfold has_key, live. cbn [cache_key expires_at].
      rewrite bool_decide_eq_true_2 by reflexivity.
      apply Z.ltb_lt in Hlive. rewrite Hlive. reflexivity.
    + intros d Hd. apply andb_prop in Hd as [Hd _]. exact Hd.
  - intros other Hne. rewrite findOne_replaceOne_other; [reflexivity| |].
    + unfold has_key. cbn [cache_key].
      rewrite bool_decide_eq_false_2 by congruence. reflexivity.
    + intros d Hd. unfold has_key in *. apply bool_decide_eq_true in Hd.
      rewrite bool_decide_eq_false_2 by congruence. reflexivity.
Qed.

(** X25.  [setCache] keeps the keys of the collection apart: when no
    two documents have the same key, this is so afterwards; and then a
    value is no longer served once it has expired. *)
Theorem cache_keys_stay_unique :
  forall (cacheKey cacheType : jsstring) (value : jsval)
         (stockName startDate endDate : option jsstring)
         (expiresHours : option Z) (t t' : Z) (c : collection),
    unique_keys c ->
    let c' := setCache setHours_plus cacheKey cacheType value stockName
                       startDate endDate expiresHours t c in
    unique_keys c' /\
    (setHours_plus t (default 24 expiresHours) <= t' ->
     getCache cacheKey t' c' = JNull).
Proof.
  intros cacheKey cacheType value stockName startDate endDate expiresHours
         t t' c Hu c'. subst c'. unfold setCache.
  set (doc := {| cache_key := cacheKey; cache_type := cacheType;
                 stock_name := stockName;
                 start_date := date_or_null startDate;
                 end_date := date_or_null endDate; data := value;
                 expires_at := Some (setHours_plus t (default 24 expiresHours));
                 created_at := t; updated_at := t |}).
  pose proof (unique_replaceOne cacheKey doc c eq_refl Hu) as Hu'.
  split; [exact Hu'|]. intros Hexp. unfold getCache.
  rewrite findOne_none; [reflexivity|].
  intros d Hd. destruct (has_key cacheKey d) eqn:Ek; [|reflexivity].
  cbn [andb]. unfold has_key in Ek. apply bool_decide_eq_true in Ek.
  assert (d = doc) as ->.
  { clear Hexp. revert Hu Hu' Hd. unfold unique_keys.
    induction c as [|x r IH]; cbn [replaceOne map In]; intros Hu Hu' Hd.
    - destruct Hd as [Hd|[]]. congruence.
    - cbn [map] in Hu. apply NoDup_cons in Hu as [Hx Hr].
      revert Hu' Hd. unfold has_key at 1 3.
      destruct (bool_decide_reflect (cache_key x = cacheKey)) as [E|E];
        cbn [map In]; intros Hu' Hd.
      + destruct Hd as [Hd|Hd]; [congruence|]. exfalso. apply Hx.
        rewrite E, <- Ek. apply list_elem_of_In, in_map, Hd.
      + destruct Hd as [Hd|Hd]; [congruence|].
        apply NoDup_cons in Hu' as [_ Hu']. exact (IH Hr Hu' Hd). }
  unfold live, doc. cbn [expires_at]. apply Z.ltb_ge. exact Hexp.
Qed.

End Expiry.

(** X26.  Clearing the expired documents cannot be seen through
    [getCache]: what it removes is what [getCache] passes over, so
    that every key is served as before; the documents that are left
    are live and the count that is returned is the number of documents
    removed. *)
Theorem clearing_expired_is_invisible :
  forall (t : Z) (c : collection),
    let r := clearExpiredCache t c in
    (forall cacheKey, getCache cacheKey t (fst r) = getCache cacheKey t c) /\
    Forall (fun d => live t d = true) (fst r) /\
    (length (fst r) + snd r)%nat = length c /\
    (unique_keys c -> unique_keys (fst r)).
Proof.
  intros t c r. subst r. unfold clearExpiredCache. cbn [fst snd].
  split; [|split; [|split]].
  - intros cacheKey. unfold getCache.
    rewrite (findOne_clear cacheKey t c). reflexivity.
  - induction c as [|d r IH]; [constructor|].
    cbn [List.filter]. destruct (expired t d) eqn:E; cbn [negb];
      [exact IH|].
    constructor; [|exact IH]. rewrite live_not_expired, E. reflexivity.
  - induction c as [|d r IH]; [reflexivity|].
    cbn [List.filter]. destruct (expired t d); cbn [negb length]; lia.
  - unfold unique_keys. induction c as [|d r IH]; intros Hu; [exact Hu|].
    cbn [map] in Hu. apply NoDup_cons in Hu as [Hd Hr].
    cbn [List.filter]. destruct (expired t d); cbn [negb map];
      [apply IH, Hr|].
    apply NoDup_cons. split; [|apply IH, Hr].
    intros Hin. apply Hd. apply list_elem_of_In in Hin.
    apply list_elem_of_In. apply in_map_iff in Hin as (x & Hx & Hin).
    apply in_map_iff. exists x. split; [exact Hx|].
    apply List.filter_In in Hin. tauto.
Qed.

End CacheFacts.

Lemma cached_value_is_served_witness :
  Cache.getCache (js "news:LG") 3000
    (Cache.setCache Cache.plain_hours (js "news:LG") (js "news")
       (JStr (js "new")) (Some (js "LG")) None None None 2000 [stale_doc])
  = JStr (js "new").
Proof.
  apply (cached_value_is_served Cache.plain_hours (js "news:LG") (js "news")
           (JStr (js "new")) (Some (js "LG")) None None None 2000 3000
           [stale_doc]).
  vm_compute. reflexivity.
Defined.

Lemma cache_keys_stay_unique_witness :
  Cache.unique_keys
    (Cache.setCache Cache.plain_hours (js "news:LG") (js "news")
       (JStr (js "new")) (Some (js "LG")) None None None 2000 [stale_doc]).
Proof.
  apply (cache_keys_stay_unique Cache.plain_hours (js "news:LG") (js "news")
           (JStr (js "new")) (Some (js "LG")) None None None 2000 3000
           [stale_doc]).
  unfold Cache.unique_keys. cbn [map]. apply NoDup_singleton.
Defined.

(** ** Duplicates among the news *)

Section Duplicates.

Import NewsCollector.

Lemma filter_seen_sublist (l : list news) :
  forall seen, sublist (filter_seen seen l) l.
Proof.
  induction l as [|n l IH]; intros seen; cbn [filter_seen]; [constructor|].
  destruct (decide _); [apply sublist_cons|apply sublist_skip]; apply IH.
Qed.

Lemma filter_seen_fresh (l : list news) :
  forall seen n, n ∈ filter_seen seen l -> key_of n ∉ seen.
Proof.
  induction l as [|x l IH]; intros seen n; cbn [filter_seen].
  - intros H. apply elem_of_nil in H. contradiction.
  - destruct (decide (key_of x ∈ seen)) as [Hin|Hout]; [apply IH|].
    intros H. apply elem_of_cons in H as [->|H]; [exact Hout|].
    apply IH in H. intros Hn. apply H, elem_of_union_r, Hn.
Qed.

Lemma filter_seen_unique (l : list news) :
  forall seen, NoDup (key_of <$> filter_seen seen l).
Proof.
  induction l as [|x l IH]; intros seen; cbn [filter_seen]; [constructor|].
  destruct (decide (key_of x ∈ seen)) as [Hin|Hout]; [apply IH|].
  cbn [fmap list_fmap]. apply NoDup_cons. split; [|apply IH].
  intros H. apply list_elem_of_fmap in H as (n & Hk & Hn).
  apply filter_seen_fresh in Hn. apply Hn. rewrite <- Hk.
  apply elem_of_union_l, elem_of_singleton. reflexivity.
Qed.

Lemma filter_seen_complete (l : list news) :
  forall seen n,
    n ∈ l -> key_of n ∈ seen \/ key_of n ∈ (key_of <$> filter_seen seen l).
Proof.
  induction l as [|x l IH]; intros seen n H.
  - apply elem_of_nil in H. contradiction.
  - cbn [filter_seen]. apply elem_of_cons in H as [->|H].
    + destruct (decide (key_of x ∈ seen)) as [Hin|Hout]; [left; exact Hin|].
      right. cbn [fmap list_fmap]. apply elem_of_cons. left. reflexivity.
    + destruct (decide (key_of x ∈ seen)) as [Hin|Hout]; [apply IH, H|].
      destruct (IH ({[key_of x]} ∪ seen) n H) as [Hs|Hs].
      * apply elem_of_union in Hs as [Hs|Hs]; [|left; exact Hs].
        apply elem_of_singleton in Hs. right. cbn [fmap list_fmap].
        apply elem_of_cons. left. exact Hs.
      * right. cbn [fmap list_fmap]. apply elem_of_cons. right. exact Hs.
Qed.

(** The items that follow a stretch are filtered with the keys of the
    stretch in the set. *)
Lemma filter_seen_app (l1 l2 : list news) :
  forall seen,
    filter_seen seen (l1 ++ l2)
    = filter_seen seen l1
      ++ filter_seen (list_to_set (key_of <$> l1) ∪ seen) l2.
Proof.
  induction l1 as [|x l1 IH]; intros seen; cbn [app filter_seen].
  - cbn. f_equal. apply leibniz_equiv.
    rewrite (left_id ∅ (∪)). reflexivity.
  - assert (E : forall s : gset jsstring,
               key_of x ∈ s ->
               list_to_set (key_of <$> x :: l1) ∪ s
               = list_to_set (key_of <$> l1) ∪ s).
    { intros s Hs. cbn [fmap list_fmap list_to_set]. apply set_eq. intros k.
      rewrite !elem_of_union, elem_of_singleton.
      split; [intros [[->|H]|H]|intros [H|H]]; auto. }
    destruct (decide (key_of x ∈ seen)) as [Hin|Hout].
    + rewrite IH, (E seen Hin). reflexivity.
    + cbn [app]. rewrite IH. f_equal. f_equal.
      apply (f_equal (fun s => filter_seen s l2)).
      cbn [fmap list_fmap list_to_set]. apply set_eq. intros k.
      rewrite !elem_of_union, elem_of_singleton. tauto.
Qed.

Lemma filter_seen_keep (l : list news) :
  forall seen,
    NoDup (key_of <$> l) ->
    (forall n, n ∈ l -> key_of n ∉ seen) ->
    filter_seen seen l = l.
Proof.
  induction l as [|x l IH]; intros seen Hu Hs; [reflexivity|].
  cbn [filter_seen]. cbn [fmap list_fmap] in Hu.
  apply NoDup_cons in Hu as [Hx Hu].
  destruct (decide (key_of x ∈ seen)) as [Hin|Hout].
  - exfalso. apply (Hs x); [apply elem_of_cons; left; reflexivity|exact Hin].
  - f_equal. apply IH; [exact Hu|]. intros n Hn Hk.
    apply elem_of_union in Hk as [Hk|Hk].
    + apply elem_of_singleton in Hk. apply Hx. rewrite <- Hk.
      apply list_elem_of_fmap. exists n. split; [reflexivity|exact Hn].
    + apply (Hs n); [apply elem_of_cons; right; exact Hn|exact Hk].
Qed.

(** X27.  [removeDuplicates] leaves a selection of the items, in their
    order, in which no key occurs twice and every key of the input
    occurs; a list without repeated keys is returned as it is, so that
    removing twice is removing once. *)
Theorem removeDuplicates_selects_one_per_key :
  forall (newsData : list news),
    sublist (removeDuplicates newsData) newsData /\
    NoDup (key_of <$> removeDuplicates newsData) /\
    (forall n, n ∈ newsData ->
               key_of n ∈ (key_of <$> removeDuplicates newsData)) /\
    (NoDup (key_of <$> newsData) -> removeDuplicates newsData = newsData) /\
    removeDuplicates (removeDuplicates newsData) = removeDuplicates newsData.
Proof.
  intros newsData. unfold removeDuplicates.
  assert (Hkeep : forall l, NoDup (key_of <$> l) -> filter_seen ∅ l = l).
  { intros l Hu. apply filter_seen_keep; [exact Hu|].
    intros n _ Hn. apply elem_of_empty in Hn. exact Hn. }
  split; [apply filter_seen_sublist|].
  split; [apply filter_seen_unique|].
  split.
  { intros n Hn. destruct (filter_seen_complete newsData ∅ n Hn) as [H|H];
      [apply elem_of_empty in H; contradiction|exact H]. }
  split; [apply Hkeep|]. apply Hkeep, filter_seen_unique.
Qed.

(** X28.  The item that is kept for a key is the first one: an item
    whose key has occurred before it is dropped as if it were not in
    the list, whether or not it is the same article. *)
Theorem removeDuplicates_drops_later_items :
  forall (earlier later : list news) (n : news),
    key_of n ∈ (key_of <$> earlier) ->
    removeDuplicates (earlier ++ n :: later)
    = removeDuplicates (earlier ++ later).
Proof.
  intros earlier later n Hn. unfold removeDuplicates.
  rewrite !filter_seen_app. f_equal. cbn [filter_seen].
  destruct (decide _) as [_|Hout]; [reflexivity|].
  exfalso. apply Hout, elem_of_union_l, elem_of_list_to_set, Hn.
Qed.

(** X29.  In [collectNews] the items of the first search come before
    those of the second: when the first search has no repeated key, all
    its items are kept, and of the second search only items with other
    keys. *)
Theorem collectNews_prefers_first_source :
  forall (naverNews daumNews : list news),
    NoDup (key_of <$> naverNews) ->
    exists rest,
      collectNews naverNews daumNews = naverNews ++ rest /\
      sublist rest daumNews /\
      forall n, n ∈ rest -> key_of n ∉ (key_of <$> naverNews).
Proof.
  intros naverNews daumNews Hu. unfold collectNews, removeDuplicates.
  rewrite filter_seen_app.
  exists (filter_seen (list_to_set (key_of <$> naverNews) ∪ ∅) daumNews).
  split.
  - f_equal. apply filter_seen_keep; [exact Hu|].
    intros n _ Hn. apply elem_of_empty in Hn. exact Hn.
  - split; [apply filter_seen_sublist|].
    intros n Hn Hk. apply filter_seen_fresh in Hn. apply Hn.
    apply elem_of_union_l, elem_of_list_to_set, Hk.
Qed.

End Duplicates.

Lemma removeDuplicates_drops_later_items_witness :
  NewsCollector.removeDuplicates
    ([article "A-B" "C"] ++ article "A" "B-C" :: [article "D" "E"])
  = NewsCollector.removeDuplicates ([article "A-B" "C"] ++ [article "D" "E"]).
Proof.
  apply (removeDuplicates_drops_later_items [article "A-B" "C"]
           [article "D" "E"] (article "A" "B-C")).
  cbn [fmap list_fmap]. apply list_elem_of_singleton.
  vm_compute. reflexivity.
Defined.

Lemma collectNews_prefers_first_source_witness :
  exists rest,
    NewsCollector.collectNews [article "A" "네이버"]
                              [article "A" "네이버"; article "B" "다음"]
    = [article "A" "네이버"] ++ rest /\
    sublist rest [article "A" "네이버"; article "B" "다음"] /\
    forall n, n ∈ rest ->
              NewsCollector.key_of n
              ∉ (NewsCollector.key_of <$> [article "A" "네이버"]).
Proof.
  apply (collectNews_prefers_first_source [article "A" "네이버"]
           [article "A" "네이버"; article "B" "다음"]).
  cbn [fmap list_fmap]. apply NoDup_singleton.
Defined.
